(** * performance_monitor: a shallow embedding of [DatabaseMonitor]

    The development follows [src/monitoring/performance_monitor.py].
    Python objects are tagged values, Python dicts are insertion-ordered
    association lists, and the methods of [DatabaseMonitor] that make up
    a check cycle ([connect], [disconnect], the probes, [send_alert],
    [check_and_alert]) are computations in a small monad that threads the
    monitor object, collects the observable effects (log records, driver
    calls, alerts) and may raise a Python exception. The database driver
    (psycopg2 / pymysql) is an interface the monitor is parameterised by.
    The polling loop of [monitor] and [main] are computations over the
    same monad; what the loop meets outside the program (the clock, the
    sleep, the state of the connection) is given check by check. *)

From Stdlib Require Import String Ascii List ZArith QArith Bool Lia.
Import ListNotations.

Local Open Scope string_scope.
Local Open Scope Z_scope.

(* ================================================================== *)
(** ** Python values *)

(** The scalars that travel through the monitor: [None], [int], a real
    number ([float] or [Decimal], kept as the exact rational it denotes)
    and [str]. *)
Inductive value : Type :=
| VNone
| VInt (z : Z)
| VNum (q : Q)
| VStr (s : string).

(** The number a numeric value denotes. *)
Definition num_of (v : value) : option Q :=
  match v with
  | VInt z => Some (inject_Z z)
  | VNum q => Some q
  | _ => None
  end.

Definition Qlt_bool (a b : Q) : bool :=
  (Qnum a * QDen b <? Qnum b * QDen a)%Z.

Definition Qzero_bool (a : Q) : bool := (Qnum a =? 0)%Z.

(** [bool(v)]. *)
Definition truthy (v : value) : bool :=
  match v with
  | VNone => false
  | VInt z => negb (z =? 0)
  | VNum q => negb (Qzero_bool q)
  | VStr s => negb (String.eqb s "")
  end.

(* ------------------------------------------------------------------ *)
(** ** Dicts *)

(** A Python [dict] with [str] keys: keys are unique and keep the order
    in which they were first inserted. *)
Definition dict : Type := list (string * value).

Fixpoint dict_get (d : dict) (k : string) : option value :=
  match d with
  | [] => None
  | (k', v) :: d' => if String.eqb k k' then Some v else dict_get d' k
  end.

(** [k in d]. *)
Definition dict_mem (d : dict) (k : string) : bool :=
  match dict_get d k with Some _ => true | None => false end.

(** [d.get(k, dflt)]. *)
Definition dict_get_default (d : dict) (k : string) (dflt : value) : value :=
  match dict_get d k with Some v => v | None => dflt end.

(** [d[k] = v]: overwrite in place, or append a new key. *)
Fixpoint dict_set (d : dict) (k : string) (v : value) : dict :=
  match d with
  | [] => [(k, v)]
  | (k', v') :: d' =>
      if String.eqb k k' then (k', v) :: d' else (k', v') :: dict_set d' k v
  end.

(** [dict(pairs)]. *)
Definition dict_of_pairs (ps : list (string * value)) : dict :=
  fold_left (fun d kv => dict_set d (fst kv) (snd kv)) ps [].

(** [zip(xs, ys)]. *)
Fixpoint zip {A B : Type} (xs : list A) (ys : list B) : list (A * B) :=
  match xs, ys with
  | x :: xs', y :: ys' => (x, y) :: zip xs' ys'
  | _, _ => []
  end.

(* ------------------------------------------------------------------ *)
(** ** Exceptions *)

(** The exceptions that can arise in the monitor. [DriverError] stands for
    the error classes of the database drivers, which all derive from
    [Exception]; [KeyboardInterrupt] derives from [BaseException] only. *)
Inductive exn : Type :=
| TypeError
| ValueError (msg : string)
| AttributeError
| IndexError
| KeyError (k : string)
| DriverError (msg : string)
| KeyboardInterrupt.

(** [isinstance(e, Exception)]: what [except Exception] catches. *)
Definition is_Exception (e : exn) : bool :=
  match e with
  | KeyboardInterrupt => false
  | _ => true
  end.

Inductive res (A : Type) : Type :=
| Ok (a : A)
| Raise (e : exn).
Arguments Ok {A} a.
Arguments Raise {A} e.

(* ------------------------------------------------------------------ *)
(** ** Formatted text *)

(** An f-string is kept as the sequence of its parts: the literal
    fragments, [str(v)] of an interpolated value, a number rendered with
    the format spec [.2f], and [str(e)] of an exception. The rendering of
    numbers into digits is left symbolic. *)
Inductive piece : Type :=
| Lit (s : string)
| Str (v : value)
| Fixed2 (q : Q)
| ExnStr (e : exn).

Definition text : Type := list piece.

(** [format(v, ".2f")]. *)
Definition format_2f (v : value) : res piece :=
  match v with
  | VInt z => Ok (Fixed2 (inject_Z z))
  | VNum q => Ok (Fixed2 q)
  | VNone => Raise TypeError
  | VStr _ => Raise (ValueError "Unknown format code 'f' for object of type 'str'")
  end.

(** A Python [str] is a sequence of characters; a [string] here holds
    its UTF-8 encoding. A byte [10xxxxxx] continues the character that
    the bytes before it began. *)
Definition continuation (c : ascii) : bool :=
  let n := nat_of_ascii c in
  ((128 <=? n) && (n <? 192))%nat.

(** [len(s)]: the number of characters. *)
Fixpoint py_len (s : string) : nat :=
  match s with
  | EmptyString => O
  | String c s' => if continuation c then py_len s' else S (py_len s')
  end.

(** [s[:n]] for [n >= 0]: the first [n] characters, each with all of its
    bytes. *)
Fixpoint take_chars (n : nat) (s : string) : string :=
  match s with
  | EmptyString => EmptyString
  | String c s' =>
      if continuation c then String c (take_chars n s')
      else
        match n with
        | O => EmptyString
        | S n' => String c (take_chars n' s')
        end
  end.

(** [v[:n]]: defined on strings only. *)
Definition slice_to (n : nat) (v : value) : res value :=
  match v with
  | VStr s => Ok (VStr (take_chars n s))
  | _ => Raise TypeError
  end.

(** [v > n] for an integer literal [n]. *)
Definition py_gt (v : value) (n : Z) : res bool :=
  match v with
  | VInt z => Ok (n <? z)
  | VNum q => Ok (Qlt_bool (inject_Z n) q)
  | _ => Raise TypeError
  end.

(** [v < n] for an integer literal [n]. *)
Definition py_lt (v : value) (n : Z) : res bool :=
  match v with
  | VInt z => Ok (z <? n)
  | VNum q => Ok (Qlt_bool q (inject_Z n))
  | _ => Raise TypeError
  end.

(** [v / n] for a non-zero integer literal [n] (true division). *)
Definition py_truediv (v : value) (n : Z) : res Q :=
  match v with
  | VInt z => Ok (inject_Z z / inject_Z n)%Q
  | VNum q => Ok (q / inject_Z n)%Q
  | _ => Raise TypeError
  end.

Fixpoint repeat_string (s : string) (n : nat) : string :=
  match n with
  | O => ""
  | S n' => s ++ repeat_string s n'
  end.

(** [v * n] for a positive integer literal [n]: arithmetic on numbers,
    repetition on strings. *)
Definition py_mul (v : value) (n : Z) : res value :=
  match v with
  | VInt z => Ok (VInt (z * n))
  | VNum q => Ok (VNum (q * inject_Z n)%Q)
  | VStr s => Ok (VStr (repeat_string s (Z.to_nat n)))
  | VNone => Raise TypeError
  end.

(** [s.lower()] on the ASCII range; bytes of other characters are kept
    (no character outside ASCII lowers to the letters of a dialect
    name). *)
Definition lower_ascii (c : ascii) : ascii :=
  let n := nat_of_ascii c in
  if ((65 <=? n) && (n <=? 90))%nat then ascii_of_nat (n + 32) else c.

Fixpoint lower (s : string) : string :=
  match s with
  | EmptyString => EmptyString
  | String c s' => String (lower_ascii c) (lower s')
  end.

(* ================================================================== *)
(** ** The database driver *)

(** What a cursor holds after [execute]: the column names of
    [cur.description] and the rows [fetchall] / [fetchone] read. *)
Record qresult : Type := {
  description : list string;
  rows : list (list value)
}.

(** The driver module a connection comes from. *)
Inductive backend : Type := Psycopg2 | Pymysql.

(** The part of the DB-API the monitor calls. [Conn] is the connection
    object; closing mutates it, so [driver_close] returns its new state.
    [driver_execute] is the server's answer to a statement sent through a
    cursor of that connection. *)
Class Driver (Conn : Type) : Type := {
  driver_connect : backend -> dict -> res Conn;
  driver_close : Conn -> res unit * Conn;
  driver_execute : Conn -> string -> res qresult
}.

(** [cur.fetchone()]. *)
Definition fetchone (r : qresult) : option (list value) :=
  match rows r with
  | [] => None
  | row :: _ => Some row
  end.

(** [cur.fetchall()]. *)
Definition fetchall (r : qresult) : list (list value) := rows r.

(* ------------------------------------------------------------------ *)
(** ** Observable effects *)

Inductive level : Type := INFO | WARNING | ERROR.

Inductive event : Type :=
| Log (l : level) (msg : text)
| Connect (b : backend) (params : dict)
| Close
| Execute (q : string)
| SendAlert (subject message : text).

(** The findings of a run: the alerts it sent, in order. *)
Fixpoint findings (out : list event) : list (text * text) :=
  match out with
  | [] => []
  | SendAlert s m :: out' => (s, m) :: findings out'
  | _ :: out' => findings out'
  end.

(** The driver connection attempts of a run. *)
Fixpoint connect_calls (out : list event) : nat :=
  match out with
  | [] => O
  | Connect _ _ :: out' => S (connect_calls out')
  | _ :: out' => connect_calls out'
  end.

(** The findings whose subject starts with the literal [s]. *)
Definition has_subject (s : string) (f : text * text) : bool :=
  match fst f with
  | Lit s' :: _ => String.eqb s s'
  | _ => false
  end.

Definition findings_about (s : string) (out : list event) : list (text * text) :=
  filter (has_subject s) (findings out).

(** Sequencing of pure steps that may raise. *)
Definition res_bind {A B : Type} (r : res A) (k : A -> res B) : res B :=
  match r with
  | Ok a => k a
  | Raise e => Raise e
  end.

Notation "x <-? r ; k" := (res_bind r (fun x => k))
  (at level 61, r at next level, right associativity).

(** [row[i]] on a tuple. *)
Definition index (row : list value) (i : nat) : res value :=
  match nth_error row i with
  | Some v => Ok v
  | None => Raise IndexError
  end.

(** Left-to-right traversal that stops at the first exception. *)
Fixpoint map_res {A B : Type} (f : A -> res B) (xs : list A) : res (list B) :=
  match xs with
  | [] => Ok []
  | x :: xs' => y <-? f x; ys <-? map_res f xs'; Ok (y :: ys)
  end.

Definition nl : string := String (ascii_of_nat 10) EmptyString.

(* ================================================================== *)
(** ** The cache-hit-ratio statement on the server *)

(** The monitor computes the ratio inside its SQL text,
    [ROUND(100 * sum(blks_hit) / NULLIF(sum(blks_hit) + sum(blks_read), 0), 2)],
    so the expression is evaluated here as the server evaluates it: a
    value is a number or NULL, operators are strict in NULL, and a
    division by zero is an error of the statement. *)
Definition sql_value : Type := option Q.

Definition sql_add (a b : sql_value) : sql_value :=
  match a, b with
  | Some x, Some y => Some (x + y)%Q
  | _, _ => None
  end.

Definition sql_mul (a b : sql_value) : sql_value :=
  match a, b with
  | Some x, Some y => Some (x * y)%Q
  | _, _ => None
  end.

(** [NULLIF(a, b)]: NULL when the two are equal, [a] otherwise. *)
Definition sql_nullif (a b : sql_value) : sql_value :=
  match a, b with
  | Some x, Some y => if Qeq_bool x y then None else Some x
  | _, _ => a
  end.

Definition sql_div (a b : sql_value) : res sql_value :=
  match a, b with
  | Some x, Some y =>
      if Qzero_bool y then Raise (DriverError "division by zero")
      else Ok (Some (x / y)%Q)
  | _, _ => Ok None
  end.

(** [ROUND(a, 2)]: to two decimals, halves away from zero. *)
Definition round2 (q : Q) : Q :=
  let n := Qnum q * 100 in
  let d := Z.pos (Qden q) in
  (Z.sgn n * ((2 * Z.abs n + d) / (2 * d))) # 100.

Definition sql_round2 (a : sql_value) : sql_value := option_map round2 a.

(** The value of the statement for the block counters of the current
    database. *)
Definition pg_cache_hit_ratio (blks_hit blks_read : Z) : res sql_value :=
  let hit := Some (inject_Z blks_hit) in
  let read := Some (inject_Z blks_read) in
  ratio <-? sql_div (sql_mul (Some (inject_Z 100)) hit)
                    (sql_nullif (sql_add hit read) (Some (inject_Z 0)));
  Ok (sql_round2 ratio).

(** NULL reaches Python as [None], a numeric as a [Decimal]. *)
Definition py_of_sql (v : sql_value) : value :=
  match v with
  | None => VNone
  | Some q => VNum q
  end.

(** What the cursor holds after the statement. *)
Definition pg_cache_hit_ratio_answer (blks_hit blks_read : Z) : res qresult :=
  v <-? pg_cache_hit_ratio blks_hit blks_read;
  Ok {| description := ["round"]; rows := [[py_of_sql v]] |}.

(* ================================================================== *)
(** ** Scripted drivers *)

(** A connection of the scripted drivers: the answers of the server to
    each statement, and whether the connection has been closed. *)
Record scripted : Type := {
  answers : string -> res qresult;
  closed : bool
}.

Definition scripted_execute (c : scripted) (q : string) : res qresult :=
  if closed c then Raise (DriverError "connection already closed") else answers c q.

(** A driver whose [close] may be repeated, as psycopg2's. [server] is
    what a connection attempt meets. *)
Definition lenient_driver (server : res scripted) : Driver scripted :=
  {| driver_connect := fun _ _ => server;
     driver_close := fun c => (Ok tt, {| answers := answers c; closed := true |});
     driver_execute := scripted_execute |}.

(** A driver whose [close] refuses a closed connection, as pymysql's. *)
Definition strict_driver (server : res scripted) : Driver scripted :=
  {| driver_connect := fun _ _ => server;
     driver_close := fun c =>
       if closed c then (Raise (DriverError "Already closed"), c)
       else (Ok tt, {| answers := answers c; closed := true |});
     driver_execute := scripted_execute |}.

Definition refused : res scripted := Raise (DriverError "connection refused").

(** A one-row, one-column answer. *)
Definition scalar (v : value) : res qresult :=
  Ok {| description := ["?column?"]; rows := [[v]] |}.

(* ================================================================== *)
(** ** The monitor *)

Section Monitor.

Context {Conn : Type} {drv : Driver Conn}.

(** The fields of a [DatabaseMonitor] object. *)
Record monitor : Type := {
  conn_params : dict;
  db_type : string;
  slow_query_threshold : Z;
  connection : option Conn
}.

Definition set_connection (self : monitor) (c : option Conn) : monitor :=
  {| conn_params := conn_params self;
     db_type := db_type self;
     slow_query_threshold := slow_query_threshold self;
     connection := c |}.

(** A method: it runs on the monitor object, returns a value or raises,
    leaves the object in a new state and emits events. *)
Definition M (A : Type) : Type := monitor -> res A * monitor * list event.

Definition ret {A : Type} (a : A) : M A := fun self => (Ok a, self, []).

Definition raise {A : Type} (e : exn) : M A := fun self => (Raise e, self, []).

Definition bind {A B : Type} (m : M A) (k : A -> M B) : M B :=
  fun self =>
    match m self with
    | (Ok a, self', out) =>
        let '(r, self'', out') := k a self' in (r, self'', (out ++ out')%list)
    | (Raise e, self', out) => (Raise e, self', out)
    end.

Notation "x <- m ;; k" := (bind m (fun x => k))
  (at level 61, m at next level, right associativity).
Notation "m ;; k" := (bind m (fun _ => k))
  (at level 61, right associativity).

Definition lift {A : Type} (r : res A) : M A := fun self => (r, self, []).

Definition get_self : M monitor := fun self => (Ok self, self, []).

Definition emit (e : event) : M unit := fun self => (Ok tt, self, [e]).

(** [logger.info / warning / error]. *)
Definition log (l : level) (msg : text) : M unit := emit (Log l msg).

(** [try: body except Exception as e: handler e]. *)
Definition try_except {A : Type} (body : M A) (handler : exn -> M A) : M A :=
  fun self =>
    match body self with
    | (Raise e, self', out) =>
        if is_Exception e
        then let '(r, self'', out') := handler e self' in (r, self'', (out ++ out')%list)
        else (Raise e, self', out)
    | done => done
    end.

(** [for x in xs: body x]. *)
Fixpoint for_each {A : Type} (xs : list A) (body : A -> M unit) : M unit :=
  match xs with
  | [] => ret tt
  | x :: xs' => body x ;; for_each xs' body
  end.

(** [for i, x in enumerate(xs, start): body i x]. *)
Fixpoint for_enumerate {A : Type} (xs : list A) (start : Z)
    (body : Z -> A -> M unit) : M unit :=
  match xs with
  | [] => ret tt
  | x :: xs' => body start x ;; for_enumerate xs' (start + 1) body
  end.

(** [DatabaseMonitor.__init__]. *)
Definition init (connection_params : dict) (db_type : string) : monitor :=
  {| conn_params := connection_params;
     db_type := lower db_type;
     slow_query_threshold := 1000;
     connection := None |}.

(** [psycopg2.connect] / [pymysql.connect] on the connection parameters. *)
Definition call_connect (b : backend) (params : dict) : M Conn :=
  fun self => (driver_connect b params, self, [Connect b params]).

(** [self.connection.close()]. *)
Definition call_close (c : Conn) : M unit :=
  fun self =>
    let '(r, c') := driver_close c in (r, set_connection self (Some c'), [Close]).

(** [DatabaseMonitor.connect]. *)
Definition connect : M bool :=
  try_except
    (self <- get_self ;;
     (if String.eqb (db_type self) "postgresql" then
        c <- call_connect Psycopg2 (conn_params self) ;;
        fun self => (Ok tt, set_connection self (Some c), [])
      else if String.eqb (db_type self) "mysql" then
        c <- call_connect Pymysql (conn_params self) ;;
        fun self => (Ok tt, set_connection self (Some c), [])
      else
        raise (ValueError ("Unsupported database type: " ++ db_type self))) ;;
     log INFO [Lit "✓ Connected to "; Lit (db_type self); Lit " database"] ;;
     ret true)
    (fun e =>
       log ERROR [Lit "Failed to connect: "; ExnStr e] ;;
       ret false).

(** [DatabaseMonitor.disconnect]. A connection object is truthy, [None]
    is not. *)
Definition disconnect : M unit :=
  self <- get_self ;;
  match connection self with
  | Some c =>
      call_close c ;;
      log INFO [Lit "Database connection closed"]
  | None => ret tt
  end.

(* ------------------------------------------------------------------ *)
(** *** Probes *)

(** [self.connection.cursor()]: an attribute lookup on [None] when the
    monitor holds no connection. *)
Definition cursor : M Conn :=
  fun self =>
    match connection self with
    | Some c => (Ok c, self, [])
    | None => (Raise AttributeError, self, [])
    end.

(** [cur.execute(query)]. *)
Definition execute (cur : Conn) (query : string) : M qresult :=
  fun self => (driver_execute cur query, self, [Execute query]).

Definition pg_slow_query : string :=
"
        SELECT 
            pid,
            usename,
            datname,
            EXTRACT(EPOCH FROM (now() - query_start)) * 1000 AS duration_ms,
            state,
            wait_event_type,
            wait_event,
            LEFT(query, 200) AS query_preview
        FROM pg_stat_activity
        WHERE state != 'idle'
            AND pid != pg_backend_pid()
            AND now() - query_start > interval '1 second'
        ORDER BY duration_ms DESC;
        ".

(** [DatabaseMonitor.get_slow_queries_postgresql]. *)
Definition get_slow_queries_postgresql : M (list dict) :=
  try_except
    (cur <- cursor ;;
     r <- execute cur pg_slow_query ;;
     let columns := description r in
     let results := fetchall r in
     ret (map (fun row => dict_of_pairs (zip columns row)) results))
    (fun e =>
       log ERROR [Lit "Error fetching slow queries: "; ExnStr e] ;;
       ret []).

Definition mysql_slow_query : string :=
"
        SELECT 
            Id AS pid,
            User AS usename,
            db AS datname,
            Time AS duration_seconds,
            State AS state,
            LEFT(Info, 200) AS query_preview
        FROM information_schema.PROCESSLIST
        WHERE Command != 'Sleep'
            AND Time > 1
            AND Id != CONNECTION_ID()
        ORDER BY Time DESC;
        ".

(** The record built from one row of the process list. *)
Definition mysql_record (row : list value) : res dict :=
  pid <-? index row 0;
  usename <-? index row 1;
  datname <-? index row 2;
  seconds <-? index row 3;
  duration_ms <-? py_mul seconds 1000;
  state <-? index row 4;
  query_preview <-? index row 5;
  Ok [("pid", pid); ("usename", usename); ("datname", datname);
      ("duration_ms", duration_ms); ("state", state);
      ("query_preview", query_preview)].

(** [DatabaseMonitor.get_slow_queries_mysql]. *)
Definition get_slow_queries_mysql : M (list dict) :=
  try_except
    (cur <- cursor ;;
     r <- execute cur mysql_slow_query ;;
     let results := fetchall r in
     lift (map_res mysql_record results))
    (fun e =>
       log ERROR [Lit "Error fetching slow queries: "; ExnStr e] ;;
       ret []).

(** [DatabaseMonitor.get_slow_queries]. *)
Definition get_slow_queries : M (list dict) :=
  self <- get_self ;;
  if String.eqb (db_type self) "postgresql" then get_slow_queries_postgresql
  else if String.eqb (db_type self) "mysql" then get_slow_queries_mysql
  else ret [].

Definition pg_active_connections_query : string :=
"
                SELECT COUNT(*) FROM pg_stat_activity 
                WHERE state = 'active';
            ".

Definition pg_total_connections_query : string :=
"
                SELECT COUNT(*) FROM pg_stat_activity;
            ".

Definition pg_database_size_query : string :=
"
                SELECT pg_size_pretty(pg_database_size(current_database()));
            ".

Definition pg_cache_hit_ratio_query : string :=
"
                SELECT ROUND(
                    100 * sum(blks_hit) / NULLIF(sum(blks_hit) + sum(blks_read), 0), 2
                ) FROM pg_stat_database WHERE datname = current_database();
            ".

Definition pg_stats_queries : list (string * string) :=
  [("active_connections", pg_active_connections_query);
   ("total_connections", pg_total_connections_query);
   ("database_size", pg_database_size_query);
   ("cache_hit_ratio", pg_cache_hit_ratio_query)].

Definition mysql_active_connections_query : string :=
"
                SELECT COUNT(*) FROM information_schema.PROCESSLIST 
                WHERE Command != 'Sleep';
            ".

Definition mysql_total_connections_query : string :=
"
                SELECT COUNT(*) FROM information_schema.PROCESSLIST;
            ".

Definition mysql_database_size_query : string :=
"
                SELECT CONCAT(ROUND(SUM(data_length + index_length) / 1024 / 1024, 2), ' MB')
                FROM information_schema.TABLES 
                WHERE table_schema = DATABASE();
            ".

Definition mysql_stats_queries : list (string * string) :=
  [("active_connections", mysql_active_connections_query);
   ("total_connections", mysql_total_connections_query);
   ("database_size", mysql_database_size_query)].

(** [result[0] if result else None]: no row and the empty row are both
    falsy. *)
Definition first_column (result : option (list value)) : value :=
  match result with
  | Some (v :: _) => v
  | _ => VNone
  end.

(** The loop [for stat_name, query in queries.items()] of the two
    statistics probes, which share their body. *)
Fixpoint collect_stats (cur : Conn) (queries : list (string * string))
    (stats : dict) : M dict :=
  match queries with
  | [] => ret stats
  | (stat_name, query) :: queries' =>
      r <- execute cur query ;;
      let result := fetchone r in
      collect_stats cur queries' (dict_set stats stat_name (first_column result))
  end.

(** [DatabaseMonitor.get_database_stats_postgresql]. *)
Definition get_database_stats_postgresql : M dict :=
  try_except
    (cur <- cursor ;;
     collect_stats cur pg_stats_queries [])
    (fun e =>
       log ERROR [Lit "Error fetching database stats: "; ExnStr e] ;;
       ret []).

(** [DatabaseMonitor.get_database_stats_mysql]. *)
Definition get_database_stats_mysql : M dict :=
  try_except
    (cur <- cursor ;;
     collect_stats cur mysql_stats_queries [])
    (fun e =>
       log ERROR [Lit "Error fetching database stats: "; ExnStr e] ;;
       ret []).

(** [DatabaseMonitor.get_database_stats]. *)
Definition get_database_stats : M dict :=
  self <- get_self ;;
  if String.eqb (db_type self) "postgresql" then get_database_stats_postgresql
  else if String.eqb (db_type self) "mysql" then get_database_stats_mysql
  else ret [].

(* ------------------------------------------------------------------ *)
(** *** Evaluation and alerting *)

(** [DatabaseMonitor.send_alert]: the call is recorded, then logged. *)
Definition send_alert (subject message : text) : M unit :=
  emit (SendAlert subject message) ;;
  log WARNING (Lit "ALERT: " :: subject) ;;
  log WARNING (Lit "Message: " :: message).

(** The body of the loop over [enumerate(slow_queries, 1)]. *)
Definition report_slow_query (i : Z) (query : dict) : M unit :=
  let duration := dict_get_default query "duration_ms" (VInt 0) in
  let preview := dict_get_default query "query_preview" (VStr "N/A") in
  let pid := dict_get_default query "pid" (VStr "N/A") in
  d <- lift (format_2f duration) ;;
  log WARNING [Lit "  "; Str (VInt i); Lit ". PID "; Str pid; Lit ": "; d; Lit "ms"] ;;
  p <- lift (slice_to 80 preview) ;;
  log WARNING [Lit "     Query: "; Str p; Lit "..."] ;;
  very_slow <- lift (py_gt duration 5000) ;;
  if very_slow : bool then
    seconds <- lift (py_truediv duration 1000) ;;
    send_alert
      [Lit "Very Slow Query Detected (PID "; Str pid; Lit ")"]
      [Lit "Query running for "; Fixed2 seconds; Lit "s:"; Lit nl; Str preview]
  else ret tt.

(** [stats[k]]. *)
Definition getitem (d : dict) (k : string) : M value :=
  match dict_get d k with
  | Some v => ret v
  | None => raise (KeyError k)
  end.

(** The block under [# Check for connection issues]. *)
Definition check_connections (stats : dict) : M unit :=
  if truthy (dict_get_default stats "active_connections" VNone) then
    active <- getitem stats "active_connections" ;;
    high <- lift (py_gt active 100) ;;
    if high : bool then
      send_alert
        [Lit "High Active Connection Count"]
        [Lit "Active connections: "; Str active]
    else ret tt
  else ret tt.

(** The block under [# Check cache hit ratio (PostgreSQL)]. *)
Definition check_cache_hit_ratio (stats : dict) : M unit :=
  if dict_mem stats "cache_hit_ratio" then
    cache_ratio <- getitem stats "cache_hit_ratio" ;;
    low <- (if truthy cache_ratio then lift (py_lt cache_ratio 95) else ret false) ;;
    if low : bool then
      send_alert
        [Lit "Low Cache Hit Ratio"]
        [Lit "Cache hit ratio: "; Str cache_ratio; Lit "% (should be > 95%)"]
    else ret tt
  else ret tt.

(** What [check_and_alert] returns. *)
Record summary : Type := {
  slow_queries_count : Z;
  slow_queries : list dict;
  stats : dict
}.

(** The block that follows the slow-query probe: the listing of the
    records, or the all-clear line. *)
Definition report_slow_queries (slow_queries : list dict) : M unit :=
  match slow_queries with
  | _ :: _ =>
      log WARNING [Lit "⚠ Found "; Str (VInt (Z.of_nat (length slow_queries)));
                   Lit " slow queries:"] ;;
      for_enumerate slow_queries 1 report_slow_query
  | [] => log INFO [Lit "✓ No slow queries detected"]
  end.

(** The statistics listing that follows the statistics probe. *)
Definition log_statistics (stats : dict) : M unit :=
  log INFO [Lit ""] ;;
  log INFO [Lit "Database Statistics:"] ;;
  for_each stats (fun '(stat_name, value) =>
    log INFO [Lit "  "; Lit stat_name; Lit ": "; Str value]).

(** [DatabaseMonitor.check_and_alert]; [now] is the reading of
    [datetime.now()]. *)
Definition check_and_alert (now : string) : M summary :=
  self <- get_self ;;
  log INFO [Lit (repeat_string "=" 70)] ;;
  log INFO [Lit "Database Performance Check"] ;;
  log INFO [Lit (repeat_string "=" 70)] ;;
  log INFO [Lit "Time: "; Lit now] ;;
  log INFO [Lit "Database: "; Lit (db_type self)] ;;
  slow_queries <- get_slow_queries ;;
  report_slow_queries slow_queries ;;
  stats <- get_database_stats ;;
  log_statistics stats ;;
  check_connections stats ;;
  check_cache_hit_ratio stats ;;
  log INFO [Lit (repeat_string "=" 70)] ;;
  log INFO [Lit ""] ;;
  ret {| slow_queries_count := Z.of_nat (length slow_queries);
         slow_queries := slow_queries;
         stats := stats |}.

(* ------------------------------------------------------------------ *)
(** *** Running a method *)

Definition result_of {A : Type} (x : res A * monitor * list event) : res A :=
  fst (fst x).

Definition state_of {A : Type} (x : res A * monitor * list event) : monitor :=
  snd (fst x).

Definition events_of {A : Type} (x : res A * monitor * list event) : list event :=
  snd x.

Lemma run_eta {A : Type} (x : res A * monitor * list event) :
  x = (result_of x, state_of x, events_of x).
Proof. destruct x as [[r s] o]. reflexivity. Qed.

Lemma bind_ok {A B : Type} (m : M A) (k : A -> M B) self a self' out :
  m self = (Ok a, self', out) ->
  bind m k self =
    (result_of (k a self'), state_of (k a self'), (out ++ events_of (k a self'))%list).
Proof.
  intros H. unfold bind. rewrite H.
  destruct (k a self') as [[r s] o]. reflexivity.
Qed.

Lemma bind_raise {A B : Type} (m : M A) (k : A -> M B) self e self' out :
  m self = (Raise e, self', out) ->
  bind m k self = (Raise e, self', out).
Proof. intros H. unfold bind. rewrite H. reflexivity. Qed.

Lemma findings_app (o1 o2 : list event) :
  findings (o1 ++ o2) = (findings o1 ++ findings o2)%list.
Proof.
  induction o1 as [|e o1 IH]; simpl; [reflexivity|].
  destruct e; simpl; rewrite IH; reflexivity.
Qed.

Lemma connect_calls_app (o1 o2 : list event) :
  connect_calls (o1 ++ o2) = (connect_calls o1 + connect_calls o2)%nat.
Proof.
  induction o1 as [|e o1 IH]; simpl; [reflexivity|].
  destruct e; simpl; rewrite IH; reflexivity.
Qed.

(** A dialect the monitor has no driver for. *)
Definition unsupported (self : monitor) : Prop :=
  db_type self <> "postgresql" /\ db_type self <> "mysql".

(** A monitor built with a tag that lowers to neither dialect. *)
Lemma unsupported_init params tag :
  lower tag <> "postgresql" -> lower tag <> "mysql" -> unsupported (init params tag).
Proof. intros H1 H2. split; assumption. Qed.

Lemma unsupported_eqb self :
  unsupported self ->
  String.eqb (db_type self) "postgresql" = false /\
  String.eqb (db_type self) "mysql" = false.
Proof. intros [H1 H2]. split; apply String.eqb_neq; assumption. Qed.

(* ------------------------------------------------------------------ *)
(** *** Connector *)

(** C2 (as amended). With a dialect that is neither postgresql nor mysql,
    [connect] calls no driver, raises nothing to its caller and leaves the
    monitor as it was: the [ValueError] is caught inside [connect], logged
    as an error, and the method returns [False]. *)
Theorem connect_unsupported_returns_false (self : monitor) :
  unsupported self ->
  connect self =
    (Ok false, self,
     [Log ERROR [Lit "Failed to connect: ";
                 ExnStr (ValueError ("Unsupported database type: " ++ db_type self))]])
  /\ connect_calls (events_of (connect self)) = O.
Proof.
  intros H. destruct (unsupported_eqb self H) as [Hpg Hmy].
  assert (E : connect self =
    (Ok false, self,
     [Log ERROR [Lit "Failed to connect: ";
                 ExnStr (ValueError ("Unsupported database type: " ++ db_type self))]])).
  { unfold connect, try_except, bind, get_self. simpl.
    rewrite Hpg, Hmy. reflexivity. }
  split; [exact E | rewrite E; reflexivity].
Qed.

(** A failed driver connection ends the same way: [False], nothing
    raised. *)
Lemma connect_driver_failure (self : monitor) (e : exn) :
  db_type self = "postgresql" ->
  driver_connect Psycopg2 (conn_params self) = Raise e ->
  is_Exception e = true ->
  result_of (connect self) = Ok false.
Proof.
  intros Hd Hc He.
  unfold connect, try_except, bind, get_self, call_connect. simpl.
  rewrite Hd. simpl. rewrite Hc. simpl. rewrite He. reflexivity.
Qed.

(** C8 (as amended). [disconnect] does nothing on a monitor that never
    connected. On a monitor that holds a connection object it calls the
    driver's [close] on it, open or closed alike, keeps the object, and
    raises exactly what that call raises. *)
Theorem disconnect_follows_driver_close (self : monitor) :
  match connection self with
  | None => disconnect self = (Ok tt, self, [])
  | Some c =>
      disconnect self =
        match driver_close c with
        | (Ok _, c') =>
            (Ok tt, set_connection self (Some c'),
             [Close; Log INFO [Lit "Database connection closed"]])
        | (Raise e, c') => (Raise e, set_connection self (Some c'), [Close])
        end
  end.
Proof.
  unfold disconnect, bind, get_self, call_close. simpl.
  destruct (connection self) as [c|]; [|reflexivity].
  destruct (driver_close c) as [[[]|e] c']; reflexivity.
Qed.

(* ------------------------------------------------------------------ *)
(** *** Frame properties *)

(** A computation that neither reads nor writes the monitor: its result
    and its events are the same on every monitor. *)
Definition stateless {A : Type} (m : M A) : Prop :=
  exists r out, forall self, m self = (r, self, out).

(** A computation that leaves the monitor as it was and sends no alert. *)
Definition readonly {A : Type} (m : M A) : Prop :=
  forall self, state_of (m self) = self /\ findings (events_of (m self)) = [].

Lemma stateless_ret {A : Type} (a : A) : stateless (ret a).
Proof. exists (Ok a), []. reflexivity. Qed.

Lemma stateless_lift {A : Type} (r : res A) : stateless (lift r).
Proof. exists r, []. reflexivity. Qed.

Lemma stateless_emit (e : event) : stateless (emit e).
Proof. exists (Ok tt), [e]. reflexivity. Qed.

Lemma stateless_log l msg : stateless (log l msg).
Proof. apply stateless_emit. Qed.

Lemma stateless_raise {A : Type} (e : exn) : stateless (raise (A := A) e).
Proof. exists (Raise e), []. reflexivity. Qed.

Lemma stateless_bind {A B : Type} (m : M A) (k : A -> M B) :
  stateless m -> (forall a, stateless (k a)) -> stateless (bind m k).
Proof.
  intros (r & out & Hm) Hk. destruct r as [a|e].
  - destruct (Hk a) as (r' & out' & Hka).
    exists r', (out ++ out')%list. intros self.
    unfold bind. rewrite Hm, Hka. reflexivity.
  - exists (Raise e), out. intros self. unfold bind. rewrite Hm. reflexivity.
Qed.

Lemma stateless_for_each {A : Type} (xs : list A) (body : A -> M unit) :
  (forall x, stateless (body x)) -> stateless (for_each xs body).
Proof.
  intros Hb. induction xs as [|x xs IH]; simpl.
  - apply stateless_ret.
  - apply stateless_bind; [apply Hb | intros _; exact IH].
Qed.

Lemma stateless_for_enumerate {A : Type} (xs : list A) (body : Z -> A -> M unit) :
  (forall i x, stateless (body i x)) ->
  forall start, stateless (for_enumerate xs start body).
Proof.
  intros Hb. induction xs as [|x xs IH]; intros start; simpl.
  - apply stateless_ret.
  - apply stateless_bind; [apply Hb | intros _; apply IH].
Qed.

Lemma stateless_send_alert subject message : stateless (send_alert subject message).
Proof.
  unfold send_alert.
  repeat (apply stateless_bind; [|intros _]);
    first [apply stateless_emit | apply stateless_log].
Qed.

Ltac stateless_step :=
  first
    [ apply stateless_ret | apply stateless_lift | apply stateless_log
    | apply stateless_emit | apply stateless_raise | apply stateless_send_alert
    | apply stateless_bind; [|intro] ].

Lemma stateless_report_slow_query i query : stateless (report_slow_query i query).
Proof.
  unfold report_slow_query. repeat stateless_step.
  match goal with |- stateless (if ?b then _ else _) => destruct b end;
    repeat stateless_step.
Qed.

Lemma stateless_report_slow_queries sq : stateless (report_slow_queries sq).
Proof.
  unfold report_slow_queries. destruct sq as [|q sq].
  - apply stateless_log.
  - apply stateless_bind; [apply stateless_log | intros _].
    apply stateless_for_enumerate. apply stateless_report_slow_query.
Qed.

Lemma stateless_log_statistics st : stateless (log_statistics st).
Proof.
  unfold log_statistics. repeat stateless_step.
  apply stateless_for_each. intros [k v]. apply stateless_log.
Qed.

Lemma stateless_getitem d k : stateless (getitem d k).
Proof. unfold getitem. destruct (dict_get d k); repeat stateless_step. Qed.

Lemma stateless_check_connections st : stateless (check_connections st).
Proof.
  unfold check_connections.
  destruct (truthy _); [|apply stateless_ret].
  apply stateless_bind; [apply stateless_getitem | intros active].
  apply stateless_bind; [apply stateless_lift | intros [|]]; repeat stateless_step.
Qed.

Lemma stateless_check_cache_hit_ratio st : stateless (check_cache_hit_ratio st).
Proof.
  unfold check_cache_hit_ratio.
  destruct (dict_mem _ _); [|apply stateless_ret].
  apply stateless_bind; [apply stateless_getitem | intros cache_ratio].
  apply stateless_bind.
  - destruct (truthy _); repeat stateless_step.
  - intros [|]; repeat stateless_step.
Qed.

Lemma readonly_of_stateless {A : Type} (m : M A) :
  stateless m -> (forall self, findings (events_of (m self)) = []) -> readonly m.
Proof.
  intros (r & out & Hm) Hf self. split; [|apply Hf].
  rewrite Hm. reflexivity.
Qed.

Lemma readonly_bind {A B : Type} (m : M A) (k : A -> M B) :
  readonly m -> (forall a, readonly (k a)) -> readonly (bind m k).
Proof.
  intros Hm Hk self. destruct (Hm self) as [Hs Hf].
  unfold bind. destruct (m self) as [[[a|e] s] o] eqn:E;
    unfold state_of, events_of in *; simpl in *; subst s.
  - destruct (Hk a self) as [Hs' Hf'].
    destruct (k a self) as [[r' s'] o']; unfold state_of, events_of in *; simpl in *.
    split; [assumption|]. rewrite findings_app, Hf, Hf'. reflexivity.
  - split; [reflexivity | assumption].
Qed.

Lemma readonly_try_except {A : Type} (body : M A) (handler : exn -> M A) :
  readonly body -> (forall e, readonly (handler e)) -> readonly (try_except body handler).
Proof.
  intros Hb Hh self. destruct (Hb self) as [Hs Hf].
  unfold try_except. destruct (body self) as [[[a|e] s] o] eqn:E;
    unfold state_of, events_of in *; simpl in *; subst s.
  - split; [reflexivity | assumption].
  - destruct (is_Exception e).
    + destruct (Hh e self) as [Hs' Hf'].
      destruct (handler e self) as [[r' s'] o']; unfold state_of, events_of in *; simpl in *.
      split; [assumption|]. rewrite findings_app, Hf, Hf'. reflexivity.
    + split; [reflexivity | assumption].
Qed.

Lemma readonly_ret {A : Type} (a : A) : readonly (ret a).
Proof. intros self. split; reflexivity. Qed.

Lemma readonly_lift {A : Type} (r : res A) : readonly (lift r).
Proof. intros self. split; reflexivity. Qed.

Lemma readonly_log l msg : readonly (log l msg).
Proof. intros self. split; reflexivity. Qed.

Lemma readonly_get_self : readonly get_self.
Proof. intros self. split; reflexivity. Qed.

Lemma readonly_cursor : readonly cursor.
Proof. intros self. unfold cursor. destruct (connection self); split; reflexivity. Qed.

Lemma readonly_execute cur q : readonly (execute cur q).
Proof. intros self. split; reflexivity. Qed.

Lemma readonly_collect_stats cur queries :
  forall st, readonly (collect_stats cur queries st).
Proof.
  induction queries as [|[name q] queries IH]; intros st; simpl.
  - apply readonly_ret.
  - apply readonly_bind; [apply readonly_execute | intros r; apply IH].
Qed.

Ltac readonly_step :=
  first
    [ apply readonly_ret | apply readonly_lift | apply readonly_log
    | apply readonly_get_self | apply readonly_cursor | apply readonly_execute
    | apply readonly_collect_stats
    | apply readonly_try_except; [|intro]
    | apply readonly_bind; [|intro] ].

Lemma readonly_get_slow_queries : readonly get_slow_queries.
Proof.
  unfold get_slow_queries. apply readonly_bind; [apply readonly_get_self | intros self].
  destruct (String.eqb _ _); [|destruct (String.eqb _ _)].
  - unfold get_slow_queries_postgresql. repeat readonly_step.
  - unfold get_slow_queries_mysql. repeat readonly_step.
  - apply readonly_ret.
Qed.

Lemma readonly_get_database_stats : readonly get_database_stats.
Proof.
  unfold get_database_stats. apply readonly_bind; [apply readonly_get_self | intros self].
  destruct (String.eqb _ _); [|destruct (String.eqb _ _)].
  - unfold get_database_stats_postgresql. repeat readonly_step.
  - unfold get_database_stats_mysql. repeat readonly_step.
  - apply readonly_ret.
Qed.

(* ------------------------------------------------------------------ *)
(** *** The outcome of a check cycle *)

(** What a caller observes of a run: the value returned or the exception
    raised, and the alerts sent. *)
Definition outcome {A : Type} (x : res A * monitor * list event)
    : res A * list (text * text) :=
  (result_of x, findings (events_of x)).

(** Sequencing of outcomes. *)
Definition and_then {A B : Type} (x : res A * list (text * text))
    (k : A -> res B * list (text * text)) : res B * list (text * text) :=
  match fst x with
  | Ok a => (fst (k a), (snd x ++ snd (k a))%list)
  | Raise e => (Raise e, snd x)
  end.

(** A computation that leaves the monitor as it was. *)
Definition steady {A : Type} (m : M A) : Prop :=
  forall self, state_of (m self) = self.

Lemma steady_of_stateless {A : Type} (m : M A) : stateless m -> steady m.
Proof. intros (r & out & Hm) self. rewrite Hm. reflexivity. Qed.

Lemma steady_of_readonly {A : Type} (m : M A) : readonly m -> steady m.
Proof. intros H self. apply H. Qed.

Lemma steady_bind {A B : Type} (m : M A) (k : A -> M B) :
  steady m -> (forall a, steady (k a)) -> steady (bind m k).
Proof.
  intros Hm Hk self. specialize (Hm self). unfold bind.
  destruct (m self) as [[[a|e] s] o]; unfold state_of in *; simpl in *; subst s.
  - specialize (Hk a self). destruct (k a self) as [[r' s'] o']. exact Hk.
  - reflexivity.
Qed.

Lemma outcome_bind {A B : Type} (m : M A) (k : A -> M B) self :
  state_of (m self) = self ->
  outcome (bind m k self) = and_then (outcome (m self)) (fun a => outcome (k a self)).
Proof.
  intros Hs. unfold bind, outcome, and_then.
  destruct (m self) as [[[a|e] s] o]; unfold state_of, result_of, events_of in *;
    simpl in *; subst s.
  - destruct (k a self) as [[r' s'] o']. simpl. rewrite findings_app. reflexivity.
  - reflexivity.
Qed.

Lemma and_then_ok {A B : Type} (a : A) (k : A -> res B * list (text * text)) :
  and_then (Ok a, []) k = k a.
Proof. unfold and_then. simpl. destruct (k a). reflexivity. Qed.

Lemma and_then_ext {A B : Type} (x : res A * list (text * text))
    (k k' : A -> res B * list (text * text)) :
  (forall a, k a = k' a) -> and_then x k = and_then x k'.
Proof. intros H. unfold and_then. destruct (fst x); [rewrite H|]; reflexivity. Qed.

Lemma outcome_stateless {A : Type} (m : M A) :
  stateless m -> forall self self', outcome (m self) = outcome (m self').
Proof. intros (r & out & Hm) self self'. rewrite !Hm. reflexivity. Qed.

Lemma outcome_readonly {A : Type} (m : M A) :
  readonly m -> forall self, outcome (m self) = (result_of (m self), []).
Proof. intros H self. unfold outcome. destruct (H self) as [_ ->]. reflexivity. Qed.

Ltac steady_step :=
  first
    [ apply steady_of_readonly; apply readonly_get_slow_queries
    | apply steady_of_readonly; apply readonly_get_database_stats
    | apply steady_of_readonly; apply readonly_get_self
    | apply steady_of_stateless; apply stateless_report_slow_queries
    | apply steady_of_stateless; apply stateless_log_statistics
    | apply steady_of_stateless; apply stateless_check_connections
    | apply steady_of_stateless; apply stateless_check_cache_hit_ratio
    | apply steady_of_stateless; apply stateless_log
    | apply steady_of_stateless; apply stateless_ret
    | apply steady_bind; [|intro] ].

Lemma steady_check_and_alert now : steady (check_and_alert now).
Proof. unfold check_and_alert. repeat steady_step. Qed.

(** The outcome of [check_and_alert], block by block. *)
Lemma check_and_alert_outcome now self :
  outcome (check_and_alert now self) =
    and_then (outcome (get_slow_queries self)) (fun sq =>
    and_then (outcome (report_slow_queries sq self)) (fun _ =>
    and_then (outcome (get_database_stats self)) (fun st =>
    and_then (outcome (log_statistics st self)) (fun _ =>
    and_then (outcome (check_connections st self)) (fun _ =>
    and_then (outcome (check_cache_hit_ratio st self)) (fun _ =>
      (Ok {| slow_queries_count := Z.of_nat (length sq);
             slow_queries := sq;
             stats := st |}, []))))))).
Proof.
  unfold check_and_alert.
  rewrite outcome_bind by reflexivity.
  change (outcome (get_self self)) with (Ok self, @nil (text * text)).
  rewrite and_then_ok.
  do 5 (rewrite outcome_bind by reflexivity;
        change (outcome (log _ _ self)) with (Ok tt, @nil (text * text));
        rewrite and_then_ok).
  rewrite outcome_bind by (apply steady_of_readonly, readonly_get_slow_queries).
  apply and_then_ext; intros sq.
  rewrite outcome_bind by (apply steady_of_stateless, stateless_report_slow_queries).
  apply and_then_ext; intros _.
  rewrite outcome_bind by (apply steady_of_readonly, readonly_get_database_stats).
  apply and_then_ext; intros st.
  rewrite outcome_bind by (apply steady_of_stateless, stateless_log_statistics).
  apply and_then_ext; intros _.
  rewrite outcome_bind by (apply steady_of_stateless, stateless_check_connections).
  apply and_then_ext; intros _.
  rewrite outcome_bind by (apply steady_of_stateless, stateless_check_cache_hit_ratio).
  apply and_then_ext; intros _.
  do 2 (rewrite outcome_bind by reflexivity;
        change (outcome (log _ _ self)) with (Ok tt, @nil (text * text));
        rewrite and_then_ok).
  reflexivity.
Qed.

(* ------------------------------------------------------------------ *)
(** *** Rule 1: very slow queries *)

(** The fields the loop reads from a record, with the defaults of
    [query.get]. *)
Definition duration_of (query : dict) : value :=
  dict_get_default query "duration_ms" (VInt 0).

Definition preview_of (query : dict) : value :=
  dict_get_default query "query_preview" (VStr "N/A").

Definition pid_of (query : dict) : value :=
  dict_get_default query "pid" (VStr "N/A").

(** A record as the data model has it: the duration is a number and the
    preview is text. *)
Definition well_typed_record (query : dict) : Prop :=
  (exists x, num_of (duration_of query) = Some x) /\
  (exists s, preview_of query = VStr s).

(** [duration_ms > 5000]. *)
Definition very_slow (query : dict) : bool :=
  match num_of (duration_of query) with
  | Some x => Qlt_bool (inject_Z 5000) x
  | None => false
  end.

Definition seconds_of (query : dict) : Q :=
  match num_of (duration_of query) with
  | Some x => (x / inject_Z 1000)%Q
  | None => 0%Q
  end.

(** The alert for a record: the subject cites the process id, the message
    the duration in seconds and the preview. *)
Definition very_slow_finding (query : dict) : text * text :=
  ([Lit "Very Slow Query Detected (PID "; Str (pid_of query); Lit ")"],
   [Lit "Query running for "; Fixed2 (seconds_of query); Lit "s:"; Lit nl;
    Str (preview_of query)]).

Lemma Qlt_bool_iff (a b : Q) : Qlt_bool a b = true <-> (a < b)%Q.
Proof. unfold Qlt_bool, Qlt. apply Z.ltb_lt. Qed.

Lemma Qlt_bool_inject (a b : Z) : Qlt_bool (inject_Z a) (inject_Z b) = (a <? b).
Proof. unfold Qlt_bool. simpl. rewrite !Z.mul_1_r. reflexivity. Qed.

Lemma very_slow_iff (query : dict) :
  very_slow query = true <->
  exists x, num_of (duration_of query) = Some x /\ (inject_Z 5000 < x)%Q.
Proof.
  unfold very_slow. destruct (num_of (duration_of query)) as [x|].
  - rewrite Qlt_bool_iff. split.
    + intros H. exists x. split; [reflexivity | exact H].
    + intros (y & [= <-] & H). exact H.
  - split; [discriminate | intros (y & [=] & _)].
Qed.

Lemma report_slow_query_outcome i query self :
  well_typed_record query ->
  outcome (report_slow_query i query self) =
    (Ok tt, if very_slow query then [very_slow_finding query] else []).
Proof.
  intros [[x Hx] [s Hs]].
  unfold report_slow_query, very_slow, very_slow_finding, seconds_of.
  fold (duration_of query) (preview_of query) (pid_of query).
  rewrite Hs. destruct (duration_of query) as [|z|q|t]; try discriminate Hx.
  - unfold outcome, bind, lift, log, emit, send_alert. simpl.
    rewrite Qlt_bool_inject. destruct (5000 <? z); reflexivity.
  - unfold outcome, bind, lift, log, emit, send_alert. simpl.
    destruct (Qlt_bool (inject_Z 5000) q); reflexivity.
Qed.

Lemma slow_query_loop_outcome sq self :
  Forall well_typed_record sq ->
  forall start,
    outcome (for_enumerate sq start report_slow_query self) =
      (Ok tt, map very_slow_finding (filter very_slow sq)).
Proof.
  induction 1 as [|query sq Hq _ IH]; intros start; cbn [for_enumerate filter].
  - reflexivity.
  - rewrite outcome_bind
      by (apply steady_of_stateless, stateless_report_slow_query).
    rewrite (report_slow_query_outcome _ _ _ Hq).
    unfold and_then. cbn [fst snd]. rewrite IH. cbn [fst snd].
    destruct (very_slow query); reflexivity.
Qed.

Lemma report_slow_queries_outcome sq self :
  Forall well_typed_record sq ->
  outcome (report_slow_queries sq self) =
    (Ok tt, map very_slow_finding (filter very_slow sq)).
Proof.
  intros H. unfold report_slow_queries. destruct sq as [|query sq].
  - reflexivity.
  - rewrite outcome_bind by reflexivity.
    change (outcome (log _ _ self)) with (Ok tt, @nil (text * text)).
    rewrite and_then_ok. apply slow_query_loop_outcome. exact H.
Qed.

(* ------------------------------------------------------------------ *)
(** *** Rules 2 and 3: connection count and cache hit ratio *)

Definition high_connections_finding (active : value) : text * text :=
  ([Lit "High Active Connection Count"],
   [Lit "Active connections: "; Str active]).

Definition low_cache_finding (cache_ratio : value) : text * text :=
  ([Lit "Low Cache Hit Ratio"],
   [Lit "Cache hit ratio: "; Str cache_ratio; Lit "% (should be > 95%)"]).

(** A statistic as the probes deliver it when the server answers with a
    count or a ratio: missing, [None], or a number. *)
Definition numeric_or_none (o : option value) : Prop :=
  match o with
  | None => True
  | Some VNone => True
  | Some v => exists x, num_of v = Some x
  end.

Lemma log_statistics_outcome st self :
  outcome (log_statistics st self) = (Ok tt, []).
Proof.
  unfold log_statistics.
  do 2 (rewrite outcome_bind by reflexivity;
        change (outcome (log _ _ self)) with (Ok tt, @nil (text * text));
        rewrite and_then_ok).
  induction st as [|[k v] st IH]; cbn [for_each].
  - reflexivity.
  - rewrite outcome_bind by reflexivity.
    change (outcome (log _ _ self)) with (Ok tt, @nil (text * text)).
    rewrite and_then_ok. exact IH.
Qed.

Lemma truthy_num_false v x :
  num_of v = Some x -> truthy v = false -> Qnum x = 0.
Proof.
  destruct v as [|z|q|s]; simpl; try discriminate.
  - intros [= <-] H. apply negb_false_iff, Z.eqb_eq in H. exact H.
  - intros [= <-] H. apply negb_false_iff, Z.eqb_eq in H. exact H.
Qed.

Lemma check_connections_absent st self :
  dict_get st "active_connections" = None ->
  outcome (check_connections st self) = (Ok tt, []).
Proof.
  intros H. unfold check_connections, dict_get_default. rewrite H. reflexivity.
Qed.

Lemma check_connections_none st self :
  dict_get st "active_connections" = Some VNone ->
  outcome (check_connections st self) = (Ok tt, []).
Proof.
  intros H. unfold check_connections, dict_get_default. rewrite H. reflexivity.
Qed.

Lemma check_connections_number st self v x :
  dict_get st "active_connections" = Some v ->
  num_of v = Some x ->
  outcome (check_connections st self) =
    (Ok tt, if Qlt_bool (inject_Z 100) x then [high_connections_finding v] else []).
Proof.
  intros Hg Hx. unfold check_connections, dict_get_default, getitem. rewrite Hg.
  destruct (truthy v) eqn:Ht.
  - destruct v as [|z|q|s]; try discriminate Hx; injection Hx as <-;
      unfold outcome, bind, ret, lift, send_alert, emit, log; simpl.
    + rewrite Qlt_bool_inject. destruct (100 <? z); reflexivity.
    + destruct (Qlt_bool (inject_Z 100) q); reflexivity.
  - pose proof (truthy_num_false v x Hx Ht) as H0.
    unfold Qlt_bool. rewrite H0. simpl.
    destruct (Z.pos (Qden x) * 100 <? 0) eqn:E; [|reflexivity].
    apply Z.ltb_lt in E. lia.
Qed.

Lemma check_cache_absent st self :
  dict_get st "cache_hit_ratio" = None ->
  outcome (check_cache_hit_ratio st self) = (Ok tt, []).
Proof.
  intros H. unfold check_cache_hit_ratio, dict_mem. rewrite H. reflexivity.
Qed.

Lemma check_cache_none st self :
  dict_get st "cache_hit_ratio" = Some VNone ->
  outcome (check_cache_hit_ratio st self) = (Ok tt, []).
Proof.
  intros H. unfold check_cache_hit_ratio, dict_mem, getitem. rewrite H. reflexivity.
Qed.

(** The alert is sent for a number below 95 unless that number is zero,
    which the test [cache_ratio and ...] takes for a missing value. *)
Lemma check_cache_number st self v x :
  dict_get st "cache_hit_ratio" = Some v ->
  num_of v = Some x ->
  outcome (check_cache_hit_ratio st self) =
    (Ok tt,
     if truthy v && Qlt_bool x (inject_Z 95) then [low_cache_finding v] else []).
Proof.
  intros Hg Hx. unfold check_cache_hit_ratio, dict_mem, getitem. rewrite Hg.
  destruct v as [|z|q|s]; try discriminate Hx; injection Hx as <-;
    unfold outcome, bind, ret, lift, send_alert, emit, log; simpl.
  - rewrite Qlt_bool_inject. destruct (z =? 0); simpl; [reflexivity|].
    destruct (z <? 95); reflexivity.
  - destruct (Qzero_bool q); simpl; [reflexivity|].
    destruct (Qlt_bool q (inject_Z 95)); reflexivity.
Qed.

(** Whatever the statistics hold, each block sends at most its own
    alert. *)
Lemma check_connections_findings st self :
  Forall (fun f => has_subject "High Active Connection Count" f = true)
    (snd (outcome (check_connections st self))).
Proof.
  unfold check_connections, getitem, dict_get_default.
  destruct (dict_get st "active_connections") as [v|]; [|constructor].
  destruct (truthy v); [|constructor].
  destruct v as [|z|q|s]; unfold outcome, bind, ret, lift, send_alert, emit, log; simpl;
    try constructor.
  - destruct (100 <? z); simpl; repeat constructor.
  - destruct (Qlt_bool (inject_Z 100) q); simpl; repeat constructor.
Qed.

Lemma check_cache_findings st self :
  Forall (fun f => has_subject "Low Cache Hit Ratio" f = true)
    (snd (outcome (check_cache_hit_ratio st self))).
Proof.
  unfold check_cache_hit_ratio, getitem, dict_mem.
  destruct (dict_get st "cache_hit_ratio") as [v|]; [|constructor].
  destruct v as [|z|q|s]; unfold outcome, bind, ret, lift, send_alert, emit, log; simpl;
    try constructor.
  - destruct (z =? 0); simpl; [constructor|].
    destruct (z <? 95); simpl; repeat constructor.
  - destruct (Qzero_bool q); simpl; [constructor|].
    destruct (Qlt_bool q (inject_Z 95)); simpl; repeat constructor.
  - destruct (s =? "")%string; simpl; constructor.
Qed.

Lemma very_slow_findings_subject sq :
  Forall (fun f => has_subject "Very Slow Query Detected (PID " f = true)
    (map very_slow_finding sq).
Proof. induction sq; simpl; constructor; [reflexivity | assumption]. Qed.

Lemma filter_same_subject s (fs : list (text * text)) :
  Forall (fun f => has_subject s f = true) fs ->
  filter (has_subject s) fs = fs.
Proof.
  induction 1 as [|f fs Hf _ IH]; simpl; [reflexivity|].
  rewrite Hf, IH. reflexivity.
Qed.

Lemma filter_other_subject s s' (fs : list (text * text)) :
  s <> s' ->
  Forall (fun f => has_subject s f = true) fs ->
  filter (has_subject s') fs = [].
Proof.
  intros Hne. induction 1 as [|f fs Hf _ IH]; simpl; [reflexivity|].
  rewrite IH. destruct (has_subject s' f) eqn:E; [|reflexivity].
  exfalso. apply Hne. unfold has_subject in *.
  destruct (fst f) as [|[t| | |] ?]; try discriminate.
  apply String.eqb_eq in Hf, E. congruence.
Qed.

(* ------------------------------------------------------------------ *)
(** *** The cycle, from the results of its two probes *)

Lemma and_then_eta {A B : Type} (x : res A * list (text * text))
    (k : A -> res B * list (text * text)) :
  and_then x k =
    (match fst x with Ok a => fst (k a) | Raise e => Raise e end,
     (snd x ++ match fst x with Ok a => snd (k a) | Raise _ => [] end)%list).
Proof. unfold and_then. destruct (fst x); [|rewrite app_nil_r]; reflexivity. Qed.

(** The cycle once the slow-query block has gone through. *)
Definition after_slow_queries (sq : list dict) (st : dict) (self : monitor)
    : res summary * list (text * text) :=
  and_then (outcome (check_connections st self)) (fun _ =>
  and_then (outcome (check_cache_hit_ratio st self)) (fun _ =>
    (Ok {| slow_queries_count := Z.of_nat (length sq);
           slow_queries := sq;
           stats := st |}, []))).

Lemma check_and_alert_split now self sq st :
  result_of (get_slow_queries self) = Ok sq ->
  Forall well_typed_record sq ->
  result_of (get_database_stats self) = Ok st ->
  outcome (check_and_alert now self) =
    and_then (Ok tt, map very_slow_finding (filter very_slow sq))
      (fun _ => after_slow_queries sq st self).
Proof.
  intros Hsq Hwt Hst. rewrite check_and_alert_outcome.
  rewrite (outcome_readonly _ readonly_get_slow_queries), Hsq, and_then_ok.
  rewrite (report_slow_queries_outcome _ _ Hwt).
  apply and_then_ext; intros _.
  rewrite (outcome_readonly _ readonly_get_database_stats), Hst, and_then_ok.
  rewrite log_statistics_outcome, and_then_ok. reflexivity.
Qed.

Lemma check_and_alert_stats_interrupted now self sq e :
  result_of (get_slow_queries self) = Ok sq ->
  Forall well_typed_record sq ->
  result_of (get_database_stats self) = Raise e ->
  outcome (check_and_alert now self) =
    (Raise e, map very_slow_finding (filter very_slow sq)).
Proof.
  intros Hsq Hwt Hst. rewrite check_and_alert_outcome.
  rewrite (outcome_readonly _ readonly_get_slow_queries), Hsq, and_then_ok.
  rewrite (report_slow_queries_outcome _ _ Hwt).
  rewrite (outcome_readonly _ readonly_get_database_stats), Hst.
  unfold and_then. cbn [fst snd]. rewrite app_nil_r. reflexivity.
Qed.

Lemma after_slow_queries_findings sq st self :
  snd (after_slow_queries sq st self) =
    (snd (outcome (check_connections st self)) ++
     match fst (outcome (check_connections st self)) with
     | Ok _ => snd (outcome (check_cache_hit_ratio st self))
     | Raise _ => []
     end)%list.
Proof.
  unfold after_slow_queries. rewrite and_then_eta, (and_then_eta (outcome (check_cache_hit_ratio st self))).
  cbn [fst snd]. destruct (fst (outcome (check_connections st self))); [|reflexivity].
  destruct (fst (outcome (check_cache_hit_ratio st self))); rewrite app_nil_r; reflexivity.
Qed.

Lemma after_slow_queries_cache st self :
  Forall (fun f => has_subject "Low Cache Hit Ratio" f = true)
    match fst (outcome (check_connections st self)) with
    | Ok _ => snd (outcome (check_cache_hit_ratio st self))
    | Raise _ => []
    end.
Proof.
  destruct (fst (outcome (check_connections st self)));
    [apply check_cache_findings | constructor].
Qed.

Lemma subject_slow_conn :
  "High Active Connection Count" <> "Very Slow Query Detected (PID ".
Proof. discriminate. Qed.

Lemma subject_cache_slow :
  "Low Cache Hit Ratio" <> "Very Slow Query Detected (PID ".
Proof. discriminate. Qed.

Lemma subject_slow_conn' :
  "Very Slow Query Detected (PID " <> "High Active Connection Count".
Proof. discriminate. Qed.

Lemma subject_cache_conn :
  "Low Cache Hit Ratio" <> "High Active Connection Count".
Proof. discriminate. Qed.

Lemma subject_slow_cache :
  "Very Slow Query Detected (PID " <> "Low Cache Hit Ratio".
Proof. discriminate. Qed.

Lemma subject_conn_cache :
  "High Active Connection Count" <> "Low Cache Hit Ratio".
Proof. discriminate. Qed.

Lemma findings_about_outcome {A : Type} s (x : res A * monitor * list event) :
  findings_about s (events_of x) = filter (has_subject s) (snd (outcome x)).
Proof. reflexivity. Qed.

(** The alerts of rule 1 in a whole cycle. *)
Lemma check_and_alert_very_slow now self sq :
  result_of (get_slow_queries self) = Ok sq ->
  Forall well_typed_record sq ->
  findings_about "Very Slow Query Detected (PID " (events_of (check_and_alert now self)) =
    map very_slow_finding (filter very_slow sq).
Proof.
  intros Hsq Hwt. rewrite findings_about_outcome.
  destruct (result_of (get_database_stats self)) as [st|e] eqn:Hst.
  - rewrite (check_and_alert_split _ _ _ _ Hsq Hwt Hst), and_then_eta.
    cbn [fst snd]. rewrite after_slow_queries_findings, !filter_app.
    rewrite (filter_same_subject _ _ (very_slow_findings_subject _)).
    rewrite (filter_other_subject _ _ _ subject_slow_conn (check_connections_findings st self)).
    rewrite (filter_other_subject _ _ _ subject_cache_slow (after_slow_queries_cache st self)).
    rewrite !app_nil_r. reflexivity.
  - rewrite (check_and_alert_stats_interrupted _ _ _ _ Hsq Hwt Hst). cbn [snd].
    apply filter_same_subject, very_slow_findings_subject.
Qed.

Lemma very_slow_finding_inj query query' :
  well_typed_record query -> well_typed_record query' ->
  very_slow_finding query = very_slow_finding query' ->
  very_slow query = very_slow query'.
Proof.
  intros [[x Hx] _] [[x' Hx'] _] H.
  unfold very_slow_finding, seconds_of in H. unfold very_slow.
  rewrite Hx, Hx' in *. injection H as _ Hn Hd _.
  destruct x as [n d], x' as [n' d']. simpl in Hn, Hd.
  assert (n = n') by lia. assert (d = d') by lia. subst. reflexivity.
Qed.

(** Rule 1 on records of the data model (a number for the duration, text
    for the preview). In a check cycle the "Very Slow Query Detected"
    alerts are those of the records whose [duration_ms] is greater than
    5000, one per record and in the order of the records; each cites the
    process id and the duration in seconds. A record has its alert among
    them exactly when its duration exceeds 5000. *)
Lemma very_slow_alert_iff_over_5000 now self sq :
  result_of (get_slow_queries self) = Ok sq ->
  Forall well_typed_record sq ->
  findings_about "Very Slow Query Detected (PID " (events_of (check_and_alert now self)) =
    map very_slow_finding (filter very_slow sq)
  /\ forall query, In query sq ->
       (In (very_slow_finding query)
           (findings_about "Very Slow Query Detected (PID "
              (events_of (check_and_alert now self))) <->
        exists x, num_of (duration_of query) = Some x /\ (inject_Z 5000 < x)%Q).
Proof.
  intros Hsq Hwt.
  pose proof (check_and_alert_very_slow now self sq Hsq Hwt) as E.
  split; [exact E|]. intros query Hin. rewrite E, <- very_slow_iff.
  rewrite Forall_forall in Hwt. split.
  - intros H. apply in_map_iff in H. destruct H as (query' & Heq & Hin').
    apply filter_In in Hin'. destruct Hin' as [Hin' Hvs].
    rewrite <- Hvs. apply very_slow_finding_inj; auto.
  - intros Hvs. apply in_map, filter_In. split; assumption.
Qed.

Lemma check_connections_ok st self :
  numeric_or_none (dict_get st "active_connections") ->
  fst (outcome (check_connections st self)) = Ok tt.
Proof.
  unfold numeric_or_none. destruct (dict_get st "active_connections") as [v|] eqn:E.
  - destruct v as [|z|q|s].
    + intros _. rewrite (check_connections_none _ _ E). reflexivity.
    + intros [x Hx]. rewrite (check_connections_number _ _ _ _ E Hx). reflexivity.
    + intros [x Hx]. rewrite (check_connections_number _ _ _ _ E Hx). reflexivity.
    + intros [x Hx]. discriminate Hx.
  - intros _. rewrite (check_connections_absent _ _ E). reflexivity.
Qed.

Lemma check_cache_ok st self :
  numeric_or_none (dict_get st "cache_hit_ratio") ->
  fst (outcome (check_cache_hit_ratio st self)) = Ok tt.
Proof.
  unfold numeric_or_none. destruct (dict_get st "cache_hit_ratio") as [v|] eqn:E.
  - destruct v as [|z|q|s].
    + intros _. rewrite (check_cache_none _ _ E). reflexivity.
    + intros [x Hx]. rewrite (check_cache_number _ _ _ _ E Hx). reflexivity.
    + intros [x Hx]. rewrite (check_cache_number _ _ _ _ E Hx). reflexivity.
    + intros [x Hx]. discriminate Hx.
  - intros _. rewrite (check_cache_absent _ _ E). reflexivity.
Qed.

(** The alerts of rule 2 in a whole cycle. *)
Lemma check_and_alert_connections now self sq st :
  result_of (get_slow_queries self) = Ok sq ->
  Forall well_typed_record sq ->
  result_of (get_database_stats self) = Ok st ->
  findings_about "High Active Connection Count" (events_of (check_and_alert now self)) =
    snd (outcome (check_connections st self)).
Proof.
  intros Hsq Hwt Hst. rewrite findings_about_outcome.
  rewrite (check_and_alert_split _ _ _ _ Hsq Hwt Hst), and_then_eta.
  cbn [fst snd]. rewrite after_slow_queries_findings, !filter_app.
  rewrite (filter_other_subject _ _ _ subject_slow_conn' (very_slow_findings_subject _)).
  rewrite (filter_same_subject _ _ (check_connections_findings st self)).
  rewrite (filter_other_subject _ _ _ subject_cache_conn (after_slow_queries_cache st self)).
  rewrite app_nil_r. reflexivity.
Qed.

(** The alerts of rule 3 in a whole cycle. *)
Lemma check_and_alert_cache now self sq st :
  result_of (get_slow_queries self) = Ok sq ->
  Forall well_typed_record sq ->
  result_of (get_database_stats self) = Ok st ->
  numeric_or_none (dict_get st "active_connections") ->
  findings_about "Low Cache Hit Ratio" (events_of (check_and_alert now self)) =
    snd (outcome (check_cache_hit_ratio st self)).
Proof.
  intros Hsq Hwt Hst Hac. rewrite findings_about_outcome.
  rewrite (check_and_alert_split _ _ _ _ Hsq Hwt Hst), and_then_eta.
  cbn [fst snd]. rewrite after_slow_queries_findings, !filter_app.
  rewrite (check_connections_ok _ _ Hac).
  rewrite (filter_other_subject _ _ _ subject_slow_cache (very_slow_findings_subject _)).
  rewrite (filter_other_subject _ _ _ subject_conn_cache (check_connections_findings st self)).
  rewrite (filter_same_subject _ _ (check_cache_findings st self)).
  reflexivity.
Qed.

(** The cycle returns its summary when the records and the two statistics
    it compares are of the types the data model gives them. *)
Lemma check_and_alert_returns now self sq st :
  result_of (get_slow_queries self) = Ok sq ->
  Forall well_typed_record sq ->
  result_of (get_database_stats self) = Ok st ->
  numeric_or_none (dict_get st "active_connections") ->
  numeric_or_none (dict_get st "cache_hit_ratio") ->
  result_of (check_and_alert now self) =
    Ok {| slow_queries_count := Z.of_nat (length sq);
          slow_queries := sq;
          stats := st |}.
Proof.
  intros Hsq Hwt Hst Hac Hcr.
  change (result_of (check_and_alert now self))
    with (fst (outcome (check_and_alert now self))).
  rewrite (check_and_alert_split _ _ _ _ Hsq Hwt Hst), and_then_eta.
  cbn [fst snd]. unfold after_slow_queries. rewrite !and_then_eta. cbn [fst snd].
  rewrite (check_connections_ok _ _ Hac), (check_cache_ok _ _ Hcr). reflexivity.
Qed.

(** The part of C5 the code keeps: in a cycle whose slow-query records
    have a numeric duration and a text preview, so that the loop over
    them reaches the statistics, [active_connections] brings exactly one
    "High Active Connection Count" alert if the count is greater than 100
    and none otherwise ([None] included). *)
Theorem high_connections_alert_iff_over_100 now self sq st v :
  result_of (get_slow_queries self) = Ok sq ->
  Forall well_typed_record sq ->
  result_of (get_database_stats self) = Ok st ->
  dict_get st "active_connections" = Some v ->
  match num_of v with
  | Some x =>
      ((inject_Z 100 < x)%Q ->
       findings_about "High Active Connection Count"
         (events_of (check_and_alert now self)) = [high_connections_finding v]) /\
      (~ (inject_Z 100 < x)%Q ->
       findings_about "High Active Connection Count"
         (events_of (check_and_alert now self)) = [])
  | None =>
      v = VNone ->
      findings_about "High Active Connection Count"
        (events_of (check_and_alert now self)) = []
  end.
Proof.
  intros Hsq Hwt Hst Hv.
  rewrite (check_and_alert_connections _ _ _ _ Hsq Hwt Hst).
  destruct (num_of v) as [x|] eqn:Hx.
  - rewrite (check_connections_number _ _ _ _ Hv Hx). cbn [snd].
    destruct (Qlt_bool (inject_Z 100) x) eqn:E.
    + apply Qlt_bool_iff in E. split; [reflexivity | contradiction].
    + split; [|reflexivity]. intros H. apply Qlt_bool_iff in H. congruence.
  - intros ->. rewrite (check_connections_none _ _ Hv). reflexivity.
Qed.

(** The part of C1 the code keeps: a ratio below 95 that is not zero
    raises exactly one "Low Cache Hit Ratio" alert, a ratio of 95 or more
    raises none, and neither does a missing key or [None]. *)
Lemma low_cache_alert_nonzero now self sq st :
  result_of (get_slow_queries self) = Ok sq ->
  Forall well_typed_record sq ->
  result_of (get_database_stats self) = Ok st ->
  numeric_or_none (dict_get st "active_connections") ->
  match dict_get st "cache_hit_ratio" with
  | None =>
      findings_about "Low Cache Hit Ratio" (events_of (check_and_alert now self)) = []
  | Some v =>
      match num_of v with
      | Some x =>
          ((x < inject_Z 95)%Q -> ~ (x == 0)%Q ->
           findings_about "Low Cache Hit Ratio" (events_of (check_and_alert now self)) =
             [low_cache_finding v]) /\
          (~ (x < inject_Z 95)%Q ->
           findings_about "Low Cache Hit Ratio" (events_of (check_and_alert now self)) = []) /\
          ((x == 0)%Q ->
           findings_about "Low Cache Hit Ratio" (events_of (check_and_alert now self)) = [])
      | None =>
          v = VNone ->
          findings_about "Low Cache Hit Ratio" (events_of (check_and_alert now self)) = []
      end
  end.
Proof.
  intros Hsq Hwt Hst Hac.
  rewrite (check_and_alert_cache _ _ _ _ Hsq Hwt Hst Hac).
  destruct (dict_get st "cache_hit_ratio") as [v|] eqn:Hv.
  - destruct (num_of v) as [x|] eqn:Hx.
    + rewrite (check_cache_number _ _ _ _ Hv Hx). cbn [snd].
      assert (Ht : truthy v = negb (Qzero_bool x))
        by (destruct v; try discriminate Hx; injection Hx as <-; reflexivity).
      assert (Hz : Qzero_bool x = true <-> (x == 0)%Q).
      { unfold Qzero_bool, Qeq. simpl. rewrite Z.mul_1_r. apply Z.eqb_eq. }
      rewrite Ht. repeat split.
      * intros Hlt Hnz. apply Qlt_bool_iff in Hlt. rewrite Hlt.
        destruct (Qzero_bool x); [exfalso; apply Hnz, Hz; reflexivity | reflexivity].
      * intros Hge. destruct (Qlt_bool x (inject_Z 95)) eqn:E.
        -- apply Qlt_bool_iff in E. contradiction.
        -- rewrite andb_false_r. reflexivity.
      * intros H0. apply Hz in H0. rewrite H0. reflexivity.
    + intros ->. rewrite (check_cache_none _ _ Hv). reflexivity.
  - rewrite (check_cache_absent _ _ Hv). reflexivity.
Qed.

(* ------------------------------------------------------------------ *)
(** *** Purity of the evaluation *)

(** C9. Two cycles, on any two monitors at any two times, whose probes
    give the same slow-query sequence and the same statistics end the
    same way: same alerts, same summary (or same exception). A cycle also
    leaves the monitor as it found it, so nothing is carried from one
    cycle to the next. *)
Theorem check_and_alert_depends_on_probes_only now1 now2 self1 self2 :
  result_of (get_slow_queries self1) = result_of (get_slow_queries self2) ->
  result_of (get_database_stats self1) = result_of (get_database_stats self2) ->
  findings (events_of (check_and_alert now1 self1)) =
    findings (events_of (check_and_alert now2 self2))
  /\ result_of (check_and_alert now1 self1) = result_of (check_and_alert now2 self2)
  /\ state_of (check_and_alert now1 self1) = self1
  /\ state_of (check_and_alert now2 self2) = self2.
Proof.
  intros Hsq Hst.
  assert (E : outcome (check_and_alert now1 self1) = outcome (check_and_alert now2 self2)).
  { rewrite !check_and_alert_outcome.
    rewrite !(outcome_readonly _ readonly_get_slow_queries), Hsq.
    apply and_then_ext; intros sq.
    rewrite (outcome_stateless _ (stateless_report_slow_queries sq) self1 self2).
    apply and_then_ext; intros _.
    rewrite !(outcome_readonly _ readonly_get_database_stats), Hst.
    apply and_then_ext; intros st.
    rewrite (outcome_stateless _ (stateless_log_statistics st) self1 self2).
    apply and_then_ext; intros _.
    rewrite (outcome_stateless _ (stateless_check_connections st) self1 self2).
    apply and_then_ext; intros _.
    rewrite (outcome_stateless _ (stateless_check_cache_hit_ratio st) self1 self2).
    reflexivity. }
  unfold outcome in E. injection E as Er Ef.
  repeat split;
    [exact Ef | exact Er | apply steady_check_and_alert | apply steady_check_and_alert].
Qed.

(* ------------------------------------------------------------------ *)
(** *** Unknown dialects *)

Lemma get_slow_queries_unsupported self :
  unsupported self -> get_slow_queries self = (Ok [], self, []).
Proof.
  intros H. destruct (unsupported_eqb self H) as [Hpg Hmy].
  unfold get_slow_queries, bind, get_self. simpl. rewrite Hpg, Hmy. reflexivity.
Qed.

Lemma get_database_stats_unsupported self :
  unsupported self -> get_database_stats self = (Ok [], self, []).
Proof.
  intros H. destruct (unsupported_eqb self H) as [Hpg Hmy].
  unfold get_database_stats, bind, get_self. simpl. rewrite Hpg, Hmy. reflexivity.
Qed.

(** The cycle over two empty probe results. *)
Lemma check_and_alert_empty now self :
  result_of (get_slow_queries self) = Ok [] ->
  result_of (get_database_stats self) = Ok [] ->
  outcome (check_and_alert now self) =
    (Ok {| slow_queries_count := 0; slow_queries := []; stats := [] |}, []).
Proof.
  intros Hsq Hst.
  rewrite (check_and_alert_split _ _ _ _ Hsq (Forall_nil _) Hst). reflexivity.
Qed.

(** C10. With a dialect that is neither postgresql nor mysql the two
    dispatching probes return the empty list and the empty mapping at
    once, without a driver call or an exception, and a check cycle
    returns its summary with zero slow queries and sends no alert. *)
Theorem unknown_dialect_probes_are_empty now self :
  unsupported self ->
  get_slow_queries self = (Ok [], self, [])
  /\ get_database_stats self = (Ok [], self, [])
  /\ result_of (check_and_alert now self) =
       Ok {| slow_queries_count := 0; slow_queries := []; stats := [] |}
  /\ findings (events_of (check_and_alert now self)) = [].
Proof.
  intros H.
  pose proof (get_slow_queries_unsupported self H) as Hsq.
  pose proof (get_database_stats_unsupported self H) as Hst.
  assert (E : outcome (check_and_alert now self) =
    (Ok {| slow_queries_count := 0; slow_queries := []; stats := [] |}, [])).
  { apply check_and_alert_empty; [rewrite Hsq | rewrite Hst]; reflexivity. }
  unfold outcome in E. injection E as Er Ef. auto.
Qed.

(* ------------------------------------------------------------------ *)
(** *** Probe failures *)

(** The failures of a connection are driver errors, which derive from
    [Exception]. *)
Definition no_interrupt (c : Conn) : Prop :=
  forall q e, driver_execute c q = Raise e -> is_Exception e = true.

(** One statement of a statistics probe fails. *)
Definition some_query_fails (c : Conn) (queries : list (string * string)) : Prop :=
  Exists (fun nq => exists e, driver_execute c (snd nq) = Raise e) queries.

Lemma get_slow_queries_postgresql_failure self c e :
  connection self = Some c ->
  driver_execute c pg_slow_query = Raise e ->
  is_Exception e = true ->
  get_slow_queries_postgresql self =
    (Ok [], self,
     [Execute pg_slow_query; Log ERROR [Lit "Error fetching slow queries: "; ExnStr e]]).
Proof.
  intros Hc He Hx.
  unfold get_slow_queries_postgresql, try_except, bind, cursor, execute.
  rewrite Hc, He. cbn. rewrite Hx. reflexivity.
Qed.

Lemma get_slow_queries_mysql_failure self c e :
  connection self = Some c ->
  driver_execute c mysql_slow_query = Raise e ->
  is_Exception e = true ->
  get_slow_queries_mysql self =
    (Ok [], self,
     [Execute mysql_slow_query; Log ERROR [Lit "Error fetching slow queries: "; ExnStr e]]).
Proof.
  intros Hc He Hx.
  unfold get_slow_queries_mysql, try_except, bind, cursor, execute.
  rewrite Hc, He. cbn. rewrite Hx. reflexivity.
Qed.

Lemma collect_stats_failure c queries :
  no_interrupt c ->
  some_query_fails c queries ->
  forall st self, exists e out,
    collect_stats c queries st self = (Raise e, self, out) /\ is_Exception e = true.
Proof.
  intros Hni. induction queries as [|[name q] queries IH]; intros HE st self.
  - inversion HE.
  - cbn [collect_stats]. unfold bind, execute.
    destruct (driver_execute c q) as [r|e] eqn:E.
    + assert (HE' : some_query_fails c queries).
      { inversion HE as [? ? [e' He']|]; subst; [|assumption].
        simpl in He'. congruence. }
      destruct (IH HE' (dict_set st name (first_column (fetchone r))) self)
        as (e & out & Hrun & Hx).
      rewrite Hrun. exists e, ([Execute q] ++ out)%list. split; [reflexivity | exact Hx].
    + exists e, [Execute q]. split; [reflexivity | exact (Hni q e E)].
Qed.

Lemma stats_probe_failure self c queries :
  connection self = Some c ->
  no_interrupt c ->
  some_query_fails c queries ->
  result_of
    (try_except
       (bind cursor (fun cur => collect_stats cur queries []))
       (fun e => bind (log ERROR [Lit "Error fetching database stats: "; ExnStr e])
                      (fun _ => ret []))
       self) = Ok [].
Proof.
  intros Hc Hni HE.
  destruct (collect_stats_failure c queries Hni HE [] self) as (e & out & Hrun & Hx).
  unfold try_except, bind, cursor. rewrite Hc, Hrun, Hx. reflexivity.
Qed.

Lemma get_slow_queries_dispatch_pg self :
  db_type self = "postgresql" ->
  get_slow_queries self = get_slow_queries_postgresql self.
Proof.
  intros H. unfold get_slow_queries, bind, get_self. rewrite H. cbn.
  destruct (get_slow_queries_postgresql self) as [[r s] o].
  reflexivity.
Qed.

Lemma get_slow_queries_dispatch_mysql self :
  db_type self = "mysql" ->
  get_slow_queries self = get_slow_queries_mysql self.
Proof.
  intros H. unfold get_slow_queries, bind, get_self. rewrite H. cbn.
  destruct (get_slow_queries_mysql self) as [[r s] o].
  reflexivity.
Qed.

Lemma get_database_stats_dispatch_pg self :
  db_type self = "postgresql" ->
  get_database_stats self = get_database_stats_postgresql self.
Proof.
  intros H. unfold get_database_stats, bind, get_self. rewrite H. cbn.
  destruct (get_database_stats_postgresql self) as [[r s] o].
  reflexivity.
Qed.

Lemma get_database_stats_dispatch_mysql self :
  db_type self = "mysql" ->
  get_database_stats self = get_database_stats_mysql self.
Proof.
  intros H. unfold get_database_stats, bind, get_self. rewrite H. cbn.
  destruct (get_database_stats_mysql self) as [[r s] o].
  reflexivity.
Qed.

(** C3. On a monitor that holds a connection whose failures are driver
    errors: a failing slow-query statement makes the slow-query probe
    return the empty list, a failing statistics statement makes the
    statistics probe return the empty mapping, for either dialect; the
    cycle over two empty results returns its summary without an alert;
    and when only one probe failed the cycle still returns its summary,
    with no alert drawn from the empty result. *)
Theorem probe_failure_yields_empty_result now self c :
  connection self = Some c ->
  no_interrupt c ->
  (db_type self = "postgresql" ->
   (exists e, driver_execute c pg_slow_query = Raise e) ->
   result_of (get_slow_queries self) = Ok [])
  /\ (db_type self = "mysql" ->
      (exists e, driver_execute c mysql_slow_query = Raise e) ->
      result_of (get_slow_queries self) = Ok [])
  /\ (db_type self = "postgresql" ->
      some_query_fails c pg_stats_queries ->
      result_of (get_database_stats self) = Ok [])
  /\ (db_type self = "mysql" ->
      some_query_fails c mysql_stats_queries ->
      result_of (get_database_stats self) = Ok [])
  /\ (result_of (get_slow_queries self) = Ok [] ->
      result_of (get_database_stats self) = Ok [] ->
      outcome (check_and_alert now self) =
        (Ok {| slow_queries_count := 0; slow_queries := []; stats := [] |}, []))
  /\ (forall st,
        result_of (get_slow_queries self) = Ok [] ->
        result_of (get_database_stats self) = Ok st ->
        numeric_or_none (dict_get st "active_connections") ->
        numeric_or_none (dict_get st "cache_hit_ratio") ->
        result_of (check_and_alert now self) =
          Ok {| slow_queries_count := 0; slow_queries := []; stats := st |}
        /\ findings_about "Very Slow Query Detected (PID "
             (events_of (check_and_alert now self)) = [])
  /\ (forall sq,
        result_of (get_slow_queries self) = Ok sq ->
        Forall well_typed_record sq ->
        result_of (get_database_stats self) = Ok [] ->
        outcome (check_and_alert now self) =
          (Ok {| slow_queries_count := Z.of_nat (length sq);
                 slow_queries := sq;
                 stats := [] |},
           map very_slow_finding (filter very_slow sq))).
Proof.
  intros Hc Hni. repeat apply conj.
  - intros Hd [e He]. rewrite (get_slow_queries_dispatch_pg _ Hd).
    rewrite (get_slow_queries_postgresql_failure _ _ _ Hc He (Hni _ _ He)). reflexivity.
  - intros Hd [e He]. rewrite (get_slow_queries_dispatch_mysql _ Hd).
    rewrite (get_slow_queries_mysql_failure _ _ _ Hc He (Hni _ _ He)). reflexivity.
  - intros Hd HE. rewrite (get_database_stats_dispatch_pg _ Hd).
    apply (stats_probe_failure _ _ _ Hc Hni HE).
  - intros Hd HE. rewrite (get_database_stats_dispatch_mysql _ Hd).
    apply (stats_probe_failure _ _ _ Hc Hni HE).
  - apply check_and_alert_empty.
  - intros st Hsq Hst Hac Hcr. split.
    + apply (check_and_alert_returns _ _ _ _ Hsq (Forall_nil _) Hst Hac Hcr).
    + apply (check_and_alert_very_slow _ _ _ Hsq (Forall_nil _)).
  - intros sq Hsq Hwt Hst.
    rewrite (check_and_alert_split _ _ _ _ Hsq Hwt Hst), and_then_eta.
    cbn. rewrite app_nil_r. reflexivity.
Qed.

(* ------------------------------------------------------------------ *)
(** *** Durations of the mysql probe *)

(** A row of the process list as the statement selects it: six columns,
    the fourth being [Time], a whole number of seconds. *)
Definition process_row (row : list value) : Prop :=
  length row = 6%nat /\ exists t, nth_error row 3 = Some (VInt t).

(** The record of a row holds the row's [Time] times 1000. *)
Definition in_milliseconds (row : list value) (query : dict) : Prop :=
  exists t,
    nth_error row 3 = Some (VInt t) /\
    dict_get query "duration_ms" = Some (VInt (t * 1000)).

Lemma mysql_record_process_row row :
  process_row row ->
  exists query, mysql_record row = Ok query /\ in_milliseconds row query.
Proof.
  intros [Hlen [t Ht]].
  destruct row as [|pid [|usename [|datname [|seconds [|state [|preview [|]]]]]]];
    try discriminate Hlen.
  simpl in Ht. injection Ht as ->.
  eexists. split; [reflexivity|]. exists t. split; reflexivity.
Qed.

Lemma map_res_process_rows results :
  Forall process_row results ->
  exists sq, map_res mysql_record results = Ok sq /\ Forall2 in_milliseconds results sq.
Proof.
  induction 1 as [|row results Hrow _ (sq & Hsq & Hall)].
  - exists []. split; [reflexivity | constructor].
  - destruct (mysql_record_process_row row Hrow) as (query & Hq & Hms).
    exists (query :: sq). split.
    + cbn [map_res]. rewrite Hq. cbn [res_bind]. rewrite Hsq. reflexivity.
    + constructor; assumption.
Qed.

(** C7. When the server answers the mysql statement with process rows,
    the probe returns one record per row, in order, and the
    [duration_ms] of each record is the [Time] of its row, in whole
    seconds, times 1000. *)
Theorem mysql_duration_is_time_times_1000 self c r :
  connection self = Some c ->
  driver_execute c mysql_slow_query = Ok r ->
  Forall process_row (rows r) ->
  exists sq,
    get_slow_queries_mysql self = (Ok sq, self, [Execute mysql_slow_query])
    /\ Forall2 in_milliseconds (rows r) sq.
Proof.
  intros Hc Hr Hrows.
  destruct (map_res_process_rows _ Hrows) as (sq & Hsq & Hall).
  exists sq. split; [|exact Hall].
  unfold get_slow_queries_mysql, try_except, bind, cursor, execute, lift, fetchall.
  rewrite Hc, Hr, Hsq. reflexivity.
Qed.

(* ------------------------------------------------------------------ *)
(** *** The cache hit ratio of an idle database *)

(** With no block hit and none read, [NULLIF] turns the denominator into
    NULL and the statement yields NULL; the bare division would fail. *)
Lemma pg_cache_hit_ratio_zero_blocks : pg_cache_hit_ratio 0 0 = Ok None.
Proof. reflexivity. Qed.

Lemma unguarded_division_fails :
  sql_div (sql_mul (Some (inject_Z 100)) (Some (inject_Z 0)))
          (sql_add (Some (inject_Z 0)) (Some (inject_Z 0)))
  = Raise (DriverError "division by zero").
Proof. reflexivity. Qed.

(** The statistics the postgresql probe builds from four answers. *)
Lemma get_database_stats_postgresql_answers self c r1 r2 r3 r4 :
  connection self = Some c ->
  driver_execute c pg_active_connections_query = Ok r1 ->
  driver_execute c pg_total_connections_query = Ok r2 ->
  driver_execute c pg_database_size_query = Ok r3 ->
  driver_execute c pg_cache_hit_ratio_query = Ok r4 ->
  result_of (get_database_stats_postgresql self) =
    Ok [("active_connections", first_column (fetchone r1));
        ("total_connections", first_column (fetchone r2));
        ("database_size", first_column (fetchone r3));
        ("cache_hit_ratio", first_column (fetchone r4))].
Proof.
  intros Hc H1 H2 H3 H4.
  unfold get_database_stats_postgresql, try_except, bind, cursor, pg_stats_queries.
  rewrite Hc. cbn [collect_stats]. unfold bind, execute.
  rewrite H1, H2, H3, H4. reflexivity.
Qed.

(** C6. When the block counters of the database are both zero, the
    postgresql statistics probe returns its mapping with [None] under
    [cache_hit_ratio], no division error occurs, the cache check sends
    nothing and raises nothing, and the cycle returns its summary. *)
Theorem zero_blocks_give_no_ratio now self c r1 r2 r3 :
  db_type self = "postgresql" ->
  connection self = Some c ->
  driver_execute c pg_active_connections_query = Ok r1 ->
  driver_execute c pg_total_connections_query = Ok r2 ->
  driver_execute c pg_database_size_query = Ok r3 ->
  driver_execute c pg_cache_hit_ratio_query = pg_cache_hit_ratio_answer 0 0 ->
  exists st,
    result_of (get_database_stats self) = Ok st
    /\ dict_get st "cache_hit_ratio" = Some VNone
    /\ outcome (check_cache_hit_ratio st self) = (Ok tt, [])
    /\ forall sq,
         result_of (get_slow_queries self) = Ok sq ->
         Forall well_typed_record sq ->
         numeric_or_none (dict_get st "active_connections") ->
         result_of (check_and_alert now self) =
           Ok {| slow_queries_count := Z.of_nat (length sq);
                 slow_queries := sq;
                 stats := st |}
         /\ findings_about "Low Cache Hit Ratio"
              (events_of (check_and_alert now self)) = [].
Proof.
  intros Hd Hc H1 H2 H3 H4.
  pose proof (get_database_stats_postgresql_answers self c r1 r2 r3 _ Hc H1 H2 H3 H4) as Hst.
  rewrite <- (get_database_stats_dispatch_pg _ Hd) in Hst.
  eexists. split; [exact Hst|].
  assert (Hg : dict_get
    [("active_connections", first_column (fetchone r1));
     ("total_connections", first_column (fetchone r2));
     ("database_size", first_column (fetchone r3));
     ("cache_hit_ratio", VNone)] "cache_hit_ratio" = Some VNone) by reflexivity.
  split; [exact Hg|]. split; [apply check_cache_none; exact Hg|].
  intros sq Hsq Hwt Hac. split.
  - apply (check_and_alert_returns _ _ _ _ Hsq Hwt Hst Hac).
    change (numeric_or_none (Some VNone)). exact I.
  - rewrite (check_and_alert_cache _ _ _ _ Hsq Hwt Hst Hac).
    rewrite (check_cache_none _ _ Hg). reflexivity.
Qed.

(* ================================================================== *)
(** ** Further properties of the monitor *)

(** The statements a run sent to the server, in order. *)
Fixpoint executed (out : list event) : list string :=
  match out with
  | [] => []
  | Execute q :: out' => q :: executed out'
  | _ :: out' => executed out'
  end.

(** The calls of the driver's [close]. *)
Fixpoint close_calls (out : list event) : nat :=
  match out with
  | [] => O
  | Close :: out' => S (close_calls out')
  | _ :: out' => close_calls out'
  end.

Lemma executed_app (o1 o2 : list event) :
  executed (o1 ++ o2) = (executed o1 ++ executed o2)%list.
Proof.
  induction o1 as [|e o1 IH]; simpl; [reflexivity|].
  destruct e; simpl; rewrite IH; reflexivity.
Qed.

Lemma close_calls_app (o1 o2 : list event) :
  close_calls (o1 ++ o2) = (close_calls o1 + close_calls o2)%nat.
Proof.
  induction o1 as [|e o1 IH]; simpl; [reflexivity|].
  destruct e; simpl; rewrite IH; reflexivity.
Qed.

Lemma result_bind {A B : Type} (m : M A) (k : A -> M B) self :
  result_of (bind m k self) =
    match result_of (m self) with
    | Ok a => result_of (k a (state_of (m self)))
    | Raise e => Raise e
    end.
Proof.
  unfold bind. destruct (m self) as [[[a|e] s] o]; [|reflexivity].
  unfold result_of, state_of. simpl. destruct (k a s) as [[r' s'] o']. reflexivity.
Qed.

Lemma state_bind {A B : Type} (m : M A) (k : A -> M B) self :
  state_of (bind m k self) =
    match result_of (m self) with
    | Ok a => state_of (k a (state_of (m self)))
    | Raise e => state_of (m self)
    end.
Proof.
  unfold bind. destruct (m self) as [[[a|e] s] o]; [|reflexivity].
  unfold result_of, state_of. simpl. destruct (k a s) as [[r' s'] o']. reflexivity.
Qed.

Lemma events_bind {A B : Type} (m : M A) (k : A -> M B) self :
  events_of (bind m k self) =
    (events_of (m self) ++
     match result_of (m self) with
     | Ok a => events_of (k a (state_of (m self)))
     | Raise e => []
     end)%list.
Proof.
  unfold bind. destruct (m self) as [[[a|e] s] o].
  - unfold result_of, state_of, events_of. simpl.
    destruct (k a s) as [[r' s'] o']. reflexivity.
  - unfold events_of. simpl. rewrite app_nil_r. reflexivity.
Qed.

(* ------------------------------------------------------------------ *)
(** *** [connect] *)

(** The driver module of a dialect. *)
Definition backend_of (dialect : string) : option backend :=
  if String.eqb dialect "postgresql" then Some Psycopg2
  else if String.eqb dialect "mysql" then Some Pymysql
  else None.

Lemma connect_with_backend self b :
  backend_of (db_type self) = Some b ->
  connect self =
    match driver_connect b (conn_params self) with
    | Ok c =>
        (Ok true, set_connection self (Some c),
         [Connect b (conn_params self);
          Log INFO [Lit "✓ Connected to "; Lit (db_type self); Lit " database"]])
    | Raise e =>
        if is_Exception e
        then (Ok false, self,
              [Connect b (conn_params self);
               Log ERROR [Lit "Failed to connect: "; ExnStr e]])
        else (Raise e, self, [Connect b (conn_params self)])
    end.
Proof.
  unfold backend_of. intros Hb.
  unfold connect, try_except, bind, get_self, call_connect. simpl.
  destruct (String.eqb (db_type self) "postgresql") eqn:Hpg.
  - injection Hb as <-. simpl.
    destruct (driver_connect Psycopg2 (conn_params self)) as [c|e]; simpl;
      [reflexivity | destruct (is_Exception e); reflexivity].
  - destruct (String.eqb (db_type self) "mysql") eqn:Hmy; [|discriminate Hb].
    injection Hb as <-. simpl.
    destruct (driver_connect Pymysql (conn_params self)) as [c|e]; simpl;
      [reflexivity | destruct (is_Exception e); reflexivity].
Qed.

Lemma backend_of_none self : backend_of (db_type self) = None -> unsupported self.
Proof.
  unfold backend_of, unsupported.
  destruct (String.eqb (db_type self) "postgresql") eqn:Hpg; [discriminate|].
  destruct (String.eqb (db_type self) "mysql") eqn:Hmy; [discriminate|].
  intros _. split; apply String.eqb_neq; assumption.
Qed.

Lemma connect_without_backend self :
  backend_of (db_type self) = None ->
  connect self =
    (Ok false, self,
     [Log ERROR [Lit "Failed to connect: ";
                 ExnStr (ValueError ("Unsupported database type: " ++ db_type self))]]).
Proof.
  intros Hb. destruct (unsupported_eqb self (backend_of_none self Hb)) as [Hpg Hmy].
  unfold connect, try_except, bind, get_self. simpl. rewrite Hpg, Hmy. reflexivity.
Qed.

(** X1. What [connect] leaves behind, whatever the dialect and the driver:
    [True] means that the driver of the dialect returned a connection and
    the monitor now holds it; [False] means that the monitor is as it was,
    an earlier connection included; an exception leaves [connect] only if
    it is not an [Exception]; and the driver is called at most once. *)
Theorem connect_true_iff_connection_stored self :
  match result_of (connect self) with
  | Ok true =>
      exists b c,
        backend_of (db_type self) = Some b /\
        driver_connect b (conn_params self) = Ok c /\
        state_of (connect self) = set_connection self (Some c)
  | Ok false => state_of (connect self) = self
  | Raise e => is_Exception e = false /\ state_of (connect self) = self
  end
  /\ (connect_calls (events_of (connect self)) <= 1)%nat
  /\ executed (events_of (connect self)) = []
  /\ close_calls (events_of (connect self)) = O.
Proof.
  destruct (backend_of (db_type self)) as [b|] eqn:Hb.
  - rewrite (connect_with_backend self b Hb).
    destruct (driver_connect b (conn_params self)) as [c|e] eqn:Hc.
    + cbn. repeat split; auto. exists b, c. auto.
    + destruct (is_Exception e) eqn:He; cbn; repeat split; auto.
  - rewrite (connect_without_backend self Hb). cbn. repeat split; auto.
Qed.

(* ------------------------------------------------------------------ *)
(** *** Records of the postgresql probe *)

Lemma dict_get_set_same (d : dict) k v : dict_get (dict_set d k v) k = Some v.
Proof.
  induction d as [|[k' v'] d IH]; simpl.
  - rewrite String.eqb_refl. reflexivity.
  - destruct (String.eqb k k') eqn:E; simpl; rewrite E; [reflexivity | exact IH].
Qed.

Lemma dict_get_set_other (d : dict) k k' v :
  k <> k' -> dict_get (dict_set d k v) k' = dict_get d k'.
Proof.
  intros Hne. induction d as [|[k0 v0] d IH]; simpl.
  - destruct (String.eqb k' k) eqn:E; [|reflexivity].
    apply String.eqb_eq in E. congruence.
  - destruct (String.eqb k k0) eqn:E; simpl.
    + apply String.eqb_eq in E. subst k0.
      destruct (String.eqb k' k) eqn:E'; [|reflexivity].
      apply String.eqb_eq in E'. congruence.
    + rewrite IH. reflexivity.
Qed.

Lemma dict_get_fold_other (ps : list (string * value)) :
  forall (d : dict) k,
    ~ In k (map fst ps) ->
    dict_get (fold_left (fun d kv => dict_set d (fst kv) (snd kv)) ps d) k = dict_get d k.
Proof.
  induction ps as [|[k0 v0] ps IH]; intros d k Hk; simpl; [reflexivity|].
  rewrite IH by (intros H; apply Hk; right; exact H).
  apply dict_get_set_other. intros ->. apply Hk. left. reflexivity.
Qed.

Lemma dict_get_fold_in (ps : list (string * value)) :
  forall (d : dict) k v,
    NoDup (map fst ps) ->
    In (k, v) ps ->
    dict_get (fold_left (fun d kv => dict_set d (fst kv) (snd kv)) ps d) k = Some v.
Proof.
  induction ps as [|[k0 v0] ps IH]; intros d k v Hnd Hin; simpl; [contradiction|].
  inversion Hnd as [|? ? Hk0 Hnd']; subst. destruct Hin as [[= -> ->]|Hin].
  - rewrite dict_get_fold_other by exact Hk0. apply dict_get_set_same.
  - apply IH; assumption.
Qed.

Lemma zip_keys {A B : Type} (xs : list A) :
  forall (ys : list B) x, In x (map fst (zip xs ys)) -> In x xs.
Proof.
  induction xs as [|x0 xs IH]; intros [|y ys] x H; simpl in *; try contradiction.
  destruct H as [->|H]; [left; reflexivity | right; apply (IH ys); exact H].
Qed.

Lemma zip_NoDup {A B : Type} (xs : list A) :
  forall (ys : list B), NoDup xs -> NoDup (map fst (zip xs ys)).
Proof.
  induction xs as [|x0 xs IH]; intros [|y ys] H; simpl; try constructor.
  - inversion H; subst. intros Hin. apply zip_keys in Hin. contradiction.
  - inversion H; subst. apply IH. assumption.
Qed.

Lemma zip_nth {A B : Type} (xs : list A) :
  forall (ys : list B) i x y,
    nth_error xs i = Some x -> nth_error ys i = Some y -> In (x, y) (zip xs ys).
Proof.
  induction xs as [|x0 xs IH]; intros [|y0 ys] [|i] x y Hx Hy; simpl in *;
    try discriminate.
  - injection Hx as ->. injection Hy as ->. left. reflexivity.
  - right. apply (IH ys i); assumption.
Qed.

(** [dict(zip(columns, row))] under distinct column names: a column is
    mapped to the value at its position, a name that is no column is not
    a key. *)
Lemma dict_of_zip_lookup (columns : list string) (row : list value) :
  NoDup columns ->
  (forall i k v,
     nth_error columns i = Some k -> nth_error row i = Some v ->
     dict_get (dict_of_pairs (zip columns row)) k = Some v)
  /\ (forall k, ~ In k columns -> dict_get (dict_of_pairs (zip columns row)) k = None).
Proof.
  intros Hnd. unfold dict_of_pairs. split.
  - intros i k v Hk Hv. apply dict_get_fold_in.
    + apply zip_NoDup. exact Hnd.
    + apply (zip_nth _ _ i); assumption.
  - intros k Hk. rewrite dict_get_fold_other; [reflexivity|].
    intros H. apply Hk. apply (zip_keys _ _ _ H).
Qed.

(** X2. When the server answers the postgresql statement, the probe returns
    one record per row, in the order of the rows, after that single
    statement; with distinct column names each record maps a column to
    the value its row has at the position of that column, and has no key
    that is not a column. *)
Theorem pg_records_follow_columns self c r :
  connection self = Some c ->
  driver_execute c pg_slow_query = Ok r ->
  NoDup (description r) ->
  exists sq,
    get_slow_queries_postgresql self = (Ok sq, self, [Execute pg_slow_query])
    /\ length sq = length (rows r)
    /\ forall j row query,
         nth_error (rows r) j = Some row ->
         nth_error sq j = Some query ->
         (forall i k v,
            nth_error (description r) i = Some k -> nth_error row i = Some v ->
            dict_get query k = Some v)
         /\ (forall k, ~ In k (description r) -> dict_get query k = None).
Proof.
  intros Hc Hr Hnd.
  exists (map (fun row => dict_of_pairs (zip (description r) row)) (rows r)).
  split; [|split].
  - unfold get_slow_queries_postgresql, try_except, bind, cursor, execute, ret, fetchall.
    rewrite Hc, Hr. reflexivity.
  - apply length_map.
  - intros j row query Hrow Hq.
    rewrite nth_error_map, Hrow in Hq. injection Hq as <-.
    apply dict_of_zip_lookup. exact Hnd.
Qed.

(* ------------------------------------------------------------------ *)
(** *** What a computation emits *)

(** Every event of a computation satisfies [P], on every monitor. *)
Definition emits {A : Type} (P : event -> Prop) (m : M A) : Prop :=
  forall self, Forall P (events_of (m self)).

Lemma emits_ret {A : Type} P (a : A) : emits P (ret a).
Proof. intros self. constructor. Qed.

Lemma emits_lift {A : Type} P (r : res A) : emits P (lift r).
Proof. intros self. constructor. Qed.

Lemma emits_raise {A : Type} P (e : exn) : emits P (raise (A := A) e).
Proof. intros self. constructor. Qed.

Lemma emits_emit (P : event -> Prop) (e : event) : P e -> emits P (emit e).
Proof. intros H self. repeat constructor. exact H. Qed.

Lemma emits_bind {A B : Type} P (m : M A) (k : A -> M B) :
  emits P m -> (forall a, emits P (k a)) -> emits P (bind m k).
Proof.
  intros Hm Hk self. rewrite events_bind. apply Forall_app. split; [apply Hm|].
  destruct (result_of (m self)); [apply Hk | constructor].
Qed.

Lemma emits_try_except {A : Type} P (body : M A) (handler : exn -> M A) :
  emits P body -> (forall e, emits P (handler e)) -> emits P (try_except body handler).
Proof.
  intros Hb Hh self. specialize (Hb self). unfold try_except.
  destruct (body self) as [[[a|e] s] o]; unfold events_of in *; simpl in *; [exact Hb|].
  destruct (is_Exception e); [|exact Hb].
  specialize (Hh e s). destruct (handler e s) as [[r' s'] o']. simpl in *.
  apply Forall_app. split; assumption.
Qed.

Lemma emits_for_each {A : Type} P (xs : list A) (body : A -> M unit) :
  (forall x, emits P (body x)) -> emits P (for_each xs body).
Proof.
  intros Hb. induction xs as [|x xs IH]; simpl.
  - apply emits_ret.
  - apply emits_bind; [apply Hb | intros _; exact IH].
Qed.

Lemma emits_for_enumerate {A : Type} P (xs : list A) (body : Z -> A -> M unit) :
  (forall i x, emits P (body i x)) ->
  forall start, emits P (for_enumerate xs start body).
Proof.
  intros Hb. induction xs as [|x xs IH]; intros start; simpl.
  - apply emits_ret.
  - apply emits_bind; [apply Hb | intros _; apply IH].
Qed.

(** Log records and alerts: what the evaluation blocks emit. *)
Definition is_report (e : event) : Prop :=
  match e with
  | Log _ _ | SendAlert _ _ => True
  | _ => False
  end.

(** Log records and statements: what the probes emit. *)
Definition is_probe_event (e : event) : Prop :=
  match e with
  | Log _ _ | Execute _ => True
  | _ => False
  end.

(** Anything but a call of the driver's [connect] or [close]. *)
Definition keeps_session (e : event) : Prop :=
  match e with
  | Connect _ _ | Close => False
  | _ => True
  end.

Lemma emits_weaken {A : Type} (P Q : event -> Prop) (m : M A) :
  (forall e, P e -> Q e) -> emits P m -> emits Q m.
Proof. intros H Hm self. eapply Forall_impl; [exact H | apply Hm]. Qed.

Ltac emits_step :=
  first
    [ apply emits_ret | apply emits_lift | apply emits_raise
    | apply emits_emit; exact I
    | apply emits_try_except; [|intro]
    | apply emits_bind; [|intro] ].

Lemma emits_send_alert subject message : emits is_report (send_alert subject message).
Proof. unfold send_alert, log. repeat emits_step. Qed.

Lemma emits_report_slow_query i query : emits is_report (report_slow_query i query).
Proof.
  unfold report_slow_query, log. repeat emits_step.
  match goal with |- emits _ (if ?b then _ else _) => destruct b end;
    repeat first [apply emits_send_alert | emits_step].
Qed.

Lemma emits_report_slow_queries sq : emits is_report (report_slow_queries sq).
Proof.
  unfold report_slow_queries, log. destruct sq as [|q sq]; [emits_step|].
  apply emits_bind; [emits_step | intros _].
  apply emits_for_enumerate. apply emits_report_slow_query.
Qed.

Lemma emits_log_statistics st : emits is_report (log_statistics st).
Proof.
  unfold log_statistics, log.
  apply emits_bind; [emits_step | intros _].
  apply emits_bind; [emits_step | intros _].
  apply emits_for_each. intros [k v]. emits_step.
Qed.

Lemma emits_getitem P d k : emits P (getitem d k).
Proof. unfold getitem. destruct (dict_get d k); emits_step. Qed.

Lemma emits_check_connections st : emits is_report (check_connections st).
Proof.
  unfold check_connections. destruct (truthy _); [|emits_step].
  apply emits_bind; [apply emits_getitem | intros active].
  apply emits_bind; [emits_step | intros [|]];
    first [apply emits_send_alert | emits_step].
Qed.

Lemma emits_check_cache_hit_ratio st : emits is_report (check_cache_hit_ratio st).
Proof.
  unfold check_cache_hit_ratio. destruct (dict_mem _ _); [|emits_step].
  apply emits_bind; [apply emits_getitem | intros cache_ratio].
  apply emits_bind.
  - destruct (truthy _); emits_step.
  - intros [|]; first [apply emits_send_alert | emits_step].
Qed.

Lemma emits_cursor P : emits P cursor.
Proof. intros self. unfold cursor. destruct (connection self); constructor. Qed.

Lemma emits_execute cur q : emits is_probe_event (execute cur q).
Proof. intros self. repeat constructor. Qed.

Lemma emits_collect_stats cur queries :
  forall st, emits is_probe_event (collect_stats cur queries st).
Proof.
  induction queries as [|[name q] queries IH]; intros st; simpl.
  - emits_step.
  - apply emits_bind; [apply emits_execute | intros r; apply IH].
Qed.

Lemma emits_get_self P : emits P get_self.
Proof. intros self. constructor. Qed.

Lemma emits_get_slow_queries : emits is_probe_event get_slow_queries.
Proof.
  unfold get_slow_queries. apply emits_bind; [apply emits_get_self | intros self].
  destruct (String.eqb _ _); [|destruct (String.eqb _ _)].
  - unfold get_slow_queries_postgresql, log.
    repeat first [apply emits_cursor | apply emits_execute | emits_step].
  - unfold get_slow_queries_mysql, log.
    repeat first [apply emits_cursor | apply emits_execute | emits_step].
  - emits_step.
Qed.

Lemma emits_get_database_stats : emits is_probe_event get_database_stats.
Proof.
  unfold get_database_stats. apply emits_bind; [apply emits_get_self | intros self].
  destruct (String.eqb _ _); [|destruct (String.eqb _ _)].
  - unfold get_database_stats_postgresql, log.
    repeat first [apply emits_cursor | apply emits_collect_stats | emits_step].
  - unfold get_database_stats_mysql, log.
    repeat first [apply emits_cursor | apply emits_collect_stats | emits_step].
  - emits_step.
Qed.

Lemma report_keeps_session e : is_report e -> keeps_session e.
Proof. destruct e; simpl; auto. Qed.

Lemma probe_event_keeps_session e : is_probe_event e -> keeps_session e.
Proof. destruct e; simpl; auto. Qed.

Lemma emits_check_and_alert now : emits keeps_session (check_and_alert now).
Proof.
  unfold check_and_alert, log.
  repeat first
    [ apply emits_get_self
    | apply (emits_weaken _ _ _ probe_event_keeps_session), emits_get_slow_queries
    | apply (emits_weaken _ _ _ probe_event_keeps_session), emits_get_database_stats
    | apply (emits_weaken _ _ _ report_keeps_session), emits_report_slow_queries
    | apply (emits_weaken _ _ _ report_keeps_session), emits_log_statistics
    | apply (emits_weaken _ _ _ report_keeps_session), emits_check_connections
    | apply (emits_weaken _ _ _ report_keeps_session), emits_check_cache_hit_ratio
    | emits_step ].
Qed.

Lemma keeps_session_counts (out : list event) :
  Forall keeps_session out -> connect_calls out = O /\ close_calls out = O.
Proof.
  induction 1 as [|e out He _ [IH1 IH2]]; [split; reflexivity|].
  destruct e; simpl in *; try contradiction; split; assumption.
Qed.

Lemma report_executes_nothing (out : list event) :
  Forall is_report out -> executed out = [].
Proof.
  induction 1 as [|e out He _ IH]; [reflexivity|].
  destruct e; simpl in *; try contradiction; assumption.
Qed.

(* ------------------------------------------------------------------ *)
(** *** The statements of a cycle *)

(** The statement of the slow-query probe and the statements of the
    statistics probe of a dialect, in the order the probes send them. *)
Definition slow_statement (dialect : string) : list string :=
  if String.eqb dialect "postgresql" then [pg_slow_query]
  else if String.eqb dialect "mysql" then [mysql_slow_query]
  else [].

Definition stats_statements (dialect : string) : list string :=
  if String.eqb dialect "postgresql" then map snd pg_stats_queries
  else if String.eqb dialect "mysql" then map snd mysql_stats_queries
  else [].

(** The result of a run and the statements it sent. *)
Definition sent {A : Type} (x : res A * monitor * list event) : res A * list string :=
  (result_of x, executed (events_of x)).

Definition sent_then {A B : Type} (x : res A * list string)
    (k : A -> res B * list string) : res B * list string :=
  match fst x with
  | Ok a => (fst (k a), (snd x ++ snd (k a))%list)
  | Raise e => (Raise e, snd x)
  end.

Lemma sent_bind {A B : Type} (m : M A) (k : A -> M B) self :
  state_of (m self) = self ->
  sent (bind m k self) = sent_then (sent (m self)) (fun a => sent (k a self)).
Proof.
  intros Hs. unfold sent, sent_then. cbn [fst snd].
  rewrite result_bind, events_bind, executed_app, Hs.
  destruct (result_of (m self)); [reflexivity|]. rewrite app_nil_r. reflexivity.
Qed.

Lemma sent_then_ok {A B : Type} (a : A) (k : A -> res B * list string) :
  sent_then (Ok a, []) k = k a.
Proof. unfold sent_then. simpl. destruct (k a). reflexivity. Qed.

Lemma sent_then_ext {A B : Type} (x : res A * list string)
    (k k' : A -> res B * list string) :
  (forall a, k a = k' a) -> sent_then x k = sent_then x k'.
Proof. intros H. unfold sent_then. destruct (fst x); [rewrite H|]; reflexivity. Qed.

Lemma sent_report {A : Type} (m : M A) self :
  emits is_report m -> sent (m self) = (result_of (m self), []).
Proof. intros H. unfold sent. rewrite (report_executes_nothing _ (H self)). reflexivity. Qed.

(** The statements of [check_and_alert], probe by probe. *)
Lemma check_and_alert_sent now self :
  sent (check_and_alert now self) =
    sent_then (sent (get_slow_queries self)) (fun sq =>
    sent_then (result_of (report_slow_queries sq self), []) (fun _ =>
    sent_then (sent (get_database_stats self)) (fun st =>
    sent_then (result_of (log_statistics st self), []) (fun _ =>
    sent_then (result_of (check_connections st self), []) (fun _ =>
    sent_then (result_of (check_cache_hit_ratio st self), []) (fun _ =>
      (Ok {| slow_queries_count := Z.of_nat (length sq);
             slow_queries := sq;
             stats := st |}, []))))))).
Proof.
  unfold check_and_alert.
  rewrite sent_bind by reflexivity.
  change (sent (get_self self)) with (Ok self, @nil string). rewrite sent_then_ok.
  do 5 (rewrite sent_bind by reflexivity;
        change (sent (log _ _ self)) with (Ok tt, @nil string);
        rewrite sent_then_ok).
  rewrite sent_bind by (apply steady_of_readonly, readonly_get_slow_queries).
  apply sent_then_ext; intros sq.
  rewrite sent_bind by (apply steady_of_stateless, stateless_report_slow_queries).
  rewrite (sent_report _ _ (emits_report_slow_queries sq)).
  apply sent_then_ext; intros _.
  rewrite sent_bind by (apply steady_of_readonly, readonly_get_database_stats).
  apply sent_then_ext; intros st.
  rewrite sent_bind by (apply steady_of_stateless, stateless_log_statistics).
  rewrite (sent_report _ _ (emits_log_statistics st)).
  apply sent_then_ext; intros _.
  rewrite sent_bind by (apply steady_of_stateless, stateless_check_connections).
  rewrite (sent_report _ _ (emits_check_connections st)).
  apply sent_then_ext; intros _.
  rewrite sent_bind by (apply steady_of_stateless, stateless_check_cache_hit_ratio).
  rewrite (sent_report _ _ (emits_check_cache_hit_ratio st)).
  apply sent_then_ext; intros _.
  do 2 (rewrite sent_bind by reflexivity;
        change (sent (log _ _ self)) with (Ok tt, @nil string);
        rewrite sent_then_ok).
  reflexivity.
Qed.

Lemma executed_try_except {A : Type} (body : M A) (handler : exn -> M A) self :
  (forall e, emits is_report (handler e)) ->
  executed (events_of (try_except body handler self)) = executed (events_of (body self)).
Proof.
  intros Hh. unfold try_except.
  destruct (body self) as [[[a|e] s] o]; [reflexivity|].
  destruct (is_Exception e); [|reflexivity].
  specialize (Hh e s). destruct (handler e s) as [[r' s'] o'].
  unfold events_of in *. simpl in *.
  rewrite executed_app, (report_executes_nothing _ Hh), app_nil_r. reflexivity.
Qed.

Lemma emits_probe_handler {A : Type} (msg : string) (a : A) e :
  emits is_report (bind (log ERROR [Lit msg; ExnStr e]) (fun _ => ret a)).
Proof. unfold log. repeat emits_step. Qed.

Lemma executed_slow_probe self (q : string) (k : qresult -> M (list dict)) :
  (forall r, emits is_report (k r)) ->
  executed (events_of (bind cursor (fun cur => bind (execute cur q) k) self)) =
    match connection self with
    | Some _ => [q]
    | None => []
    end.
Proof.
  intros Hk. unfold bind, cursor, execute.
  destruct (connection self) as [c|]; [|reflexivity].
  destruct (driver_execute c q) as [r|e]; [|reflexivity].
  specialize (Hk r self). destruct (k r self) as [[r' s'] o'].
  unfold events_of in *. simpl in *.
  rewrite (report_executes_nothing _ Hk). reflexivity.
Qed.

Lemma executed_get_slow_queries self :
  executed (events_of (get_slow_queries self)) =
    match connection self with
    | Some _ => slow_statement (db_type self)
    | None => []
    end.
Proof.
  unfold get_slow_queries, slow_statement.
  rewrite events_bind. cbn [get_self events_of result_of state_of fst snd app].
  destruct (String.eqb (db_type self) "postgresql");
    [|destruct (String.eqb (db_type self) "mysql")].
  - unfold get_slow_queries_postgresql.
    rewrite executed_try_except by (intros e; apply emits_probe_handler).
    apply executed_slow_probe. intros r. emits_step.
  - unfold get_slow_queries_mysql.
    rewrite executed_try_except by (intros e; apply emits_probe_handler).
    apply executed_slow_probe. intros r. emits_step.
  - destruct (connection self); reflexivity.
Qed.

Lemma executed_collect_stats cur queries :
  forall st self, exists n,
    executed (events_of (collect_stats cur queries st self)) = firstn n (map snd queries).
Proof.
  induction queries as [|[name q] queries IH]; intros st self.
  - exists O. reflexivity.
  - cbn [collect_stats]. rewrite events_bind, executed_app.
    unfold execute at 1 2 3. cbn [events_of result_of state_of fst snd executed app].
    destruct (driver_execute cur q) as [r|e].
    + destruct (IH (dict_set st name (first_column (fetchone r))) self) as [n Hn].
      exists (S n). rewrite Hn. reflexivity.
    + exists 1%nat. reflexivity.
Qed.

Lemma executed_stats_probe self queries :
  exists n,
    executed
      (events_of
         (try_except
            (bind cursor (fun cur => collect_stats cur queries []))
            (fun e => bind (log ERROR [Lit "Error fetching database stats: "; ExnStr e])
                           (fun _ => ret []))
            self)) = firstn n (map snd queries)
    /\ (connection self = None -> n = O).
Proof.
  rewrite executed_try_except by (intros e; apply emits_probe_handler).
  rewrite events_bind. unfold cursor at 1 2 3.
  destruct (connection self) as [c|].
  - cbn [events_of result_of state_of fst snd app].
    destruct (executed_collect_stats c queries [] self) as [n Hn].
    exists n. split; [exact Hn | discriminate].
  - exists O. split; reflexivity.
Qed.

Lemma executed_get_database_stats self :
  exists n,
    executed (events_of (get_database_stats self)) = firstn n (stats_statements (db_type self))
    /\ (connection self = None -> n = O).
Proof.
  unfold get_database_stats, stats_statements.
  rewrite events_bind. cbn [get_self events_of result_of state_of fst snd app].
  destruct (String.eqb (db_type self) "postgresql");
    [|destruct (String.eqb (db_type self) "mysql")].
  - apply executed_stats_probe.
  - apply executed_stats_probe.
  - exists O. split; reflexivity.
Qed.

(** X3. A check cycle is read-only towards the session and the server: it
    never calls the driver's [connect] or [close], and the statements it
    sends are the statements of its dialect, each at most once and in
    their fixed order (the slow-query statement, then the statistics
    statements), up to the point where the cycle stops; a monitor without
    a connection sends none. *)
Theorem check_and_alert_sends_fixed_statements now self :
  (exists n,
     executed (events_of (check_and_alert now self)) =
       firstn n (slow_statement (db_type self) ++ stats_statements (db_type self)))
  /\ (connection self = None -> executed (events_of (check_and_alert now self)) = [])
  /\ connect_calls (events_of (check_and_alert now self)) = O
  /\ close_calls (events_of (check_and_alert now self)) = O.
Proof.
  assert (E : executed (events_of (check_and_alert now self)) =
              snd (sent (check_and_alert now self))) by reflexivity.
  rewrite !E, check_and_alert_sent. clear E.
  pose proof (executed_get_slow_queries self) as Hsq.
  destruct (executed_get_database_stats self) as (n & Hst & Hnone).
  assert (Hshape :
    snd (sent_then (sent (get_slow_queries self)) (fun sq =>
         sent_then (result_of (report_slow_queries sq self), []) (fun _ =>
         sent_then (sent (get_database_stats self)) (fun st =>
         sent_then (result_of (log_statistics st self), []) (fun _ =>
         sent_then (result_of (check_connections st self), []) (fun _ =>
         sent_then (result_of (check_cache_hit_ratio st self), []) (fun _ =>
           (Ok {| slow_queries_count := Z.of_nat (length sq);
                  slow_queries := sq;
                  stats := st |}, []))))))))
    = executed (events_of (get_slow_queries self))
    \/ snd (sent_then (sent (get_slow_queries self)) (fun sq =>
         sent_then (result_of (report_slow_queries sq self), []) (fun _ =>
         sent_then (sent (get_database_stats self)) (fun st =>
         sent_then (result_of (log_statistics st self), []) (fun _ =>
         sent_then (result_of (check_connections st self), []) (fun _ =>
         sent_then (result_of (check_cache_hit_ratio st self), []) (fun _ =>
           (Ok {| slow_queries_count := Z.of_nat (length sq);
                  slow_queries := sq;
                  stats := st |}, []))))))))
    = (executed (events_of (get_slow_queries self)) ++
       executed (events_of (get_database_stats self)))%list).
  { unfold sent_then, sent. cbn [fst snd].
    destruct (result_of (get_slow_queries self)) as [sq|e]; cbn [fst snd]; [|left; reflexivity].
    destruct (result_of (report_slow_queries sq self)); cbn [fst snd];
      [|left; rewrite app_nil_r; reflexivity].
    right.
    destruct (result_of (get_database_stats self)) as [st|e]; cbn [fst snd]; [|reflexivity].
    destruct (result_of (log_statistics st self)); cbn [fst snd];
      [|rewrite app_nil_r; reflexivity].
    destruct (result_of (check_connections st self)); cbn [fst snd];
      [|rewrite app_nil_r; reflexivity].
    destruct (result_of (check_cache_hit_ratio st self)); cbn [fst snd];
      rewrite ?app_nil_r; reflexivity. }
  split; [|split].
  - destruct Hshape as [-> | ->]; rewrite Hsq, ?Hst.
    + destruct (connection self).
      * exists (length (slow_statement (db_type self))).
        rewrite firstn_app, Nat.sub_diag, firstn_all, app_nil_r. reflexivity.
      * exists O. reflexivity.
    + destruct (connection self).
      * exists (length (slow_statement (db_type self)) + n)%nat.
        rewrite firstn_app_2. reflexivity.
      * rewrite (Hnone eq_refl). exists O. reflexivity.
  - intros Hc. destruct Hshape as [-> | ->]; rewrite Hsq, ?Hst, Hc.
    + reflexivity.
    + rewrite (Hnone Hc). reflexivity.
  - apply keeps_session_counts, emits_check_and_alert.
Qed.

(* ------------------------------------------------------------------ *)
(** *** What the probes absorb *)

Lemma try_except_absorbs {A : Type} (body : M A) (msg : string) (a : A) self :
  match result_of
          (try_except body
             (fun e => bind (log ERROR [Lit msg; ExnStr e]) (fun _ => ret a)) self)
  with
  | Ok _ => True
  | Raise e => is_Exception e = false
  end.
Proof.
  unfold try_except. destruct (body self) as [[[x|e] s] o]; [exact I|].
  destruct (is_Exception e) eqn:He; [exact I | exact He].
Qed.

(** X4. Whatever the driver does and whatever the rows hold, the two
    dispatching probes raise no [Exception]: they return a list and a
    mapping. Only an exception that is not an [Exception], such as
    [KeyboardInterrupt], passes through them. *)
Theorem probes_raise_no_exception self :
  match result_of (get_slow_queries self) with
  | Ok _ => True
  | Raise e => is_Exception e = false
  end
  /\ match result_of (get_database_stats self) with
     | Ok _ => True
     | Raise e => is_Exception e = false
     end.
Proof.
  split.
  - unfold get_slow_queries. rewrite result_bind.
    cbn [get_self result_of state_of fst snd].
    destruct (String.eqb _ _); [|destruct (String.eqb _ _)];
      [apply try_except_absorbs | apply try_except_absorbs | exact I].
  - unfold get_database_stats. rewrite result_bind.
    cbn [get_self result_of state_of fst snd].
    destruct (String.eqb _ _); [|destruct (String.eqb _ _)];
      [apply try_except_absorbs | apply try_except_absorbs | exact I].
Qed.

Lemma get_slow_queries_no_connection self :
  connection self = None -> result_of (get_slow_queries self) = Ok [].
Proof.
  intros Hc. unfold get_slow_queries. rewrite result_bind.
  cbn [get_self result_of state_of fst snd].
  destruct (String.eqb _ _); [|destruct (String.eqb _ _)]; [| |reflexivity].
  - unfold get_slow_queries_postgresql, try_except, bind, cursor. rewrite Hc. reflexivity.
  - unfold get_slow_queries_mysql, try_except, bind, cursor. rewrite Hc. reflexivity.
Qed.

Lemma get_database_stats_no_connection self :
  connection self = None -> result_of (get_database_stats self) = Ok [].
Proof.
  intros Hc. unfold get_database_stats. rewrite result_bind.
  cbn [get_self result_of state_of fst snd].
  destruct (String.eqb _ _); [|destruct (String.eqb _ _)]; [| |reflexivity].
  - unfold get_database_stats_postgresql, try_except, bind, cursor. rewrite Hc. reflexivity.
  - unfold get_database_stats_mysql, try_except, bind, cursor. rewrite Hc. reflexivity.
Qed.

(** X5. A cycle on a monitor that holds no connection, of whatever dialect,
    does not fail: each probe absorbs the attribute error of
    [None.cursor()], and the cycle returns the empty summary without an
    alert, leaving the monitor as it was. *)
Theorem check_and_alert_without_connection now self :
  connection self = None ->
  outcome (check_and_alert now self) =
    (Ok {| slow_queries_count := 0; slow_queries := []; stats := [] |}, [])
  /\ state_of (check_and_alert now self) = self.
Proof.
  intros Hc. split; [|apply steady_check_and_alert].
  apply check_and_alert_empty;
    [apply get_slow_queries_no_connection | apply get_database_stats_no_connection];
    exact Hc.
Qed.

Lemma and_then_fst_ok {A B : Type} (x : res A * list (text * text))
    (k : A -> res B * list (text * text)) b :
  fst (and_then x k) = Ok b -> exists a, fst x = Ok a /\ fst (k a) = Ok b.
Proof.
  unfold and_then. destruct (fst x) as [a|e]; cbn [fst]; [|discriminate].
  intros H. exists a. split; [reflexivity | exact H].
Qed.

(** X6. The summary a cycle returns reports what its probes returned: the
    records of the slow-query probe, their number as [slow_queries_count],
    and the mapping of the statistics probe. *)
Theorem summary_reports_probe_results now self s :
  result_of (check_and_alert now self) = Ok s ->
  result_of (get_slow_queries self) = Ok (slow_queries s)
  /\ result_of (get_database_stats self) = Ok (stats s)
  /\ slow_queries_count s = Z.of_nat (length (slow_queries s)).
Proof.
  intros H.
  change (fst (outcome (check_and_alert now self)) = Ok s) in H.
  rewrite check_and_alert_outcome in H.
  apply and_then_fst_ok in H. destruct H as (sq & Hsq & H).
  apply and_then_fst_ok in H. destruct H as (_ & _ & H).
  apply and_then_fst_ok in H. destruct H as (st & Hst & H).
  apply and_then_fst_ok in H. destruct H as (_ & _ & H).
  apply and_then_fst_ok in H. destruct H as (_ & _ & H).
  apply and_then_fst_ok in H. destruct H as (_ & _ & H).
  cbn [fst] in H. injection H as <-. cbn [slow_queries stats slow_queries_count].
  repeat split; assumption.
Qed.

(* ------------------------------------------------------------------ *)
(** *** Rows the mysql probe cannot convert *)

(** A row with fewer than the six selected columns, or with NULL as its
    [Time]. *)
Definition unusable_row (row : list value) : Prop :=
  (length row < 6)%nat \/ nth_error row 3 = Some VNone.

Lemma mysql_record_raises row e :
  mysql_record row = Raise e -> e = IndexError \/ e = TypeError.
Proof.
  unfold mysql_record, index.
  destruct row as [|v0 [|v1 [|v2 [|v3 [|v4 [|v5 rest]]]]]]; cbn;
    try (intros [= <-]; left; reflexivity);
    destruct v3; cbn; try (intros [= <-]; auto); try discriminate.
Qed.

Lemma mysql_record_unusable row :
  unusable_row row -> exists e, mysql_record row = Raise e.
Proof.
  unfold unusable_row, mysql_record, index.
  destruct row as [|v0 [|v1 [|v2 [|v3 [|v4 [|v5 rest]]]]]]; cbn;
    intros [Hlen|Hnull]; try lia; try discriminate;
    try (eexists; reflexivity);
    try (destruct v3; cbn; eexists; reflexivity).
  injection Hnull as ->. cbn. eexists. reflexivity.
Qed.

Lemma map_res_unusable rows :
  Exists unusable_row rows ->
  exists e, map_res mysql_record rows = Raise e /\ (e = IndexError \/ e = TypeError).
Proof.
  induction rows as [|row rows IH]; intros HE; [inversion HE|].
  cbn [map_res]. destruct (mysql_record row) as [query|e] eqn:E.
  - assert (HE' : Exists unusable_row rows).
    { inversion HE as [? ? Hbad|]; subst; [|assumption].
      destruct (mysql_record_unusable row Hbad) as [e He]. congruence. }
    destruct (IH HE') as (e & He & Hcase).
    exists e. cbn [res_bind]. rewrite He. split; [reflexivity | exact Hcase].
  - exists e. split; [reflexivity | apply (mysql_record_raises row e E)].
Qed.

(** X7. The mysql probe converts all rows or none: when the process list
    holds one row it cannot convert, the probe logs the error and returns
    the empty list, dropping the rows it could convert as well. *)
Theorem mysql_probe_drops_all_rows self c r :
  connection self = Some c ->
  driver_execute c mysql_slow_query = Ok r ->
  Exists unusable_row (rows r) ->
  exists e,
    (e = IndexError \/ e = TypeError)
    /\ get_slow_queries_mysql self =
         (Ok [], self,
          [Execute mysql_slow_query;
           Log ERROR [Lit "Error fetching slow queries: "; ExnStr e]]).
Proof.
  intros Hc Hr HE. destruct (map_res_unusable _ HE) as (e & He & Hcase).
  exists e. split; [exact Hcase|].
  unfold get_slow_queries_mysql, try_except, bind, cursor, execute, lift, fetchall.
  rewrite Hc, Hr, He. cbn.
  destruct Hcase as [-> | ->]; reflexivity.
Qed.

(* ------------------------------------------------------------------ *)
(** *** The alerts of a cycle, whatever the data *)

Definition about_slow_query (f : text * text) : Prop :=
  has_subject "Very Slow Query Detected (PID " f = true.

Lemma findings_report_slow_query i query self :
  (length (findings (events_of (report_slow_query i query self))) <= 1)%nat
  /\ Forall about_slow_query (findings (events_of (report_slow_query i query self))).
Proof.
  unfold report_slow_query, about_slow_query.
  destruct (dict_get_default query "duration_ms" (VInt 0)) as [|z|q|s];
    destruct (dict_get_default query "query_preview" (VStr "N/A")) as [|z'|q'|s'];
    unfold bind, lift, log, emit, send_alert, ret; cbn;
    repeat match goal with
           | |- context [if ?b then _ else _] => destruct b; cbn
           end;
    split; repeat constructor.
Qed.

Lemma findings_slow_query_loop sq :
  forall start self,
    (length (findings (events_of (for_enumerate sq start report_slow_query self)))
       <= length sq)%nat
    /\ Forall about_slow_query
         (findings (events_of (for_enumerate sq start report_slow_query self))).
Proof.
  induction sq as [|query sq IH]; intros start self; cbn [for_enumerate].
  - split; [apply Nat.le_refl | constructor].
  - rewrite events_bind, findings_app, length_app.
    destruct (findings_report_slow_query start query self) as [Hlen Hall].
    destruct (result_of (report_slow_query start query self)).
    + destruct (IH (start + 1) (state_of (report_slow_query start query self)))
        as [Hlen' Hall'].
      split; [cbn [length]; lia | apply Forall_app; split; assumption].
    + cbn [findings length]. split; [lia | apply Forall_app; split; [assumption | constructor]].
Qed.

Lemma findings_report_slow_queries sq self :
  (length (snd (outcome (report_slow_queries sq self))) <= length sq)%nat
  /\ Forall about_slow_query (snd (outcome (report_slow_queries sq self))).
Proof.
  unfold outcome. cbn [snd]. unfold report_slow_queries.
  destruct sq as [|query sq].
  - split; [apply Nat.le_refl | constructor].
  - rewrite events_bind, findings_app.
    cbn [log emit events_of result_of state_of fst snd findings app].
    apply findings_slow_query_loop.
Qed.

Lemma check_connections_alert st self :
  snd (outcome (check_connections st self)) = []
  \/ exists v,
       dict_get st "active_connections" = Some v
       /\ snd (outcome (check_connections st self)) = [high_connections_finding v].
Proof.
  unfold check_connections, getitem, dict_get_default.
  destruct (dict_get st "active_connections") as [v|]; [|left; reflexivity].
  destruct (truthy v); [|left; reflexivity].
  destruct v as [|z|q|s]; unfold outcome, bind, ret, lift, send_alert, emit, log; cbn;
    try (left; reflexivity).
  - destruct (100 <? z); cbn; [right; eexists; split; reflexivity | left; reflexivity].
  - destruct (Qlt_bool (inject_Z 100) q); cbn;
      [right; eexists; split; reflexivity | left; reflexivity].
Qed.

Lemma check_cache_alert st self :
  snd (outcome (check_cache_hit_ratio st self)) = []
  \/ exists v,
       dict_get st "cache_hit_ratio" = Some v
       /\ snd (outcome (check_cache_hit_ratio st self)) = [low_cache_finding v].
Proof.
  unfold check_cache_hit_ratio, getitem, dict_mem.
  destruct (dict_get st "cache_hit_ratio") as [v|]; [|left; reflexivity].
  destruct v as [|z|q|s]; unfold outcome, bind, ret, lift, send_alert, emit, log; cbn;
    try (left; reflexivity).
  - destruct (z =? 0); cbn; [left; reflexivity|].
    destruct (z <? 95); cbn; [right; eexists; split; reflexivity | left; reflexivity].
  - destruct (Qzero_bool q); cbn; [left; reflexivity|].
    destruct (Qlt_bool q (inject_Z 95)); cbn;
      [right; eexists; split; reflexivity | left; reflexivity].
  - destruct (s =? "")%string; cbn; left; reflexivity.
Qed.

(** The alerts of a cycle, in the order they are sent. *)
Lemma check_and_alert_alerts now self :
  exists fs fc fh,
    findings (events_of (check_and_alert now self)) = (fs ++ fc ++ fh)%list
    /\ Forall about_slow_query fs
    /\ match result_of (get_slow_queries self) with
       | Ok sq => (length fs <= length sq)%nat
       | Raise _ => fs = []
       end
    /\ (fc = [] \/
        exists st v,
          result_of (get_database_stats self) = Ok st
          /\ dict_get st "active_connections" = Some v
          /\ fc = [high_connections_finding v])
    /\ (fh = [] \/
        exists st v,
          result_of (get_database_stats self) = Ok st
          /\ dict_get st "cache_hit_ratio" = Some v
          /\ fh = [low_cache_finding v]).
Proof.
  change (findings (events_of (check_and_alert now self)))
    with (snd (outcome (check_and_alert now self))).
  rewrite check_and_alert_outcome.
  rewrite (outcome_readonly _ readonly_get_slow_queries).
  destruct (result_of (get_slow_queries self)) as [sq|e].
  2:{ exists [], [], []. cbn. repeat split; auto. }
  rewrite and_then_ok, and_then_eta. cbn [snd].
  destruct (findings_report_slow_queries sq self) as [Hlen Hall].
  exists (snd (outcome (report_slow_queries sq self))).
  destruct (fst (outcome (report_slow_queries sq self))).
  2:{ exists [], []. rewrite !app_nil_r. repeat split; auto. }
  rewrite (outcome_readonly _ readonly_get_database_stats).
  destruct (result_of (get_database_stats self)) as [st|e].
  2:{ exists [], []. cbn [app]. rewrite !app_nil_r. repeat split; auto. }
  rewrite and_then_ok, log_statistics_outcome, and_then_ok, and_then_eta. cbn [snd].
  exists (snd (outcome (check_connections st self))).
  assert (Hc : snd (outcome (check_connections st self)) = [] \/
               exists st0 v,
                 Ok st = Ok st0 /\ dict_get st0 "active_connections" = Some v /\
                 snd (outcome (check_connections st self)) = [high_connections_finding v]).
  { destruct (check_connections_alert st self) as [H|(v & Hv & H)];
      [left; exact H | right; exists st, v; auto]. }
  destruct (fst (outcome (check_connections st self))).
  2:{ exists []. rewrite !app_nil_r. repeat split; auto. }
  rewrite and_then_eta. cbn [snd].
  exists (snd (outcome (check_cache_hit_ratio st self))).
  assert (Hh : snd (outcome (check_cache_hit_ratio st self)) = [] \/
               exists st0 v,
                 Ok st = Ok st0 /\ dict_get st0 "cache_hit_ratio" = Some v /\
                 snd (outcome (check_cache_hit_ratio st self)) = [low_cache_finding v]).
  { destruct (check_cache_alert st self) as [H|(v & Hv & H)];
      [left; exact H | right; exists st, v; auto]. }
  destruct (fst (outcome (check_cache_hit_ratio st self))); cbn [snd];
    rewrite ?app_nil_r; repeat split; auto.
Qed.

(** X8. Whatever the probes return, the alerts of a cycle come in the order
    of the rules: first the slow-query alerts, at most one per record,
    then at most one connection alert, then at most one cache alert; the
    last two cite the value the statistics hold. *)
Theorem alerts_follow_rule_order now self :
  exists fs fc fh,
    findings (events_of (check_and_alert now self)) = (fs ++ fc ++ fh)%list
    /\ Forall about_slow_query fs
    /\ match result_of (get_slow_queries self) with
       | Ok sq => (length fs <= length sq)%nat
       | Raise _ => fs = []
       end
    /\ (fc = [] \/
        exists st v,
          result_of (get_database_stats self) = Ok st
          /\ dict_get st "active_connections" = Some v
          /\ fc = [high_connections_finding v])
    /\ (fh = [] \/
        exists st v,
          result_of (get_database_stats self) = Ok st
          /\ dict_get st "cache_hit_ratio" = Some v
          /\ fh = [low_cache_finding v]).
Proof. exact (check_and_alert_alerts now self). Qed.

(* ------------------------------------------------------------------ *)
(** *** The keys of the statistics *)

Lemma dict_set_new_key (d : dict) k v :
  ~ In k (map fst d) -> map fst (dict_set d k v) = (map fst d ++ [k])%list.
Proof.
  induction d as [|[k' v'] d IH]; intros Hk; simpl; [reflexivity|].
  destruct (String.eqb k k') eqn:E.
  - apply String.eqb_eq in E. subst k'. exfalso. apply Hk. left. reflexivity.
  - simpl. rewrite IH; [reflexivity|]. intros H. apply Hk. right. exact H.
Qed.

Lemma dict_get_not_key (d : dict) k : ~ In k (map fst d) -> dict_get d k = None.
Proof.
  induction d as [|[k' v'] d IH]; intros Hk; simpl; [reflexivity|].
  destruct (String.eqb k k') eqn:E.
  - apply String.eqb_eq in E. subst k'. exfalso. apply Hk. left. reflexivity.
  - apply IH. intros H. apply Hk. right. exact H.
Qed.

Lemma collect_stats_keys cur queries :
  forall st0 self st,
    NoDup (map fst st0 ++ map fst queries) ->
    result_of (collect_stats cur queries st0 self) = Ok st ->
    map fst st = (map fst st0 ++ map fst queries)%list.
Proof.
  induction queries as [|[name q] queries IH]; intros st0 self st Hnd H.
  - cbn in H. injection H as <-. cbn. rewrite app_nil_r. reflexivity.
  - cbn [collect_stats] in H. rewrite result_bind in H.
    unfold execute at 1 2 in H. cbn [result_of state_of fst snd] in H.
    destruct (driver_execute cur q) as [r|e]; [|discriminate H].
    cbn [map fst] in Hnd |- *.
    assert (Hnew : ~ In name (map fst st0)).
    { intros Hin. apply NoDup_remove_2 in Hnd. apply Hnd.
      apply in_or_app. left. exact Hin. }
    apply IH in H.
    + rewrite H, (dict_set_new_key _ _ _ Hnew), <- app_assoc. reflexivity.
    + rewrite (dict_set_new_key _ _ _ Hnew), <- app_assoc. exact Hnd.
Qed.

Lemma stats_probe_keys self queries st :
  NoDup (map fst queries) ->
  result_of
    (try_except
       (bind cursor (fun cur => collect_stats cur queries []))
       (fun e => bind (log ERROR [Lit "Error fetching database stats: "; ExnStr e])
                      (fun _ => ret []))
       self) = Ok st ->
  st = [] \/ map fst st = map fst queries.
Proof.
  intros Hnd. unfold try_except.
  destruct (bind cursor (fun cur => collect_stats cur queries []) self)
    as [[[st'|e] s] o] eqn:E.
  - intros [= <-]. right.
    assert (Hr : result_of (bind cursor (fun cur => collect_stats cur queries []) self)
                 = Ok st') by (rewrite E; reflexivity).
    rewrite result_bind in Hr. unfold cursor at 1 2 in Hr.
    destruct (connection self) as [c|]; cbn [result_of state_of fst snd] in Hr;
      [|discriminate Hr].
    apply (collect_stats_keys c queries [] self st' Hnd Hr).
  - destruct (is_Exception e); [|discriminate].
    intros [= <-]. left. reflexivity.
Qed.

(** X9. The statistics a probe returns are all or nothing: the mapping is
    either empty or holds exactly the keys of its dialect, in the order
    of the statements - four for postgresql, and for mysql the three
    without [cache_hit_ratio]. A mapping with only part of the keys is
    never returned. *)
Theorem stats_are_all_or_nothing self st :
  result_of (get_database_stats self) = Ok st ->
  st = []
  \/ (db_type self = "postgresql" /\
      map fst st = ["active_connections"; "total_connections"; "database_size";
                    "cache_hit_ratio"])
  \/ (db_type self = "mysql" /\
      map fst st = ["active_connections"; "total_connections"; "database_size"]).
Proof.
  unfold get_database_stats. rewrite result_bind.
  cbn [get_self result_of state_of fst snd].
  destruct (String.eqb (db_type self) "postgresql") eqn:Hpg.
  - intros H. apply String.eqb_eq in Hpg.
    apply stats_probe_keys in H.
    + destruct H as [H|H]; [left; exact H | right; left; split; [exact Hpg | exact H]].
    + repeat constructor; simpl; intuition discriminate.
  - destruct (String.eqb (db_type self) "mysql") eqn:Hmy.
    + intros H. apply String.eqb_eq in Hmy.
      apply stats_probe_keys in H.
      * destruct H as [H|H]; [left; exact H | right; right; split; [exact Hmy | exact H]].
      * repeat constructor; simpl; intuition discriminate.
    + intros [= <-]. left. reflexivity.
Qed.

Lemma mysql_stats_have_no_ratio self st :
  db_type self = "mysql" ->
  result_of (get_database_stats self) = Ok st ->
  dict_get st "cache_hit_ratio" = None.
Proof.
  intros Hd. rewrite (get_database_stats_dispatch_mysql _ Hd).
  unfold get_database_stats_mysql. intros H.
  apply stats_probe_keys in H.
  - destruct H as [-> | H]; [reflexivity|].
    apply dict_get_not_key. rewrite H. simpl. intuition discriminate.
  - repeat constructor; simpl; intuition discriminate.
Qed.

Lemma filter_high_connections v :
  filter (has_subject "Low Cache Hit Ratio") [high_connections_finding v] = [].
Proof. reflexivity. Qed.

(** X10. A mysql monitor never sends the "Low Cache Hit Ratio" alert: its
    statistics have no [cache_hit_ratio], and the rule is skipped. *)
Theorem mysql_cycle_sends_no_cache_alert now self :
  db_type self = "mysql" ->
  findings_about "Low Cache Hit Ratio" (events_of (check_and_alert now self)) = [].
Proof.
  intros Hd. unfold findings_about.
  destruct (check_and_alert_alerts now self) as (fs & fc & fh & E & Hfs & _ & Hfc & Hfh).
  rewrite E, !filter_app.
  rewrite (filter_other_subject _ _ _ subject_slow_cache Hfs).
  assert (fh = []) as ->.
  { destruct Hfh as [H|(st & v & Hst & Hv & _)]; [exact H|].
    rewrite (mysql_stats_have_no_ratio self st Hd Hst) in Hv. discriminate Hv. }
  destruct Hfc as [-> | (st & v & _ & _ & ->)]; reflexivity.
Qed.

(* ------------------------------------------------------------------ *)
(** *** Alerts in the log *)

(** The subjects of the warning records of the form [ALERT: <subject>]. *)
Fixpoint alert_records (out : list event) : list text :=
  match out with
  | [] => []
  | Log WARNING (Lit s :: subject) :: out' =>
      if String.eqb s "ALERT: " then subject :: alert_records out'
      else alert_records out'
  | _ :: out' => alert_records out'
  end.

Lemma alert_records_app (o1 o2 : list event) :
  alert_records (o1 ++ o2) = (alert_records o1 ++ alert_records o2)%list.
Proof.
  induction o1 as [|e o1 IH]; [reflexivity|].
  change ((e :: o1) ++ o2)%list with (e :: (o1 ++ o2))%list.
  destruct e as [l msg| | | |]; try exact IH.
  destruct l; try exact IH.
  destruct msg as [|[s| | |] msg]; try exact IH.
  simpl. destruct (String.eqb s "ALERT: "); rewrite IH; reflexivity.
Qed.

(** The alert records of a computation are the subjects of its alerts. *)
Definition logs_its_alerts {A : Type} (m : M A) : Prop :=
  forall self,
    alert_records (events_of (m self)) = map fst (findings (events_of (m self))).

Lemma logs_its_alerts_bind {A B : Type} (m : M A) (k : A -> M B) :
  logs_its_alerts m -> (forall a, logs_its_alerts (k a)) -> logs_its_alerts (bind m k).
Proof.
  intros Hm Hk self.
  rewrite events_bind, alert_records_app, findings_app, map_app, Hm.
  destruct (result_of (m self)); [rewrite Hk|]; reflexivity.
Qed.

Lemma logs_its_alerts_try_except {A : Type} (body : M A) (handler : exn -> M A) :
  logs_its_alerts body -> (forall e, logs_its_alerts (handler e)) ->
  logs_its_alerts (try_except body handler).
Proof.
  intros Hb Hh self. specialize (Hb self). unfold try_except.
  destruct (body self) as [[[a|e] s] o]; unfold events_of in *; cbn [snd] in *; [exact Hb|].
  destruct (is_Exception e); [|exact Hb].
  specialize (Hh e s). destruct (handler e s) as [[r' s'] o'].
  unfold events_of in Hh. cbn [snd] in *.
  rewrite alert_records_app, findings_app, map_app, Hb, Hh. reflexivity.
Qed.

Lemma logs_its_alerts_quiet {A : Type} (m : M A) :
  (forall self, events_of (m self) = []) -> logs_its_alerts m.
Proof. intros H self. rewrite H. reflexivity. Qed.

Lemma logs_its_alerts_log l msg :
  alert_records [Log l msg] = [] -> logs_its_alerts (log l msg).
Proof. intros H self. exact H. Qed.

Lemma logs_its_alerts_send_alert subject message :
  logs_its_alerts (send_alert subject message).
Proof. intros self. reflexivity. Qed.

Lemma logs_its_alerts_for_each {A : Type} (xs : list A) (body : A -> M unit) :
  (forall x, logs_its_alerts (body x)) -> logs_its_alerts (for_each xs body).
Proof.
  intros Hb. induction xs as [|x xs IH]; cbn [for_each].
  - intros self. reflexivity.
  - apply logs_its_alerts_bind; [apply Hb | intros _; exact IH].
Qed.

Lemma logs_its_alerts_for_enumerate {A : Type} (xs : list A) (body : Z -> A -> M unit) :
  (forall i x, logs_its_alerts (body i x)) ->
  forall start, logs_its_alerts (for_enumerate xs start body).
Proof.
  intros Hb. induction xs as [|x xs IH]; intros start; cbn [for_enumerate].
  - intros self. reflexivity.
  - apply logs_its_alerts_bind; [apply Hb | intros _; apply IH].
Qed.

Ltac logs_step :=
  first
    [ apply logs_its_alerts_send_alert
    | apply logs_its_alerts_log; reflexivity
    | apply logs_its_alerts_quiet; intro; reflexivity
    | apply logs_its_alerts_try_except; [|intro]
    | apply logs_its_alerts_bind; [|intro] ].

Lemma logs_its_alerts_report_slow_query i query :
  logs_its_alerts (report_slow_query i query).
Proof.
  unfold report_slow_query.
  apply logs_its_alerts_bind; [logs_step | intros d].
  apply logs_its_alerts_bind; [logs_step | intros _].
  apply logs_its_alerts_bind; [logs_step | intros p].
  apply logs_its_alerts_bind; [logs_step | intros _].
  apply logs_its_alerts_bind; [logs_step | intros [|]]; [|logs_step].
  apply logs_its_alerts_bind; [logs_step | intros seconds]. logs_step.
Qed.

Lemma logs_its_alerts_report_slow_queries sq : logs_its_alerts (report_slow_queries sq).
Proof.
  unfold report_slow_queries. destruct sq as [|query sq]; [logs_step|].
  apply logs_its_alerts_bind; [logs_step | intros _].
  apply logs_its_alerts_for_enumerate. apply logs_its_alerts_report_slow_query.
Qed.

Lemma logs_its_alerts_log_statistics st : logs_its_alerts (log_statistics st).
Proof.
  unfold log_statistics.
  apply logs_its_alerts_bind; [logs_step | intros _].
  apply logs_its_alerts_bind; [logs_step | intros _].
  apply logs_its_alerts_for_each. intros [k v]. logs_step.
Qed.

Lemma logs_its_alerts_getitem d k : logs_its_alerts (getitem d k).
Proof. unfold getitem. destruct (dict_get d k); logs_step. Qed.

Lemma logs_its_alerts_check_connections st : logs_its_alerts (check_connections st).
Proof.
  unfold check_connections. destruct (truthy _); [|logs_step].
  apply logs_its_alerts_bind; [apply logs_its_alerts_getitem | intros active].
  apply logs_its_alerts_bind; [logs_step | intros [|]]; logs_step.
Qed.

Lemma logs_its_alerts_check_cache_hit_ratio st :
  logs_its_alerts (check_cache_hit_ratio st).
Proof.
  unfold check_cache_hit_ratio. destruct (dict_mem _ _); [|logs_step].
  apply logs_its_alerts_bind; [apply logs_its_alerts_getitem | intros cache_ratio].
  apply logs_its_alerts_bind.
  - destruct (truthy _); logs_step.
  - intros [|]; logs_step.
Qed.

Lemma logs_its_alerts_of_probe {A : Type} (m : M A) :
  emits is_probe_event m ->
  (forall self, alert_records (events_of (m self)) = []) ->
  logs_its_alerts m.
Proof.
  intros He Ha self. rewrite Ha.
  specialize (He self). induction He as [|e out H _ IH]; [reflexivity|].
  destruct e; cbn in *; try contradiction; exact IH.
Qed.

Lemma probe_events_no_alert_record (out : list event) :
  Forall (fun e => match e with
                   | Log ERROR _ | Execute _ => True
                   | _ => False
                   end) out ->
  alert_records out = [].
Proof.
  induction 1 as [|e out H _ IH]; [reflexivity|].
  destruct e as [[| |] msg| | | |]; cbn in *; try contradiction; exact IH.
Qed.

Definition is_error_or_statement (e : event) : Prop :=
  match e with
  | Log ERROR _ | Execute _ => True
  | _ => False
  end.

Lemma error_or_statement_is_probe_event e : is_error_or_statement e -> is_probe_event e.
Proof. destruct e as [[| |] msg| | | |]; simpl; auto. Qed.

Lemma emits_execute_strict cur q : emits is_error_or_statement (execute cur q).
Proof. intros self. repeat constructor. Qed.

Lemma emits_collect_stats_strict cur queries :
  forall st, emits is_error_or_statement (collect_stats cur queries st).
Proof.
  induction queries as [|[name q] queries IH]; intros st; simpl.
  - emits_step.
  - apply emits_bind; [apply emits_execute_strict | intros r; apply IH].
Qed.

Lemma emits_get_slow_queries_strict : emits is_error_or_statement get_slow_queries.
Proof.
  unfold get_slow_queries. apply emits_bind; [apply emits_get_self | intros self].
  destruct (String.eqb _ _); [|destruct (String.eqb _ _)].
  - unfold get_slow_queries_postgresql, log.
    repeat first [apply emits_cursor | apply emits_execute_strict | emits_step].
  - unfold get_slow_queries_mysql, log.
    repeat first [apply emits_cursor | apply emits_execute_strict | emits_step].
  - emits_step.
Qed.

Lemma emits_get_database_stats_strict : emits is_error_or_statement get_database_stats.
Proof.
  unfold get_database_stats. apply emits_bind; [apply emits_get_self | intros self].
  destruct (String.eqb _ _); [|destruct (String.eqb _ _)].
  - unfold get_database_stats_postgresql, log.
    repeat first [apply emits_cursor | apply emits_collect_stats_strict | emits_step].
  - unfold get_database_stats_mysql, log.
    repeat first [apply emits_cursor | apply emits_collect_stats_strict | emits_step].
  - emits_step.
Qed.

Lemma logs_its_alerts_get_slow_queries : logs_its_alerts get_slow_queries.
Proof.
  apply logs_its_alerts_of_probe.
  - apply (emits_weaken _ _ _ error_or_statement_is_probe_event),
      emits_get_slow_queries_strict.
  - intros self. apply probe_events_no_alert_record, emits_get_slow_queries_strict.
Qed.

Lemma logs_its_alerts_get_database_stats : logs_its_alerts get_database_stats.
Proof.
  apply logs_its_alerts_of_probe.
  - apply (emits_weaken _ _ _ error_or_statement_is_probe_event),
      emits_get_database_stats_strict.
  - intros self. apply probe_events_no_alert_record, emits_get_database_stats_strict.
Qed.

(** X11. [send_alert] only writes to the log, and a cycle writes every alert
    there: the warning records of the form [ALERT: <subject>] of a cycle
    are the subjects of its alerts, one record per alert and in the same
    order, and no other record of the cycle has that form. *)
Theorem every_alert_is_logged now self :
  alert_records (events_of (check_and_alert now self)) =
    map fst (findings (events_of (check_and_alert now self))).
Proof.
  revert self. change (logs_its_alerts (check_and_alert now)).
  unfold check_and_alert.
  apply logs_its_alerts_bind; [logs_step | intros self].
  do 5 (apply logs_its_alerts_bind; [logs_step | intros _]).
  apply logs_its_alerts_bind; [apply logs_its_alerts_get_slow_queries | intros sq].
  apply logs_its_alerts_bind; [apply logs_its_alerts_report_slow_queries | intros _].
  apply logs_its_alerts_bind; [apply logs_its_alerts_get_database_stats | intros st].
  apply logs_its_alerts_bind; [apply logs_its_alerts_log_statistics | intros _].
  apply logs_its_alerts_bind; [apply logs_its_alerts_check_connections | intros _].
  apply logs_its_alerts_bind; [apply logs_its_alerts_check_cache_hit_ratio | intros _].
  do 2 (apply logs_its_alerts_bind; [logs_step | intros _]).
  logs_step.
Qed.

(* ------------------------------------------------------------------ *)
(** *** The preview in the log *)

(** The text that follows a cut made between two characters is empty or
    begins a character. *)
Definition starts_character (s : string) : bool :=
  match s with
  | EmptyString => true
  | String c _ => negb (continuation c)
  end.

Lemma py_len_take_chars (n : nat) (s : string) :
  py_len (take_chars n s) = Nat.min n (py_len s).
Proof.
  revert n. induction s as [|c s IH]; intros n; cbn [take_chars py_len].
  - rewrite Nat.min_0_r. reflexivity.
  - destruct (continuation c) eqn:Hc.
    + cbn [py_len]. rewrite Hc. apply IH.
    + destruct n as [|n]; [reflexivity|].
      cbn [py_len]. rewrite Hc, IH. reflexivity.
Qed.

Lemma take_chars_split (n : nat) (s : string) :
  exists rest, s = take_chars n s ++ rest /\ starts_character rest = true.
Proof.
  revert n. induction s as [|c s IH]; intros n; cbn [take_chars].
  - exists "". split; reflexivity.
  - destruct (continuation c) eqn:Hc.
    + destruct (IH n) as (rest & Hs & Hr). exists rest.
      split; [cbn [append]; rewrite <- Hs; reflexivity | exact Hr].
    + destruct n as [|n].
      * exists (String c s). split; [reflexivity | cbn [starts_character]; rewrite Hc; reflexivity].
      * destruct (IH n) as (rest & Hs & Hr). exists rest.
        split; [cbn [append]; rewrite <- Hs; reflexivity | exact Hr].
Qed.

Lemma take_chars_all (n : nat) (s : string) :
  (py_len s <= n)%nat -> take_chars n s = s.
Proof.
  revert n. induction s as [|c s IH]; intros n; cbn [take_chars py_len]; [reflexivity|].
  destruct (continuation c).
  - intros H. rewrite (IH n H). reflexivity.
  - destruct n as [|n]; intros H; [lia|].
    rewrite (IH n); [reflexivity | lia].
Qed.

(** X12. For a record with a text preview the loop logs the first 80
    characters of the preview, cut between two characters - the whole
    preview when it has no more than 80 - while the alert of a very slow
    record carries the preview in full. *)
Theorem logged_preview_is_cut_at_80 i query self s x :
  preview_of query = VStr s ->
  num_of (duration_of query) = Some x ->
  In (Log WARNING [Lit "     Query: "; Str (VStr (take_chars 80 s)); Lit "..."])
     (events_of (report_slow_query i query self))
  /\ py_len (take_chars 80 s) = Nat.min 80 (py_len s)
  /\ (exists rest, s = take_chars 80 s ++ rest /\ starts_character rest = true)
  /\ ((py_len s <= 80)%nat -> take_chars 80 s = s)
  /\ (very_slow query = true ->
      exists subject seconds,
        findings (events_of (report_slow_query i query self)) =
          [(subject, [Lit "Query running for "; Fixed2 seconds; Lit "s:"; Lit nl;
                      Str (VStr s)])]).
Proof.
  intros Hs Hx.
  split; [|split; [apply py_len_take_chars
                  |split; [apply take_chars_split | split; [apply take_chars_all|]]]].
  - unfold report_slow_query. fold (duration_of query) (preview_of query) (pid_of query).
    rewrite Hs. destruct (duration_of query) as [|z|q|t]; try discriminate Hx;
      unfold bind, lift, log, emit, send_alert, ret; cbn -[take_chars].
    + destruct (5000 <? z); cbn -[take_chars]; right; left; reflexivity.
    + destruct (Qlt_bool (inject_Z 5000) q); cbn -[take_chars]; right; left; reflexivity.
  - intros Hvs.
    assert (Hwt : well_typed_record query)
      by (split; [exists x; exact Hx | exists s; exact Hs]).
    pose proof (report_slow_query_outcome i query self Hwt) as E.
    apply (f_equal snd) in E. cbn [outcome snd] in E.
    rewrite E, Hvs. unfold very_slow_finding. rewrite Hs.
    eexists. eexists. reflexivity.
Qed.

(* ------------------------------------------------------------------ *)
(** *** The range of the cache hit ratio *)

Lemma round2_range (q : Q) :
  (0 <= q)%Q -> (q <= inject_Z 100)%Q ->
  (0 <= round2 q)%Q /\ (round2 q <= inject_Z 100)%Q.
Proof.
  unfold Qle, round2. destruct q as [n d]. cbn [Qnum Qden inject_Z].
  intros H0 H100.
  assert (Hn : 0 <= n) by lia.
  assert (Hd : 0 < Z.pos d) by lia.
  assert (Hm0 : 0 <= (2 * Z.abs (n * 100) + Z.pos d) / (2 * Z.pos d))
    by (apply Z.div_pos; lia).
  assert (Hm : (2 * Z.abs (n * 100) + Z.pos d) / (2 * Z.pos d) < 10001)
    by (apply Z.div_lt_upper_bound; lia).
  assert (Hs : Z.sgn (n * 100) = 0 \/ Z.sgn (n * 100) = 1).
  { destruct (Z.eq_dec n 0) as [->|Hne]; [left; reflexivity|].
    right. apply Z.sgn_pos. lia. }
  destruct Hs as [-> | ->]; split; lia.
Qed.

(** X13. The ratio statement never fails for block counters, which are not
    negative: the [NULLIF] guard keeps the division from a zero
    denominator. It yields NULL exactly when both counters are zero, and
    otherwise a percentage between 0 and 100. *)
Theorem cache_ratio_statement_is_safe (blks_hit blks_read : Z) :
  0 <= blks_hit -> 0 <= blks_read ->
  match pg_cache_hit_ratio blks_hit blks_read with
  | Ok None => blks_hit = 0 /\ blks_read = 0
  | Ok (Some ratio) =>
      0 < blks_hit + blks_read /\ (0 <= ratio)%Q /\ (ratio <= inject_Z 100)%Q
  | Raise _ => False
  end.
Proof.
  intros Hh Hr. unfold pg_cache_hit_ratio, sql_mul, sql_add, sql_nullif.
  destruct (Qeq_bool (inject_Z blks_hit + inject_Z blks_read) (inject_Z 0)) eqn:E.
  - apply Qeq_bool_iff in E. unfold Qeq in E. cbn in E. cbn. lia.
  - assert (Hpos : 0 < blks_hit + blks_read).
    { destruct (Z.eq_dec (blks_hit + blks_read) 0) as [H0|H0]; [|lia].
      exfalso. apply Qeq_bool_neq in E. apply E. unfold Qeq. cbn. lia. }
    assert (Hz : Qzero_bool (inject_Z blks_hit + inject_Z blks_read) = false)
      by (unfold Qzero_bool; cbn; apply Z.eqb_neq; lia).
    unfold sql_div. rewrite Hz. cbn [res_bind sql_round2 option_map].
    assert (Hx : (0 < inject_Z blks_hit + inject_Z blks_read)%Q)
      by (unfold Qlt; cbn; lia).
    split; [exact Hpos|].
    apply round2_range.
    + apply Qle_shift_div_l; [exact Hx|]. unfold Qle. cbn -[Z.mul Z.add]. lia.
    + apply Qle_shift_div_r; [exact Hx|]. unfold Qle. cbn -[Z.mul Z.add]. lia.
Qed.

(* ================================================================== *)
(** ** The polling loop *)

(** What [monitor] meets outside the program, check by check: the
    reading of [time.time()] ([clock 0] before the loop, [clock k] after
    check [k]), the reading of [datetime.now()] in check [k], what
    [time.sleep] does after check [k] (it returns, or it is interrupted),
    and what the server and the network have done to the connection
    object by the time check [k] starts. *)
Record world : Type := {
  clock : nat -> Q;
  wall : nat -> string;
  nap : nat -> res unit;
  drift : nat -> Conn -> Conn
}.

(** [time.sleep(interval)] after check [k]: a negative length is
    refused. *)
Definition time_sleep (w : world) (interval : Z) (k : nat) : res unit :=
  if interval <? 0 then Raise (ValueError "sleep length must be non-negative")
  else nap w k.

(** [duration and (time.time() - start_time) >= duration] after check
    [k]: [None] and [0] are falsy. *)
Definition duration_reached (w : world) (duration : option Z) (start_time : Q)
    (k : nat) : bool :=
  match duration with
  | None => false
  | Some d =>
      if d =? 0 then false
      else negb (Qlt_bool (clock w k - start_time)%Q (inject_Z d))
  end.

(** The connection object as check [k] finds it. *)
Definition drifted (w : world) (k : nat) : M unit :=
  fun self => (Ok tt, set_connection self (option_map (drift w k) (connection self)), []).

(** How far the [while True] loop got: it left through [break], or it is
    still going round when the steps counted here are used up. *)
Inductive loop_state : Type := Broke | Spinning.

(** The loop of [monitor], unrolled [fuel] times; [check_count] checks
    were made before. *)
Fixpoint monitor_loop (w : world) (interval : Z) (duration : option Z)
    (start_time : Q) (fuel : nat) (check_count : nat) : M loop_state :=
  match fuel with
  | O => ret Spinning
  | S fuel' =>
      let check_count := S check_count in
      log INFO [Lit "Check #"; Str (VInt (Z.of_nat check_count))] ;;
      drifted w check_count ;;
      check_and_alert (wall w check_count) ;;
      if duration_reached w duration start_time check_count then
        log INFO [Lit "Monitoring duration limit reached (";
                  Str (match duration with Some d => VInt d | None => VNone end);
                  Lit "s)"] ;;
        ret Broke
      else
        lift (time_sleep w interval check_count) ;;
        monitor_loop w interval duration start_time fuel' check_count
  end.

(** How a call of [monitor] stands: it returned, or its loop is still
    going round. *)
Inductive ending : Type := Returned | Running.

(** The [except] clauses of [monitor]. *)
Definition monitor_handler (e : exn) : M unit :=
  match e with
  | KeyboardInterrupt => log INFO [Lit "Monitoring stopped by user"]
  | _ => log ERROR [Lit "Monitoring error: "; ExnStr e]
  end.

(** The [try] statement of [monitor] around its loop: the two [except]
    clauses, then [finally: self.disconnect()]. While the loop is still
    going round nothing of this has happened yet. *)
Definition monitor_try (w : world) (interval : Z) (duration : option Z)
    (start_time : Q) (fuel : nat) : M ending :=
  fun self =>
    match monitor_loop w interval duration start_time fuel 0 self with
    | (Ok Spinning, self', out) => (Ok Running, self', out)
    | (Ok Broke, self', out) =>
        let '(r, self'', out') := (disconnect ;; ret Returned) self' in
        (r, self'', (out ++ out')%list)
    | (Raise e, self', out) =>
        let '(r, self'', out') :=
          (monitor_handler e ;; disconnect ;; ret Returned) self' in
        (r, self'', (out ++ out')%list)
    end.

(** [DatabaseMonitor.monitor] (the name [monitor] is taken by the object). *)
Definition monitor_run (w : world) (interval : Z) (duration : option Z) (fuel : nat)
    : M ending :=
  log INFO [Lit "Starting continuous monitoring (interval: "; Str (VInt interval);
            Lit "s)"] ;;
  connected <- connect ;;
  if negb connected then
    log ERROR [Lit "Failed to connect to database"] ;;
    ret Returned
  else
    let start_time := clock w 0 in
    monitor_try w interval duration start_time fuel.

(* ================================================================== *)
(** ** The command line *)

(** How the process of [main] ends: with an exit code, or with an
    exception nobody caught. *)
Inductive termination : Type :=
| Exit (code : Z)
| Uncaught (e : exn).

Definition pg_config : dict :=
  [("host", VStr "localhost"); ("port", VInt 5432); ("database", VStr "postgres");
   ("user", VStr "postgres"); ("password", VStr "password")].

Definition mysql_config : dict :=
  [("host", VStr "localhost"); ("port", VInt 3306); ("database", VStr "mysql");
   ("user", VStr "root"); ("password", VStr "password")].

(** The four [print] calls after a check. *)
Definition print_summary (result : summary) : list text :=
  [[Lit nl; Lit (repeat_string "=" 70)];
   [Lit "Summary:"];
   [Lit "Slow queries found: "; Str (VInt (slow_queries_count result))];
   [Lit (repeat_string "=" 70)]].

(** The [finally] clause of [main]: an exception of [disconnect] replaces
    the way the process was going to end. *)
Definition main_finally (going : termination) (printed : list text)
    (self : monitor) (out : list event) : termination * list text * list event :=
  match disconnect self with
  | (Ok _, _, out') => (going, printed, (out ++ out')%list)
  | (Raise e, _, out') => (Uncaught e, printed, (out ++ out')%list)
  end.

(** [main]: how the process ends, what it printed, and its events. *)
Definition main (now : string) : termination * list text * list event :=
  let db_type := "postgresql" in
  let config := if String.eqb db_type "postgresql" then pg_config else mysql_config in
  let monitor := init config db_type in
  match connect monitor with
  | (Raise e, _, out) => (Uncaught e, [], out)
  | (Ok false, _, out) => (Exit 1, [], out)
  | (Ok true, monitor, out) =>
      match check_and_alert now monitor with
      | (Ok result, monitor, out') =>
          main_finally (Exit 0) (print_summary result) monitor (out ++ out')%list
      | (Raise e, monitor, out') =>
          if is_Exception e then
            main_finally (Exit 1) [] monitor
              (out ++ out' ++ [Log ERROR [Lit "Error: "; ExnStr e]])%list
          else
            main_finally (Uncaught e) [] monitor (out ++ out')%list
      end
  end.

(* ================================================================== *)
(** ** Properties of the polling loop *)

(** The records [Check #<n>] that open the checks of the loop. *)
Definition is_check_log (e : event) : bool :=
  match e with
  | Log INFO (Lit s :: _) => String.eqb s "Check #"
  | _ => false
  end.

(** The number of checks a run started. *)
Definition checks (out : list event) : nat := length (filter is_check_log out).

Definition no_check_log (e : event) : Prop := is_check_log e = false.

Lemma checks_app (o1 o2 : list event) :
  checks (o1 ++ o2) = (checks o1 + checks o2)%nat.
Proof. unfold checks. rewrite filter_app, length_app. reflexivity. Qed.

Lemma checks_none (out : list event) : Forall no_check_log out -> checks out = O.
Proof.
  unfold checks. induction 1 as [|e out He _ IH]; [reflexivity|].
  simpl. rewrite He. exact IH.
Qed.

Ltac nocheck_step :=
  first
    [ apply emits_ret | apply emits_lift | apply emits_raise
    | apply emits_get_self | apply emits_cursor | apply emits_getitem
    | apply emits_emit; reflexivity
    | apply emits_try_except; [|intro]
    | apply emits_bind; [|intro] ].

Lemma nocheck_send_alert subject message : emits no_check_log (send_alert subject message).
Proof. unfold send_alert, log. repeat nocheck_step. Qed.

Lemma nocheck_report_slow_query i query : emits no_check_log (report_slow_query i query).
Proof.
  unfold report_slow_query, log.
  apply emits_bind; [nocheck_step | intros d].
  apply emits_bind; [nocheck_step | intros _].
  apply emits_bind; [nocheck_step | intros p].
  apply emits_bind; [nocheck_step | intros _].
  apply emits_bind; [nocheck_step | intros [|]]; [|nocheck_step].
  apply emits_bind; [nocheck_step | intros seconds]. apply nocheck_send_alert.
Qed.

Lemma nocheck_report_slow_queries sq : emits no_check_log (report_slow_queries sq).
Proof.
  unfold report_slow_queries, log. destruct sq as [|q sq]; [nocheck_step|].
  apply emits_bind; [nocheck_step | intros _].
  apply emits_for_enumerate. apply nocheck_report_slow_query.
Qed.

Lemma nocheck_log_statistics st : emits no_check_log (log_statistics st).
Proof.
  unfold log_statistics, log.
  apply emits_bind; [nocheck_step | intros _].
  apply emits_bind; [nocheck_step | intros _].
  apply emits_for_each. intros [k v]. nocheck_step.
Qed.

Lemma nocheck_check_connections st : emits no_check_log (check_connections st).
Proof.
  unfold check_connections. destruct (truthy _); [|nocheck_step].
  apply emits_bind; [nocheck_step | intros active].
  apply emits_bind; [nocheck_step | intros [|]];
    first [apply nocheck_send_alert | nocheck_step].
Qed.

Lemma nocheck_check_cache_hit_ratio st : emits no_check_log (check_cache_hit_ratio st).
Proof.
  unfold check_cache_hit_ratio. destruct (dict_mem _ _); [|nocheck_step].
  apply emits_bind; [nocheck_step | intros cache_ratio].
  apply emits_bind.
  - destruct (truthy _); nocheck_step.
  - intros [|]; first [apply nocheck_send_alert | nocheck_step].
Qed.

Lemma error_or_statement_no_check e : is_error_or_statement e -> no_check_log e.
Proof. destruct e as [[| |] msg| | | |]; simpl; try contradiction; reflexivity. Qed.

Lemma nocheck_check_and_alert now : emits no_check_log (check_and_alert now).
Proof.
  unfold check_and_alert, log.
  apply emits_bind; [nocheck_step | intros self].
  do 5 (apply emits_bind; [nocheck_step | intros _]).
  apply emits_bind;
    [apply (emits_weaken _ _ _ error_or_statement_no_check), emits_get_slow_queries_strict
    | intros sq].
  apply emits_bind; [apply nocheck_report_slow_queries | intros _].
  apply emits_bind;
    [apply (emits_weaken _ _ _ error_or_statement_no_check), emits_get_database_stats_strict
    | intros st].
  apply emits_bind; [apply nocheck_log_statistics | intros _].
  apply emits_bind; [apply nocheck_check_connections | intros _].
  apply emits_bind; [apply nocheck_check_cache_hit_ratio | intros _].
  do 2 (apply emits_bind; [nocheck_step | intros _]).
  nocheck_step.
Qed.

Lemma emits_drifted P w k : emits P (drifted w k).
Proof. intros self. constructor. Qed.

Lemma emits_monitor_loop w interval duration start_time fuel :
  forall k, emits keeps_session (monitor_loop w interval duration start_time fuel k).
Proof.
  induction fuel as [|fuel IH]; intros k; cbn [monitor_loop].
  - apply emits_ret.
  - apply emits_bind; [apply emits_emit; exact I | intros _].
    apply emits_bind; [apply emits_drifted | intros _].
    apply emits_bind; [apply emits_check_and_alert | intros _].
    destruct (duration_reached _ _ _ _).
    + apply emits_bind; [apply emits_emit; exact I | intros _]. apply emits_ret.
    + apply emits_bind; [apply emits_lift | intros _]. apply IH.
Qed.

(** A monitor that holds a connection. *)
Definition connected (self : monitor) : Prop := connection self <> None.

Lemma connected_drifted w k self : connected self -> connected (state_of (drifted w k self)).
Proof. unfold connected, drifted, state_of. simpl. destruct (connection self); simpl; congruence. Qed.

Lemma monitor_loop_keeps_connection w interval duration start_time fuel :
  forall k self,
    connected self ->
    connected (state_of (monitor_loop w interval duration start_time fuel k self)).
Proof.
  induction fuel as [|fuel IH]; intros k self Hc; cbn [monitor_loop]; [exact Hc|].
  rewrite state_bind. cbn [log emit result_of state_of fst snd].
  rewrite state_bind. cbn [drifted result_of fst].
  set (s1 := state_of (drifted w (S k) self)).
  assert (H1 : connected s1) by (apply connected_drifted; exact Hc).
  change (state_of (Ok tt, set_connection self (option_map (drift w (S k)) (connection self)),
                    @nil event)) with s1.
  rewrite state_bind, (steady_check_and_alert (wall w (S k)) s1).
  destruct (result_of (check_and_alert (wall w (S k)) s1)); [|exact H1].
  destruct (duration_reached _ _ _ _).
  - rewrite state_bind. cbn. exact H1.
  - rewrite state_bind. cbn [lift result_of state_of fst snd].
    destruct (time_sleep w interval (S k)); [apply IH; exact H1 | exact H1].
Qed.

Lemma disconnect_connected self :
  connected self ->
  close_calls (events_of (disconnect self)) = 1%nat
  /\ connect_calls (events_of (disconnect self)) = O
  /\ checks (events_of (disconnect self)) = O
  /\ executed (events_of (disconnect self)) = [].
Proof.
  unfold connected, disconnect, bind, get_self, call_close. simpl.
  destruct (connection self) as [c|]; [intros _ | congruence].
  destruct (driver_close c) as [[[]|e] c']; repeat split; reflexivity.
Qed.

Lemma connect_events self :
  executed (events_of (connect self)) = []
  /\ close_calls (events_of (connect self)) = O
  /\ checks (events_of (connect self)) = O.
Proof.
  destruct (backend_of (db_type self)) as [b|] eqn:Hb.
  - rewrite (connect_with_backend self b Hb).
    destruct (driver_connect b (conn_params self)) as [c|e];
      [|destruct (is_Exception e)]; repeat split; reflexivity.
  - rewrite (connect_without_backend self Hb). repeat split; reflexivity.
Qed.

Lemma connect_false_state self :
  result_of (connect self) = Ok false -> state_of (connect self) = self.
Proof.
  destruct (backend_of (db_type self)) as [b|] eqn:Hb.
  - rewrite (connect_with_backend self b Hb).
    destruct (driver_connect b (conn_params self)) as [c|e];
      [|destruct (is_Exception e)]; cbn; congruence.
  - rewrite (connect_without_backend self Hb). reflexivity.
Qed.

Lemma connect_true_state self :
  result_of (connect self) = Ok true ->
  exists c,
    state_of (connect self) = set_connection self (Some c)
    /\ connect_calls (events_of (connect self)) = 1%nat.
Proof.
  destruct (backend_of (db_type self)) as [b|] eqn:Hb.
  - rewrite (connect_with_backend self b Hb).
    destruct (driver_connect b (conn_params self)) as [c|e];
      [|destruct (is_Exception e)]; cbn; try discriminate.
    intros _. exists c. split; reflexivity.
  - rewrite (connect_without_backend self Hb). discriminate.
Qed.

Lemma connect_at_most_once self :
  (connect_calls (events_of (connect self)) <= 1)%nat.
Proof.
  destruct (backend_of (db_type self)) as [b|] eqn:Hb.
  - rewrite (connect_with_backend self b Hb).
    destruct (driver_connect b (conn_params self)) as [c|e];
      [|destruct (is_Exception e)]; cbn; lia.
  - rewrite (connect_without_backend self Hb). cbn. lia.
Qed.

(** X14. When the connection cannot be opened, [monitor] gives up at once:
    after the one call of [connect] it logs the failure and returns,
    without a second attempt, without a check, without a statement and
    without a call of [close], leaving the monitor as it was. *)
Theorem monitor_gives_up_without_connection w interval duration fuel self :
  result_of (connect self) = Ok false ->
  result_of (monitor_run w interval duration fuel self) = Ok Returned
  /\ state_of (monitor_run w interval duration fuel self) = self
  /\ checks (events_of (monitor_run w interval duration fuel self)) = O
  /\ executed (events_of (monitor_run w interval duration fuel self)) = []
  /\ close_calls (events_of (monitor_run w interval duration fuel self)) = O
  /\ In (Log ERROR [Lit "Failed to connect to database"])
        (events_of (monitor_run w interval duration fuel self))
  /\ (connect_calls (events_of (monitor_run w interval duration fuel self)) <= 1)%nat
  /\ events_of (monitor_run w interval duration fuel self) =
       (Log INFO [Lit "Starting continuous monitoring (interval: "; Str (VInt interval);
                  Lit "s)"] ::
        events_of (connect self) ++ [Log ERROR [Lit "Failed to connect to database"]])%list.
Proof.
  intros Hf. pose proof (connect_false_state self Hf) as Hs.
  destruct (connect_events self) as (He & Hc & Hk).
  pose proof (connect_at_most_once self) as Hn.
  unfold monitor_run.
  rewrite result_bind, state_bind, events_bind.
  cbn [log emit result_of state_of events_of fst snd].
  rewrite result_bind, state_bind, events_bind.
  change (state_of (Ok tt, self, [Log INFO
            [Lit "Starting continuous monitoring (interval: "; Str (VInt interval);
             Lit "s)"]])) with self.
  rewrite Hf, Hs. cbn [negb].
  repeat split; try reflexivity.
  - cbn [app]. change (checks (?e :: ?l)) with (checks ([e] ++ l)%list).
    rewrite !checks_app, Hk. reflexivity.
  - cbn [app executed]. rewrite executed_app, He. reflexivity.
  - cbn [app close_calls]. rewrite close_calls_app, Hc. reflexivity.
  - cbn [app]. right. apply in_or_app. right. left. reflexivity.
  - cbn [app connect_calls]. rewrite connect_calls_app.
    change (connect_calls (events_of ((log ERROR [Lit "Failed to connect to database"] ;;
                                        ret Returned) self))) with O.
    lia.
Qed.

(* ------------------------------------------------------------------ *)
(** *** How [monitor] ends *)

(** The record an [except] clause of [monitor] writes. *)
Definition handler_log (e : exn) : event :=
  match e with
  | KeyboardInterrupt => Log INFO [Lit "Monitoring stopped by user"]
  | _ => Log ERROR [Lit "Monitoring error: "; ExnStr e]
  end.

(** What [monitor] returns once its [finally] clause has run: it
    returns, unless [disconnect] raises. *)
Definition after_close (self : monitor) : res ending :=
  match result_of (disconnect self) with
  | Ok _ => Ok Returned
  | Raise e => Raise e
  end.

Lemma monitor_handler_run e self :
  monitor_handler e self = (Ok tt, self, [handler_log e]).
Proof. destruct e; reflexivity. Qed.

Lemma handler_log_no_check e : is_check_log (handler_log e) = false.
Proof. destruct e; reflexivity. Qed.

Lemma monitor_try_run w interval duration start_time fuel self :
  match result_of (monitor_loop w interval duration start_time fuel 0 self) with
  | Ok Spinning =>
      result_of (monitor_try w interval duration start_time fuel self) = Ok Running
      /\ events_of (monitor_try w interval duration start_time fuel self) =
         events_of (monitor_loop w interval duration start_time fuel 0 self)
  | Ok Broke =>
      result_of (monitor_try w interval duration start_time fuel self) =
        after_close (state_of (monitor_loop w interval duration start_time fuel 0 self))
      /\ events_of (monitor_try w interval duration start_time fuel self) =
         (events_of (monitor_loop w interval duration start_time fuel 0 self) ++
          events_of
            (disconnect (state_of (monitor_loop w interval duration start_time fuel 0 self))))%list
  | Raise e =>
      result_of (monitor_try w interval duration start_time fuel self) =
        after_close (state_of (monitor_loop w interval duration start_time fuel 0 self))
      /\ events_of (monitor_try w interval duration start_time fuel self) =
         (events_of (monitor_loop w interval duration start_time fuel 0 self) ++
          handler_log e ::
          events_of
            (disconnect (state_of (monitor_loop w interval duration start_time fuel 0 self))))%list
  end.
Proof.
  unfold monitor_try, after_close.
  destruct (monitor_loop w interval duration start_time fuel 0 self) as [[[[|]|e] s'] o];
    cbn [result_of state_of events_of fst snd].
  - unfold bind. destruct (disconnect s') as [[[[]|e'] s''] o'];
      cbn; rewrite ?app_nil_r; split; reflexivity.
  - split; reflexivity.
  - unfold bind. rewrite monitor_handler_run.
    destruct (disconnect s') as [[[[]|e'] s''] o'];
      cbn; rewrite ?app_nil_r; split; reflexivity.
Qed.

Lemma after_close_not_running self : after_close self <> Ok Running.
Proof. unfold after_close. destruct (result_of (disconnect self)); discriminate. Qed.

Lemma monitor_run_connected w interval duration fuel self b c :
  backend_of (db_type self) = Some b ->
  driver_connect b (conn_params self) = Ok c ->
  result_of (monitor_run w interval duration fuel self) =
    result_of (monitor_try w interval duration (clock w 0) fuel (set_connection self (Some c)))
  /\ events_of (monitor_run w interval duration fuel self) =
     (Log INFO [Lit "Starting continuous monitoring (interval: "; Str (VInt interval);
                Lit "s)"]
      :: Connect b (conn_params self)
      :: Log INFO [Lit "✓ Connected to "; Lit (db_type self); Lit " database"]
      :: events_of (monitor_try w interval duration (clock w 0) fuel
                      (set_connection self (Some c))))%list.
Proof.
  intros Hb Hc. pose proof (connect_with_backend self b Hb) as E. rewrite Hc in E.
  unfold monitor_run. rewrite result_bind, events_bind.
  cbn [log emit result_of state_of events_of fst snd].
  rewrite result_bind, events_bind.
  change (state_of (Ok tt, self, [Log INFO
            [Lit "Starting continuous monitoring (interval: "; Str (VInt interval);
             Lit "s)"]])) with self.
  rewrite E. cbn [result_of state_of events_of fst snd negb app]. split; reflexivity.
Qed.

(** X15. Once the connection is open, [monitor] opens no other and closes it
    exactly once, by whatever way the loop is left - the duration limit,
    an interruption, an error inside a check or in [sleep]; as long as
    the loop goes round it is not closed. *)
Theorem monitor_closes_once w interval duration fuel self b c :
  backend_of (db_type self) = Some b ->
  driver_connect b (conn_params self) = Ok c ->
  connect_calls (events_of (monitor_run w interval duration fuel self)) = 1%nat
  /\ match result_of (monitor_run w interval duration fuel self) with
     | Ok Running =>
         close_calls (events_of (monitor_run w interval duration fuel self)) = O
     | _ =>
         close_calls (events_of (monitor_run w interval duration fuel self)) = 1%nat
     end.
Proof.
  intros Hb Hc.
  destruct (monitor_run_connected w interval duration fuel self b c Hb Hc) as [Hr He].
  rewrite Hr, He. clear Hr He.
  set (s0 := set_connection self (Some c)).
  assert (H0 : connected s0) by (unfold connected, s0; simpl; discriminate).
  pose proof (monitor_loop_keeps_connection w interval duration (clock w 0) fuel 0 s0 H0) as Hk.
  destruct (keeps_session_counts _
              (emits_monitor_loop w interval duration (clock w 0) fuel 0 s0)) as [Hcn Hcl].
  destruct (disconnect_connected _ Hk) as (Hd1 & Hd2 & _ & _).
  pose proof (monitor_try_run w interval duration (clock w 0) fuel s0) as Ht.
  cbn [connect_calls close_calls].
  destruct (result_of (monitor_loop w interval duration (clock w 0) fuel 0 s0))
    as [[|]|e]; destruct Ht as [-> ->].
  - rewrite connect_calls_app, close_calls_app, Hcn, Hcl, Hd1, Hd2.
    split; [reflexivity|].
    pose proof (after_close_not_running
                  (state_of (monitor_loop w interval duration (clock w 0) fuel 0 s0))) as Hn.
    destruct (after_close _) as [[|]|e]; [reflexivity | contradiction | reflexivity].
  - rewrite Hcn, Hcl. split; reflexivity.
  - rewrite connect_calls_app, close_calls_app, Hcn, Hcl.
    change (connect_calls (handler_log e :: ?l)) with (connect_calls ([handler_log e] ++ l)%list).
    change (close_calls (handler_log e :: ?l)) with (close_calls ([handler_log e] ++ l)%list).
    rewrite connect_calls_app, close_calls_app, Hd1, Hd2.
    assert (Hh : connect_calls [handler_log e] = O /\ close_calls [handler_log e] = O)
      by (destruct e; split; reflexivity).
    destruct Hh as [-> ->].
    split; [reflexivity|].
    pose proof (after_close_not_running
                  (state_of (monitor_loop w interval duration (clock w 0) fuel 0 s0))) as Hn.
    destruct (after_close _) as [[|]|e']; [reflexivity | contradiction | reflexivity].
Qed.

Lemma bind_ext {A B : Type} (m : M A) (k k' : A -> M B) self :
  (forall a s, k a s = k' a s) -> bind m k self = bind m k' self.
Proof.
  intros H. unfold bind. destruct (m self) as [[[a|e] s] o]; [rewrite H|]; reflexivity.
Qed.

Lemma monitor_loop_zero_duration w interval start_time fuel :
  forall k self,
    monitor_loop w interval (Some 0) start_time fuel k self =
    monitor_loop w interval None start_time fuel k self.
Proof.
  induction fuel as [|fuel IH]; intros k self; cbn [monitor_loop]; [reflexivity|].
  apply bind_ext; intros _ s1.
  apply bind_ext; intros _ s2.
  apply bind_ext; intros _ s3.
  change (duration_reached w (Some 0) start_time (S k)) with false.
  change (duration_reached w None start_time (S k)) with false.
  cbn iota. apply bind_ext; intros _ s4. apply IH.
Qed.

(** X16. A duration of [0] is no limit at all: being falsy it is never
    compared with the clock, and [monitor] runs exactly as with no
    duration. *)
Theorem monitor_zero_duration_is_unbounded w interval fuel self :
  monitor_run w interval (Some 0) fuel self = monitor_run w interval None fuel self.
Proof.
  unfold monitor_run. apply bind_ext; intros _ s1. apply bind_ext; intros connected s2.
  destruct (negb connected); [reflexivity|].
  unfold monitor_try. rewrite monitor_loop_zero_duration. reflexivity.
Qed.

(* ------------------------------------------------------------------ *)
(** *** The checks of the loop *)

(** The connection object at check [k], from the one [connect] stored. *)
Fixpoint conn_at (w : world) (c : Conn) (k : nat) : Conn :=
  match k with
  | O => c
  | S k' => drift w k (conn_at w c k')
  end.

(** The monitor at check [k]. *)
Definition at_check (w : world) (self : monitor) (c : Conn) (k : nat) : monitor :=
  set_connection self (Some (conn_at w c k)).

(** Check [k] returns its summary. *)
Definition check_returns (w : world) (self : monitor) (c : Conn) (k : nat) : Prop :=
  exists s, result_of (check_and_alert (wall w k) (at_check w self c k)) = Ok s.

(** Check [k] returns, the duration is not reached after it, and the
    sleep that follows returns. *)
Definition quiet_check (w : world) (interval : Z) (duration : option Z)
    (self : monitor) (c : Conn) (k : nat) : Prop :=
  check_returns w self c k
  /\ duration_reached w duration (clock w 0) k = false
  /\ time_sleep w interval k = Ok tt.

Definition check_log (k : nat) : event :=
  Log INFO [Lit "Check #"; Str (VInt (Z.of_nat k))].

Definition limit_log (duration : option Z) : event :=
  Log INFO [Lit "Monitoring duration limit reached (";
            Str (match duration with Some d => VInt d | None => VNone end);
            Lit "s)"].

(** One turn of the loop, by what happens in it. *)
Lemma monitor_loop_step w interval duration start_time fuel k self c :
  monitor_loop w interval duration start_time (S fuel) k (at_check w self c k) =
    match result_of (check_and_alert (wall w (S k)) (at_check w self c (S k))) with
    | Raise e =>
        (Raise e, at_check w self c (S k),
         check_log (S k) ::
         events_of (check_and_alert (wall w (S k)) (at_check w self c (S k))))
    | Ok _ =>
        if duration_reached w duration start_time (S k) then
          (Ok Broke, at_check w self c (S k),
           (check_log (S k) ::
            events_of (check_and_alert (wall w (S k)) (at_check w self c (S k))) ++
            [limit_log duration])%list)
        else
          match time_sleep w interval (S k) with
          | Raise e =>
              (Raise e, at_check w self c (S k),
               check_log (S k) ::
               events_of (check_and_alert (wall w (S k)) (at_check w self c (S k))))
          | Ok _ =>
              (result_of (monitor_loop w interval duration start_time fuel (S k)
                            (at_check w self c (S k))),
               state_of (monitor_loop w interval duration start_time fuel (S k)
                           (at_check w self c (S k))),
               (check_log (S k) ::
                events_of (check_and_alert (wall w (S k)) (at_check w self c (S k))) ++
                events_of (monitor_loop w interval duration start_time fuel (S k)
                             (at_check w self c (S k))))%list)
          end
    end.
Proof.
  cbn [monitor_loop]. unfold bind at 1. cbn [log emit].
  unfold bind at 1. unfold drifted at 1.
  change (set_connection (at_check w self c k)
            (option_map (drift w (S k)) (connection (at_check w self c k))))
    with (at_check w self c (S k)).
  unfold bind at 1.
  pose proof (steady_check_and_alert (wall w (S k)) (at_check w self c (S k))) as Hs.
  destruct (check_and_alert (wall w (S k)) (at_check w self c (S k))) as [[[s|e] s'] o];
    unfold state_of in Hs; cbn [fst snd] in Hs; subst s';
    cbn [result_of events_of fst snd app]; [|reflexivity].
  destruct (duration_reached w duration start_time (S k)).
  - reflexivity.
  - unfold bind at 1. unfold lift at 1.
    destruct (time_sleep w interval (S k)) as [[]|e]; [|rewrite app_nil_r; reflexivity].
    destruct (monitor_loop w interval duration start_time fuel (S k)
                (at_check w self c (S k))) as [[r s2] o2].
    reflexivity.
Qed.

Lemma checks_check_and_alert now self : checks (events_of (check_and_alert now self)) = O.
Proof. apply checks_none, nocheck_check_and_alert. Qed.

(** Over [m] quiet checks the loop goes on as it would from the last of
    them. *)
Lemma monitor_loop_quiet w interval duration self c m :
  forall fuel k,
    (forall j, (k < j <= k + m)%nat -> quiet_check w interval duration self c j) ->
    exists pre,
      checks pre = m
      /\ result_of (monitor_loop w interval duration (clock w 0) (m + fuel) k
                      (at_check w self c k)) =
         result_of (monitor_loop w interval duration (clock w 0) fuel (k + m)
                      (at_check w self c (k + m)))
      /\ state_of (monitor_loop w interval duration (clock w 0) (m + fuel) k
                     (at_check w self c k)) =
         state_of (monitor_loop w interval duration (clock w 0) fuel (k + m)
                     (at_check w self c (k + m)))
      /\ events_of (monitor_loop w interval duration (clock w 0) (m + fuel) k
                      (at_check w self c k)) =
         (pre ++ events_of (monitor_loop w interval duration (clock w 0) fuel (k + m)
                              (at_check w self c (k + m))))%list.
Proof.
  induction m as [|m IH]; intros fuel k Hq.
  - exists []. rewrite Nat.add_0_r. repeat split; reflexivity.
  - destruct (Hq (S k)) as ((s & Hs) & Hd & Hn); [lia|].
    destruct (IH fuel (S k)) as (pre & Hpre & Hr & Hst & He).
    { intros j Hj. apply Hq. lia. }
    replace (k + S m)%nat with (S k + m)%nat by lia.
    exists (check_log (S k) ::
            events_of (check_and_alert (wall w (S k)) (at_check w self c (S k))) ++ pre)%list.
    cbn [Nat.add]. rewrite monitor_loop_step, Hs, Hd, Hn.
    cbn [result_of state_of events_of fst snd].
    repeat split; try assumption.
    + change (checks (check_log (S k) :: ?l)) with (checks ([check_log (S k)] ++ l)%list).
      rewrite !checks_app, checks_check_and_alert, Hpre. reflexivity.
    + rewrite He, <- app_comm_cons, <- app_assoc. reflexivity.
Qed.

Lemma monitor_try_checks w interval duration fuel self :
  connected self ->
  checks (events_of (monitor_try w interval duration (clock w 0) fuel self)) =
    checks (events_of (monitor_loop w interval duration (clock w 0) fuel 0 self)).
Proof.
  intros H0.
  pose proof (monitor_loop_keeps_connection w interval duration (clock w 0) fuel 0 self H0) as Hk.
  destruct (disconnect_connected _ Hk) as (_ & _ & Hd & _).
  pose proof (monitor_try_run w interval duration (clock w 0) fuel self) as Ht.
  destruct (result_of (monitor_loop w interval duration (clock w 0) fuel 0 self))
    as [[|]|e]; destruct Ht as [_ ->].
  - rewrite checks_app, Hd. lia.
  - reflexivity.
  - change (handler_log e :: ?l) with ([handler_log e] ++ l)%list.
    rewrite !checks_app, Hd. unfold checks at 2. cbn [filter].
    rewrite handler_log_no_check. cbn. lia.
Qed.


(** [monitor] when its loop is left in the check after [k] quiet ones. *)
Lemma monitor_run_ends w interval duration fuel self b c k r o :
  backend_of (db_type self) = Some b ->
  driver_connect b (conn_params self) = Ok c ->
  (forall j, (1 <= j <= k)%nat -> quiet_check w interval duration self c j) ->
  (k < fuel)%nat ->
  monitor_loop w interval duration (clock w 0) (S (fuel - S k)) k (at_check w self c k) =
    (r, at_check w self c (S k), check_log (S k) :: o) ->
  r <> Ok Spinning ->
  checks o = O ->
  result_of (monitor_run w interval duration fuel self) = after_close (at_check w self c (S k))
  /\ checks (events_of (monitor_run w interval duration fuel self)) = S k
  /\ (forall e, In e o -> In e (events_of (monitor_run w interval duration fuel self)))
  /\ (forall e, r = Raise e ->
        In (handler_log e) (events_of (monitor_run w interval duration fuel self))).
Proof.
  intros Hb Hc Hq Hk Hlast Hr Ho.
  destruct (monitor_run_connected w interval duration fuel self b c Hb Hc) as [Hres Hev].
  destruct (monitor_loop_quiet w interval duration self c k (S (fuel - S k)) 0)
    as (pre & Hpre & Hlr & Hls & Hle).
  { intros j Hj. apply Hq. lia. }
  replace (k + S (fuel - S k))%nat with fuel in Hlr, Hls, Hle by lia.
  cbn [Nat.add] in Hlr, Hls, Hle. rewrite Hlast in Hlr, Hls, Hle.
  cbn [result_of state_of events_of fst snd] in Hlr, Hls, Hle.
  change (at_check w self c 0) with (set_connection self (Some c)) in Hlr, Hls, Hle.
  set (s0 := set_connection self (Some c)) in *.
  assert (H0 : connected s0) by (unfold connected, s0; simpl; discriminate).
  pose proof (monitor_try_checks w interval duration fuel s0 H0) as Hchecks.
  pose proof (monitor_try_run w interval duration (clock w 0) fuel s0) as Ht.
  rewrite Hlr, Hls, Hle in Ht.
  assert (Hk1 : checks (events_of (monitor_run w interval duration fuel self)) = S k).
  { rewrite Hev.
    match goal with
    | |- checks (?a :: ?b :: ?d :: ?l) = _ =>
        change (checks ([a; b; d] ++ l)%list = S k);
        rewrite checks_app; change (checks [a; b; d]) with O
    end.
    rewrite Hchecks, Hle, checks_app, Hpre.
    change (checks (check_log (S k) :: o)) with (checks ([check_log (S k)] ++ o)%list).
    rewrite checks_app, Ho. cbn. lia. }
  destruct r as [[|]|e].
  - destruct Ht as [Htr Hte].
    split; [rewrite Hres; exact Htr|]. split; [exact Hk1|]. split.
    + intros e He. rewrite Hev, Hte. right. right. right.
      apply in_or_app. left. apply in_or_app. right. right. exact He.
    + intros e [=].
  - contradiction.
  - destruct Ht as [Htr Hte].
    split; [rewrite Hres; exact Htr|]. split; [exact Hk1|]. split.
    + intros e' He. rewrite Hev, Hte. right. right. right.
      apply in_or_app. left. apply in_or_app. right. right. exact He.
    + intros e' [= <-]. rewrite Hev, Hte. right. right. right.
      apply in_or_app. right. left. reflexivity.
Qed.

(** X18. With a duration, [monitor] tests the clock only after a check: after
    [k] quiet checks it makes check [k + 1] whatever the time, and when
    the duration has then run out it logs the limit, closes the
    connection and returns, having made exactly [k + 1] checks - so at
    least one, even when the duration is over before the first. *)
Theorem monitor_stops_at_duration w interval duration fuel self b c k :
  backend_of (db_type self) = Some b ->
  driver_connect b (conn_params self) = Ok c ->
  (forall j, (1 <= j <= k)%nat -> quiet_check w interval duration self c j) ->
  check_returns w self c (S k) ->
  duration_reached w duration (clock w 0) (S k) = true ->
  (k < fuel)%nat ->
  result_of (monitor_run w interval duration fuel self) = after_close (at_check w self c (S k))
  /\ checks (events_of (monitor_run w interval duration fuel self)) = S k
  /\ In (limit_log duration) (events_of (monitor_run w interval duration fuel self)).
Proof.
  intros Hb Hc Hq [s Hs] Hd Hk.
  pose proof (monitor_loop_step w interval duration (clock w 0) (fuel - S k) k self c) as Hstep.
  rewrite Hs, Hd in Hstep.
  destruct (monitor_run_ends w interval duration fuel self b c k _ _ Hb Hc Hq Hk Hstep)
    as (Hr & Hn & Hin & _).
  - discriminate.
  - rewrite checks_app, checks_check_and_alert. reflexivity.
  - repeat split; try assumption.
    apply Hin. apply in_or_app. right. left. reflexivity.
Qed.

(** X19. An exception in a check ends the monitoring: when check [k + 1]
    raises after [k] quiet checks, [monitor] logs it - as an error, or as
    a stop by the user for [KeyboardInterrupt] - closes the connection
    and returns; no further check is made. *)
Theorem monitor_stops_at_failing_check w interval duration fuel self b c k e :
  backend_of (db_type self) = Some b ->
  driver_connect b (conn_params self) = Ok c ->
  (forall j, (1 <= j <= k)%nat -> quiet_check w interval duration self c j) ->
  result_of (check_and_alert (wall w (S k)) (at_check w self c (S k))) = Raise e ->
  (k < fuel)%nat ->
  result_of (monitor_run w interval duration fuel self) = after_close (at_check w self c (S k))
  /\ checks (events_of (monitor_run w interval duration fuel self)) = S k
  /\ In (handler_log e) (events_of (monitor_run w interval duration fuel self)).
Proof.
  intros Hb Hc Hq He Hk.
  pose proof (monitor_loop_step w interval duration (clock w 0) (fuel - S k) k self c) as Hstep.
  rewrite He in Hstep.
  destruct (monitor_run_ends w interval duration fuel self b c k _ _ Hb Hc Hq Hk Hstep)
    as (Hr & Hn & _ & Hin).
  - discriminate.
  - apply checks_check_and_alert.
  - repeat split; try assumption. apply Hin. reflexivity.
Qed.

(** X20. A sleep that raises ends the monitoring in the same way: an
    interruption of the wait, or the [ValueError] of a negative interval,
    which stops [monitor] after its first check. *)
Theorem monitor_stops_at_failing_sleep w interval duration fuel self b c k e :
  backend_of (db_type self) = Some b ->
  driver_connect b (conn_params self) = Ok c ->
  (forall j, (1 <= j <= k)%nat -> quiet_check w interval duration self c j) ->
  check_returns w self c (S k) ->
  duration_reached w duration (clock w 0) (S k) = false ->
  time_sleep w interval (S k) = Raise e ->
  (k < fuel)%nat ->
  result_of (monitor_run w interval duration fuel self) = after_close (at_check w self c (S k))
  /\ checks (events_of (monitor_run w interval duration fuel self)) = S k
  /\ In (handler_log e) (events_of (monitor_run w interval duration fuel self)).
Proof.
  intros Hb Hc Hq [s Hs] Hd Hn Hk.
  pose proof (monitor_loop_step w interval duration (clock w 0) (fuel - S k) k self c) as Hstep.
  rewrite Hs, Hd, Hn in Hstep.
  destruct (monitor_run_ends w interval duration fuel self b c k _ _ Hb Hc Hq Hk Hstep)
    as (Hr & Hchecks & _ & Hin).
  - discriminate.
  - apply checks_check_and_alert.
  - repeat split; try assumption. apply Hin. reflexivity.
Qed.

Lemma negative_interval_sleep w interval k :
  interval < 0 ->
  time_sleep w interval k = Raise (ValueError "sleep length must be non-negative").
Proof. intros H. unfold time_sleep. apply Z.ltb_lt in H. rewrite H. reflexivity. Qed.

Lemma duration_reached_iff w d start_time k :
  duration_reached w (Some d) start_time k = true <->
  d <> 0 /\ (inject_Z d <= clock w k - start_time)%Q.
Proof.
  unfold duration_reached. destruct (d =? 0) eqn:E.
  - apply Z.eqb_eq in E. split; [discriminate | intros [H _]; contradiction].
  - apply Z.eqb_neq in E. rewrite negb_true_iff. split.
    + intros H. split; [exact E|]. apply Qnot_lt_le. intros Hlt.
      apply Qlt_bool_iff in Hlt. congruence.
    + intros [_ H]. destruct (Qlt_bool _ _) eqn:Hb; [|reflexivity].
      apply Qlt_bool_iff in Hb. exfalso. apply (Qlt_not_le _ _ Hb H).
Qed.

(* ================================================================== *)
(** ** Properties of the command line *)

Definition ended (x : termination * list text * list event) : termination := fst (fst x).
Definition printed (x : termination * list text * list event) : list text := snd (fst x).
Definition trace (x : termination * list text * list event) : list event := snd x.

(** The monitor [main] builds, and the one it works with once the driver
    has returned the connection [c]. *)
Definition main_monitor : monitor := init pg_config "postgresql".

Definition main_connected (c : Conn) : monitor := set_connection main_monitor (Some c).

Lemma main_connect :
  connect main_monitor =
    match driver_connect Psycopg2 pg_config with
    | Ok c =>
        (Ok true, main_connected c,
         [Connect Psycopg2 pg_config;
          Log INFO [Lit "✓ Connected to "; Lit "postgresql"; Lit " database"]])
    | Raise e =>
        if is_Exception e
        then (Ok false, main_monitor,
              [Connect Psycopg2 pg_config;
               Log ERROR [Lit "Failed to connect: "; ExnStr e]])
        else (Raise e, main_monitor, [Connect Psycopg2 pg_config])
    end.
Proof. exact (connect_with_backend main_monitor Psycopg2 eq_refl). Qed.

(** [main] by cases: on the driver's answer to [connect], on the result
    of the check, and on the result of [disconnect]. *)
Lemma main_cases now :
  match driver_connect Psycopg2 pg_config with
  | Raise e =>
      main now =
        (if is_Exception e then Exit 1 else Uncaught e, [],
         Connect Psycopg2 pg_config ::
         (if is_Exception e then [Log ERROR [Lit "Failed to connect: "; ExnStr e]] else []))
  | Ok c =>
      exists out,
        trace (main now) =
          (Connect Psycopg2 pg_config ::
           Log INFO [Lit "✓ Connected to "; Lit "postgresql"; Lit " database"] ::
           events_of (check_and_alert now (main_connected c)) ++ out ++
           events_of (disconnect (main_connected c)))%list
        /\ Forall is_report out
        /\ match result_of (check_and_alert now (main_connected c)),
                 result_of (disconnect (main_connected c)) with
           | Ok s, Ok _ => ended (main now) = Exit 0 /\ printed (main now) = print_summary s
           | Raise e, Ok _ =>
               ended (main now) = (if is_Exception e then Exit 1 else Uncaught e)
               /\ printed (main now) = []
           | Ok s, Raise e' =>
               ended (main now) = Uncaught e' /\ printed (main now) = print_summary s
           | Raise _, Raise e' => ended (main now) = Uncaught e' /\ printed (main now) = []
           end
  end.
Proof.
  unfold main. cbn [String.eqb Ascii.eqb Bool.eqb].
  change (init pg_config "postgresql") with main_monitor.
  rewrite main_connect.
  destruct (driver_connect Psycopg2 pg_config) as [c|e];
    [|destruct (is_Exception e); reflexivity].
  pose proof (steady_check_and_alert now (main_connected c)) as Hs.
  destruct (check_and_alert now (main_connected c)) as [[[s|e] s'] o];
    unfold state_of in Hs; cbn [fst snd] in Hs; subst s';
    cbn [result_of events_of fst snd].
  - exists []. unfold main_finally.
    destruct (disconnect (main_connected c)) as [[[[]|e'] s''] o'];
      cbn [result_of events_of ended printed trace fst snd app];
      (split; [rewrite <- ?app_assoc; reflexivity | split; [constructor | split; reflexivity]]).
  - destruct (is_Exception e).
    + exists [Log ERROR [Lit "Error: "; ExnStr e]]. unfold main_finally.
      destruct (disconnect (main_connected c)) as [[[[]|e'] s''] o'];
        cbn [result_of events_of ended printed trace fst snd app];
        (split; [rewrite <- ?app_assoc; reflexivity
                | split; [repeat constructor | split; reflexivity]]).
    + exists []. unfold main_finally.
      destruct (disconnect (main_connected c)) as [[[[]|e'] s''] o'];
        cbn [result_of events_of ended printed trace fst snd app];
        (split; [rewrite <- ?app_assoc; reflexivity
                | split; [constructor | split; reflexivity]]).
Qed.


(** X22. The session of [main]: when the connection cannot be opened the
    process ends without a statement, without a call of [close] and
    without printing; otherwise [close] is called exactly once, whether
    the check returned or raised, and no second connection is opened. *)
Theorem main_closes_once now :
  connect_calls (trace (main now)) = 1%nat
  /\ match driver_connect Psycopg2 pg_config with
     | Ok _ => close_calls (trace (main now)) = 1%nat
     | Raise e =>
         close_calls (trace (main now)) = O
         /\ executed (trace (main now)) = []
         /\ printed (main now) = []
         /\ ended (main now) = (if is_Exception e then Exit 1 else Uncaught e)
     end.
Proof.
  pose proof (main_cases now) as H.
  destruct (driver_connect Psycopg2 pg_config) as [c|e].
  - destruct H as (out & -> & Hout & _).
    assert (H0 : connected (main_connected c)) by (unfold connected; simpl; discriminate).
    destruct (disconnect_connected _ H0) as (Hd1 & Hd2 & _ & _).
    destruct (keeps_session_counts _ (emits_check_and_alert now (main_connected c)))
      as [Hc1 Hc2].
    destruct (keeps_session_counts out
                (Forall_impl _ report_keeps_session Hout)) as [Ho1 Ho2].
    cbn [connect_calls close_calls].
    rewrite !connect_calls_app, !close_calls_app, Hc1, Hc2, Ho1, Ho2, Hd1, Hd2.
    split; reflexivity.
  - rewrite H. destruct (is_Exception e); repeat split; reflexivity.
Qed.

End Monitor.

(* ================================================================== *)
(** ** Concrete runs *)

(** Monitors over scripted connections: [psycopg2_like] lets [close] be
    repeated, [pymysql_like] does not. No server is listening, so
    [connect] is refused; connections are put in place directly. *)
Definition psycopg2_like : Driver scripted := lenient_driver refused.
Definition pymysql_like : Driver scripted := strict_driver refused.

Definition monitor_on (dialect : string) (c : option scripted) : @monitor scripted :=
  set_connection (init [("host", VStr "localhost")] dialect) c.

Definition server_down : string -> res qresult :=
  fun _ => Raise (DriverError "server closed the connection unexpectedly").

(** A postgresql server: the answer to the slow-query statement and the
    four statistics. *)
Definition pg_server (slow active total size cache : res qresult)
    : string -> res qresult :=
  fun q =>
    if String.eqb q pg_slow_query then slow
    else if String.eqb q pg_active_connections_query then active
    else if String.eqb q pg_total_connections_query then total
    else if String.eqb q pg_database_size_query then size
    else if String.eqb q pg_cache_hit_ratio_query then cache
    else Raise (DriverError "syntax error").

(** A mysql server: the process list and the three statistics. *)
Definition mysql_server (slow active total size : res qresult)
    : string -> res qresult :=
  fun q =>
    if String.eqb q mysql_slow_query then slow
    else if String.eqb q mysql_active_connections_query then active
    else if String.eqb q mysql_total_connections_query then total
    else if String.eqb q mysql_database_size_query then size
    else Raise (DriverError "syntax error").

Definition open_connection (server : string -> res qresult) : scripted :=
  {| answers := server; closed := false |}.

Definition pg_columns : list string :=
  ["pid"; "usename"; "datname"; "duration_ms"; "state";
   "wait_event_type"; "wait_event"; "query_preview"].

Definition pg_row (pid : Z) (duration_ms : value) : list value :=
  [VInt pid; VStr "app"; VStr "shop"; duration_ms; VStr "active";
   VNone; VNone; VStr "SELECT * FROM orders"].

(** Three running statements: at the threshold, just above it, and far
    above it. *)
Definition three_statements : res qresult :=
  Ok {| description := pg_columns;
        rows := [pg_row 11 (VNum (12000 # 1));
                 pg_row 12 (VNum (500001 # 100));
                 pg_row 13 (VNum (5000 # 1))] |}.

Definition no_statement : res qresult :=
  Ok {| description := pg_columns; rows := [] |}.

(** A postgresql monitor whose server reports [active] active
    connections and answers the ratio statement with [cache]. *)
Definition pg_monitor (slow : res qresult) (active : value) (cache : res qresult)
    : @monitor scripted :=
  monitor_on "postgresql"
    (Some (open_connection
       (pg_server slow (scalar active) (scalar (VInt 120)) (scalar (VStr "8192 kB")) cache))).

Definition record_of_pg_row (row : list value) : dict :=
  dict_of_pairs (zip pg_columns row).

(** The postgresql statement converts to milliseconds on the server; the
    record of a row holds under [duration_ms] what the server put in the
    fourth column. *)
Lemma pg_record_duration (row : list value) :
  length row = 8%nat ->
  dict_get (record_of_pg_row row) "duration_ms" = nth_error row 3.
Proof.
  intros H.
  destruct row as [|v0 [|v1 [|v2 [|v3 [|v4 [|v5 [|v6 [|v7 [|]]]]]]]]];
    try discriminate H.
  reflexivity.
Qed.

(* ------------------------------------------------------------------ *)
(** *** Connector *)

(** With the tag [SQLite] the monitor calls no driver and answers
    [False]. *)
Lemma connect_sqlite_returns_false :
  connect (drv := psycopg2_like) (monitor_on "SQLite" None) =
    (Ok false, monitor_on "SQLite" None,
     [Log ERROR [Lit "Failed to connect: ";
                 ExnStr (ValueError ("Unsupported database type: "
                                     ++ db_type (monitor_on "SQLite" None)))]])
  /\ connect_calls (events_of (connect (drv := psycopg2_like) (monitor_on "SQLite" None))) = O.
Proof.
  apply (@connect_unsupported_returns_false scripted psycopg2_like (monitor_on "SQLite" None)).
  split; discriminate.
Defined.

(** [connect] on an unsupported tag raises nothing: like a refused
    connection, it ends with [False] and an error line in the log. *)
Lemma connect_unsupported_raises_nothing :
  (forall e, result_of (connect (drv := psycopg2_like) (monitor_on "sqlite" None)) <> Raise e)
  /\ result_of (connect (drv := psycopg2_like) (monitor_on "sqlite" None)) =
     result_of (connect (drv := psycopg2_like) (monitor_on "postgresql" None)).
Proof. split; [intros e; discriminate | reflexivity]. Qed.

(** With a driver that refuses to close a closed connection, the second
    [disconnect] raises. *)
Lemma disconnect_twice_raises :
  let self := monitor_on "mysql" (Some (open_connection server_down)) in
  result_of (disconnect (drv := pymysql_like) self) = Ok tt
  /\ result_of
       (disconnect (drv := pymysql_like) (state_of (disconnect (drv := pymysql_like) self)))
     = Raise (DriverError "Already closed").
Proof. split; vm_compute; reflexivity. Qed.

(** With a driver that tolerates it, the second [disconnect] closes
    again and returns. *)
Lemma disconnect_twice_lenient :
  let self := monitor_on "postgresql" (Some (open_connection server_down)) in
  events_of
    (disconnect (drv := psycopg2_like) (state_of (disconnect (drv := psycopg2_like) self)))
  = [Close; Log INFO [Lit "Database connection closed"]].
Proof. vm_compute. reflexivity. Qed.

(* ------------------------------------------------------------------ *)
(** *** Thresholds *)

Definition busy_monitor : @monitor scripted :=
  pg_monitor three_statements (VInt 101) (pg_cache_hit_ratio_answer 9499 501).

Definition three_records : list dict :=
  map record_of_pg_row
    [pg_row 11 (VNum (12000 # 1)); pg_row 12 (VNum (500001 # 100));
     pg_row 13 (VNum (5000 # 1))].

Definition busy_stats : dict :=
  [("active_connections", VInt 101); ("total_connections", VInt 120);
   ("database_size", VStr "8192 kB"); ("cache_hit_ratio", VNum (9499 # 100))].

(** Of the statements running for 12000, 5000.01 and 5000 ms the first
    two are reported, the third is not. *)
Lemma very_slow_alert_boundary :
  findings_about "Very Slow Query Detected (PID "
    (events_of (check_and_alert (drv := psycopg2_like) "2024-05-01 12:00:00" busy_monitor)) =
    map very_slow_finding (filter very_slow three_records).
Proof.
  refine (proj1 (@very_slow_alert_iff_over_5000 scripted psycopg2_like
                   "2024-05-01 12:00:00" busy_monitor three_records _ _)).
  - vm_compute. reflexivity.
  - repeat constructor; eexists; reflexivity.
Defined.

Example very_slow_alert_boundary_pids :
  map fst
    (findings_about "Very Slow Query Detected (PID "
       (events_of (check_and_alert (drv := psycopg2_like) "2024-05-01 12:00:00" busy_monitor))) =
    [[Lit "Very Slow Query Detected (PID "; Str (VInt 11); Lit ")"];
     [Lit "Very Slow Query Detected (PID "; Str (VInt 12); Lit ")"]].
Proof. vm_compute. reflexivity. Qed.

(** 101 active connections raise one alert. *)
Lemma high_connections_alert_at_101 :
  findings_about "High Active Connection Count"
    (events_of (check_and_alert (drv := psycopg2_like) "2024-05-01 12:00:00" busy_monitor)) =
    [high_connections_finding (VInt 101)].
Proof.
  refine (proj1 (@high_connections_alert_iff_over_100 scripted psycopg2_like
                   "2024-05-01 12:00:00" busy_monitor three_records busy_stats (VInt 101)
                   _ _ _ _) _).
  - vm_compute. reflexivity.
  - repeat constructor; eexists; reflexivity.
  - vm_compute. reflexivity.
  - reflexivity.
  - reflexivity.
Defined.

(** 100 active connections raise none. *)
Example high_connections_alert_at_100 :
  findings_about "High Active Connection Count"
    (events_of (check_and_alert (drv := psycopg2_like) "2024-05-01 12:00:00"
       (pg_monitor three_statements (VInt 100) (pg_cache_hit_ratio_answer 9499 501)))) = [].
Proof. vm_compute. reflexivity. Qed.

(** A ratio of 94.99 raises one alert, a ratio of 95 none. *)
Example low_cache_alert_at_94_99 :
  findings_about "Low Cache Hit Ratio"
    (events_of (check_and_alert (drv := psycopg2_like) "2024-05-01 12:00:00" busy_monitor)) =
    [low_cache_finding (VNum (9499 # 100))].
Proof. vm_compute. reflexivity. Qed.

Example low_cache_alert_at_95 :
  findings_about "Low Cache Hit Ratio"
    (events_of (check_and_alert (drv := psycopg2_like) "2024-05-01 12:00:00"
       (pg_monitor three_statements (VInt 100) (pg_cache_hit_ratio_answer 95 5)))) = [].
Proof. vm_compute. reflexivity. Qed.

(** C1 at its failing input. A database that has read ten blocks and
    hit none has a cache hit ratio of 0.00, which is below 95; the cycle
    holds that value in its statistics and sends no alert, because the
    test [cache_ratio and cache_ratio < 95] takes zero for a missing
    value. *)
Theorem zero_cache_ratio_sends_no_alert :
  let self := pg_monitor no_statement (VInt 7) (pg_cache_hit_ratio_answer 0 10) in
  let run := check_and_alert (drv := psycopg2_like) "2024-05-01 12:00:00" self in
  (exists s, result_of run = Ok s
             /\ dict_get (stats s) "cache_hit_ratio" = Some (VNum (0 # 100)))
  /\ (0 # 100 < inject_Z 95)%Q
  /\ findings (events_of run) = [].
Proof.
  split; [eexists; split; vm_compute; reflexivity|].
  split; vm_compute; reflexivity.
Qed.

(* ------------------------------------------------------------------ *)
(** *** Failing probes *)

Definition cut_off_monitor : @monitor scripted :=
  monitor_on "postgresql" (Some (open_connection server_down)).

(** Against a server that fails every statement both probes come back
    empty and the cycle returns an empty summary without an alert. *)
Lemma cut_off_cycle_is_empty :
  outcome (check_and_alert (drv := psycopg2_like) "2024-05-01 12:00:00" cut_off_monitor) =
    (Ok {| slow_queries_count := 0; slow_queries := []; stats := [] |}, []).
Proof.
  assert (Hni : no_interrupt (drv := psycopg2_like) (open_connection server_down)).
  { intros q e H. vm_compute in H. injection H as <-. reflexivity. }
  destruct (@probe_failure_yields_empty_result scripted psycopg2_like
              "2024-05-01 12:00:00" cut_off_monitor (open_connection server_down)
              eq_refl Hni) as (Hslow & _ & Hstats & _ & Hcycle & _).
  apply Hcycle.
  - apply Hslow; [reflexivity | eexists; reflexivity].
  - apply Hstats; [reflexivity | constructor; eexists; reflexivity].
Defined.

(* ------------------------------------------------------------------ *)
(** *** An idle database *)

Definition idle_monitor : @monitor scripted :=
  pg_monitor no_statement (VInt 1) (pg_cache_hit_ratio_answer 0 0).

Lemma idle_database_has_no_ratio :
  exists st,
    result_of (get_database_stats (drv := psycopg2_like) idle_monitor) = Ok st
    /\ dict_get st "cache_hit_ratio" = Some VNone
    /\ result_of (check_and_alert (drv := psycopg2_like) "2024-05-01 12:00:00" idle_monitor) =
         Ok {| slow_queries_count := 0; slow_queries := []; stats := st |}
    /\ findings_about "Low Cache Hit Ratio"
         (events_of (check_and_alert (drv := psycopg2_like) "2024-05-01 12:00:00" idle_monitor))
       = [].
Proof.
  destruct (@zero_blocks_give_no_ratio scripted psycopg2_like
              "2024-05-01 12:00:00" idle_monitor _ _ _ _
              eq_refl eq_refl eq_refl eq_refl eq_refl eq_refl)
    as (st & Hst & Hnone & _ & Hcycle).
  exists st. split; [exact Hst|]. split; [exact Hnone|].
  apply (Hcycle []).
  - vm_compute. reflexivity.
  - constructor.
  - clear Hcycle Hnone.
    vm_compute in Hst. injection Hst as <-. vm_compute. eexists. reflexivity.
Defined.

(* ------------------------------------------------------------------ *)
(** *** The mysql process list *)

Definition process_list : res qresult :=
  Ok {| description := ["pid"; "usename"; "datname"; "duration_seconds"; "state";
                        "query_preview"];
        rows := [[VInt 31; VStr "root"; VStr "shop"; VInt 7; VStr "Sending data";
                  VStr "SELECT * FROM orders"];
                 [VInt 32; VStr "root"; VStr "shop"; VInt 2; VStr "updating";
                  VStr "UPDATE stock SET n = 0"]] |}.

Definition mysql_monitor (slow : res qresult) : @monitor scripted :=
  monitor_on "mysql"
    (Some (open_connection
       (mysql_server slow (scalar (VInt 3)) (scalar (VInt 9)) (scalar (VStr "12.50 MB"))))).

Lemma process_list_in_milliseconds :
  exists sq,
    get_slow_queries_mysql (drv := pymysql_like) (mysql_monitor process_list) =
      (Ok sq, mysql_monitor process_list, [Execute mysql_slow_query])
    /\ Forall2 in_milliseconds
         [[VInt 31; VStr "root"; VStr "shop"; VInt 7; VStr "Sending data";
           VStr "SELECT * FROM orders"];
          [VInt 32; VStr "root"; VStr "shop"; VInt 2; VStr "updating";
           VStr "UPDATE stock SET n = 0"]] sq.
Proof.
  apply (@mysql_duration_is_time_times_1000 scripted pymysql_like
           (mysql_monitor process_list) _ _ eq_refl eq_refl).
  repeat constructor; eexists; reflexivity.
Defined.

Example process_list_durations :
  option_map (map duration_of)
    match result_of (get_slow_queries (drv := pymysql_like) (mysql_monitor process_list)) with
    | Ok sq => Some sq
    | Raise _ => None
    end = Some [VInt 7000; VInt 2000].
Proof. vm_compute. reflexivity. Qed.

(** A process list headed by a replication thread: its [Info] is NULL,
    it is not sleeping and it has been running for a day. *)
Definition replicating : res qresult :=
  Ok {| description := ["pid"; "usename"; "datname"; "duration_seconds"; "state";
                        "query_preview"];
        rows := [[VInt 5; VStr "repl"; VNone; VInt 86400;
                  VStr "Master has sent all binlog to slave"; VNone];
                 [VInt 31; VStr "root"; VStr "shop"; VInt 9; VStr "Sending data";
                  VStr "SELECT * FROM orders"]] |}.

(** C4 at its failing input. The record of a process whose [Info] is NULL
    reaches the loop with [None] as its preview and a [duration_ms] of
    86400000, far above 5000. Slicing the preview for the log line raises
    [TypeError] before the threshold is tested: the cycle ends there, and
    neither that record nor the 9000 ms statement behind it gets its
    alert. *)
Theorem null_preview_record_gets_no_alert :
  let self := mysql_monitor replicating in
  let run := check_and_alert (drv := pymysql_like) "2024-05-01 12:00:00" self in
  (exists first second,
     result_of (get_slow_queries (drv := pymysql_like) self) = Ok [first; second]
     /\ preview_of first = VNone
     /\ duration_of first = VInt 86400000
     /\ very_slow first = true
     /\ very_slow second = true)
  /\ result_of run = Raise TypeError
  /\ findings (events_of run) = [].
Proof.
  split; [|split; vm_compute; reflexivity].
  eexists. eexists. split; [vm_compute; reflexivity|].
  repeat split; vm_compute; reflexivity.
Qed.

(** A mysql server with 150 threads at work, behind the same process
    list. *)
Definition crowded (slow : res qresult) : @monitor scripted :=
  monitor_on "mysql"
    (Some (open_connection
       (mysql_server slow (scalar (VInt 150)) (scalar (VInt 160))
          (scalar (VStr "12.50 MB"))))).

(** C5 at its failing input. The server has 150 active connections, and
    the statistics probe would report them under [active_connections];
    but the process list is headed by the replication thread of C4, the
    cycle ends with [TypeError] in the loop over the slow queries, the
    statistics are never asked for, and no "High Active Connection Count"
    alert is sent. *)
Theorem null_preview_hides_high_connections :
  let self := crowded replicating in
  let run := check_and_alert (drv := pymysql_like) "2024-05-01 12:00:00" self in
  (exists st,
     result_of (get_database_stats (drv := pymysql_like) self) = Ok st
     /\ dict_get st "active_connections" = Some (VInt 150))
  /\ result_of run = Raise TypeError
  /\ executed (events_of run) = [mysql_slow_query]
  /\ findings_about "High Active Connection Count" (events_of run) = []
  /\ findings (events_of run) = [].
Proof.
  split; [eexists; split; vm_compute; reflexivity|].
  repeat split; vm_compute; reflexivity.
Qed.

(** Behind a process list whose previews are all text the same 150
    connections bring their alert. *)
Example crowded_server_alert :
  findings_about "High Active Connection Count"
    (events_of (check_and_alert (drv := pymysql_like) "2024-05-01 12:00:00"
                  (crowded process_list))) =
    [high_connections_finding (VInt 150)].
Proof. vm_compute. reflexivity. Qed.

(* ------------------------------------------------------------------ *)
(** *** Two dialects, one outcome *)

Definition lone_statement : res qresult :=
  Ok {| description := ["pid"; "usename"; "datname"; "duration_ms"; "state";
                        "query_preview"];
        rows := [[VInt 31; VStr "root"; VStr "shop"; VInt 7000; VStr "Sending data";
                  VStr "SELECT * FROM orders"]] |}.

Definition lone_process : res qresult :=
  Ok {| description := [];
        rows := [[VInt 31; VStr "root"; VStr "shop"; VInt 7; VStr "Sending data";
                  VStr "SELECT * FROM orders"]] |}.

Definition no_statistics : res qresult := Raise (DriverError "permission denied").

Definition pg_side : @monitor scripted :=
  monitor_on "postgresql"
    (Some (open_connection
       (pg_server lone_statement no_statistics no_statistics no_statistics no_statistics))).

Definition mysql_side : @monitor scripted :=
  monitor_on "mysql"
    (Some (open_connection
       (mysql_server lone_process no_statistics no_statistics no_statistics))).

Lemma same_probes_same_outcome :
  findings (events_of (check_and_alert (drv := psycopg2_like) "2024-05-01 12:00:00" pg_side)) =
    findings (events_of (check_and_alert (drv := psycopg2_like) "2024-05-02 08:30:00" mysql_side))
  /\ result_of (check_and_alert (drv := psycopg2_like) "2024-05-01 12:00:00" pg_side) =
     result_of (check_and_alert (drv := psycopg2_like) "2024-05-02 08:30:00" mysql_side)
  /\ state_of (check_and_alert (drv := psycopg2_like) "2024-05-01 12:00:00" pg_side) = pg_side
  /\ state_of (check_and_alert (drv := psycopg2_like) "2024-05-02 08:30:00" mysql_side) = mysql_side.
Proof.
  apply (@check_and_alert_depends_on_probes_only scripted psycopg2_like
           "2024-05-01 12:00:00" "2024-05-02 08:30:00" pg_side mysql_side).
  - vm_compute. reflexivity.
  - vm_compute. reflexivity.
Defined.

Example same_probes_one_alert :
  findings (events_of (check_and_alert (drv := psycopg2_like) "2024-05-02 08:30:00" mysql_side)) =
    [([Lit "Very Slow Query Detected (PID "; Str (VInt 31); Lit ")"],
      [Lit "Query running for "; Fixed2 (7000 # 1000); Lit "s:"; Lit nl;
       Str (VStr "SELECT * FROM orders")])].
Proof. vm_compute. reflexivity. Qed.

(* ------------------------------------------------------------------ *)
(** *** An unknown dialect *)

(** The tag is lowered when the monitor is built, so it is the lowered
    tag that decides. *)
Example mixed_case_tag_is_supported :
  db_type (Conn := scripted) (init [] "MySQL") = "mysql".
Proof. reflexivity. Qed.

Lemma oracle_cycle_is_empty :
  get_slow_queries (drv := psycopg2_like) (monitor_on "Oracle" None) =
    (Ok [], monitor_on "Oracle" None, [])
  /\ get_database_stats (drv := psycopg2_like) (monitor_on "Oracle" None) =
       (Ok [], monitor_on "Oracle" None, [])
  /\ result_of (check_and_alert (drv := psycopg2_like) "2024-05-01 12:00:00"
                  (monitor_on "Oracle" None)) =
       Ok {| slow_queries_count := 0; slow_queries := []; stats := [] |}
  /\ findings (events_of (check_and_alert (drv := psycopg2_like) "2024-05-01 12:00:00"
                            (monitor_on "Oracle" None))) = [].
Proof.
  apply (@unknown_dialect_probes_are_empty scripted psycopg2_like
           "2024-05-01 12:00:00" (monitor_on "Oracle" None)).
  split; discriminate.
Defined.

(* ------------------------------------------------------------------ *)
(** *** The probes on scripted answers *)

Definition three_rows : qresult :=
  {| description := pg_columns;
     rows := [pg_row 11 (VNum (12000 # 1)); pg_row 12 (VNum (500001 # 100));
              pg_row 13 (VNum (5000 # 1))] |}.

Definition busy_connection : scripted :=
  open_connection
    (pg_server three_statements (scalar (VInt 101)) (scalar (VInt 120))
       (scalar (VStr "8192 kB")) (pg_cache_hit_ratio_answer 9499 501)).

(** The three rows of the busy server become three records under the
    eight column names. *)
Lemma busy_records_follow_columns :
  exists sq,
    get_slow_queries_postgresql (drv := psycopg2_like) busy_monitor =
      (Ok sq, busy_monitor, [Execute pg_slow_query])
    /\ length sq = length (rows three_rows)
    /\ forall j row query,
         nth_error (rows three_rows) j = Some row ->
         nth_error sq j = Some query ->
         (forall i k v,
            nth_error (description three_rows) i = Some k -> nth_error row i = Some v ->
            dict_get query k = Some v)
         /\ (forall k, ~ In k (description three_rows) -> dict_get query k = None).
Proof.
  refine (@pg_records_follow_columns scripted psycopg2_like busy_monitor busy_connection
            three_rows _ _ _).
  - reflexivity.
  - vm_compute. reflexivity.
  - repeat (constructor; [simpl; intuition discriminate|]). constructor.
Defined.

(** A monitor that never connected runs an empty cycle. *)
Lemma unconnected_cycle_is_empty :
  outcome (check_and_alert (drv := psycopg2_like) "2024-05-01 12:00:00"
             (monitor_on "postgresql" None)) =
    (Ok {| slow_queries_count := 0; slow_queries := []; stats := [] |}, [])
  /\ state_of (check_and_alert (drv := psycopg2_like) "2024-05-01 12:00:00"
                 (monitor_on "postgresql" None)) = monitor_on "postgresql" None.
Proof.
  refine (@check_and_alert_without_connection scripted psycopg2_like
            "2024-05-01 12:00:00" (monitor_on "postgresql" None) _).
  reflexivity.
Defined.

Definition busy_summary : summary :=
  {| slow_queries_count := 3; slow_queries := three_records; stats := busy_stats |}.

(** The summary of the busy cycle holds the three records and the four
    statistics its probes return. *)
Lemma busy_summary_reports_probes :
  result_of (get_slow_queries (drv := psycopg2_like) busy_monitor) =
    Ok (slow_queries busy_summary)
  /\ result_of (get_database_stats (drv := psycopg2_like) busy_monitor) =
       Ok (stats busy_summary)
  /\ slow_queries_count busy_summary = Z.of_nat (length (slow_queries busy_summary)).
Proof.
  refine (@summary_reports_probe_results scripted psycopg2_like
            "2024-05-01 12:00:00" busy_monitor busy_summary _).
  vm_compute. reflexivity.
Defined.

(** A process list whose second row came back short of its last
    column. *)
Definition short_row_list : qresult :=
  {| description := ["pid"; "usename"; "datname"; "duration_seconds"; "state";
                     "query_preview"];
     rows := [[VInt 31; VStr "root"; VStr "shop"; VInt 7; VStr "Sending data";
               VStr "SELECT * FROM orders"];
              [VInt 32; VStr "root"; VStr "shop"; VInt 2; VStr "updating"]] |}.

Definition short_row_connection : scripted :=
  open_connection
    (mysql_server (Ok short_row_list) (scalar (VInt 3)) (scalar (VInt 9))
       (scalar (VStr "12.50 MB"))).

(** The good first row is dropped together with the short second one. *)
Lemma short_row_drops_process_list :
  exists e,
    (e = IndexError \/ e = TypeError)
    /\ get_slow_queries_mysql (drv := pymysql_like) (mysql_monitor (Ok short_row_list)) =
         (Ok [], mysql_monitor (Ok short_row_list),
          [Execute mysql_slow_query;
           Log ERROR [Lit "Error fetching slow queries: "; ExnStr e]]).
Proof.
  refine (@mysql_probe_drops_all_rows scripted pymysql_like
            (mysql_monitor (Ok short_row_list)) short_row_connection short_row_list _ _ _).
  - reflexivity.
  - vm_compute. reflexivity.
  - right. left. left. simpl. lia.
Defined.

(** The statistics of the busy server hold the four postgresql keys. *)
Lemma busy_stats_are_complete :
  busy_stats = []
  \/ (db_type busy_monitor = "postgresql" /\
      map fst busy_stats = ["active_connections"; "total_connections"; "database_size";
                            "cache_hit_ratio"])
  \/ (db_type busy_monitor = "mysql" /\
      map fst busy_stats = ["active_connections"; "total_connections"; "database_size"]).
Proof.
  refine (@stats_are_all_or_nothing scripted psycopg2_like busy_monitor busy_stats _).
  vm_compute. reflexivity.
Defined.

(** The mysql cycle over the process list sends no cache alert. *)
Lemma process_list_cycle_has_no_cache_alert :
  findings_about "Low Cache Hit Ratio"
    (events_of (check_and_alert (drv := pymysql_like) "2024-05-01 12:00:00"
                  (mysql_monitor process_list))) = [].
Proof.
  refine (@mysql_cycle_sends_no_cache_alert scripted pymysql_like
            "2024-05-01 12:00:00" (mysql_monitor process_list) _).
  reflexivity.
Defined.

(** A record whose preview has 112 characters in 117 bytes: five of them
    are outside ASCII, four among the first 80. *)
Definition long_preview : string :=
  "SELECT id FROM clients WHERE ville IN ('Orléans', 'Besançon', 'Nîmes', 'Sète') AND nom LIKE 'Dupré%' ORDER BY id".

Definition long_record : dict :=
  [("pid", VInt 11); ("duration_ms", VNum (12000 # 1)); ("query_preview", VStr long_preview)].

(** The log line of the long record stops after 80 characters, its alert
    does not. *)
Lemma long_preview_is_cut :
  In (Log WARNING [Lit "     Query: "; Str (VStr (take_chars 80 long_preview)); Lit "..."])
     (events_of (report_slow_query 1 long_record busy_monitor))
  /\ py_len (take_chars 80 long_preview) = Nat.min 80 (py_len long_preview)
  /\ (exists rest,
        long_preview = take_chars 80 long_preview ++ rest /\ starts_character rest = true)
  /\ ((py_len long_preview <= 80)%nat -> take_chars 80 long_preview = long_preview)
  /\ (very_slow long_record = true ->
      exists subject seconds,
        findings (events_of (report_slow_query 1 long_record busy_monitor)) =
          [(subject, [Lit "Query running for "; Fixed2 seconds; Lit "s:"; Lit nl;
                      Str (VStr long_preview)])]).
Proof.
  refine (@logged_preview_is_cut_at_80 scripted 1 long_record busy_monitor
            long_preview (12000 # 1) _ _).
  - reflexivity.
  - reflexivity.
Defined.

Example long_preview_lengths :
  py_len long_preview = 112%nat
  /\ String.length long_preview = 117%nat
  /\ take_chars 80 long_preview =
       "SELECT id FROM clients WHERE ville IN ('Orléans', 'Besançon', 'Nîmes', 'Sète') A"
  /\ String.length (take_chars 80 long_preview) = 84%nat.
Proof. repeat split; reflexivity. Qed.

(** A preview of 41 accented characters takes 82 bytes and is logged
    whole; a cut made after 41 characters of a longer one keeps every
    byte of the last. *)
Example accented_preview_is_whole :
  String.length (repeat_string "é" 41) = 82%nat
  /\ take_chars 80 (repeat_string "é" 41) = repeat_string "é" 41
  /\ take_chars 41 (repeat_string "é" 50) = repeat_string "é" 41.
Proof. repeat split; reflexivity. Qed.

(** 9499 hits and 501 reads give a ratio between 0 and 100. *)
Lemma cache_ratio_of_busy_server :
  match pg_cache_hit_ratio 9499 501 with
  | Ok None => 9499 = 0 /\ 501 = 0
  | Ok (Some ratio) => 0 < 9499 + 501 /\ (0 <= ratio)%Q /\ (ratio <= inject_Z 100)%Q
  | Raise _ => False
  end.
Proof.
  refine (cache_ratio_statement_is_safe 9499 501 _ _); lia.
Defined.

(* ------------------------------------------------------------------ *)
(** *** The polling loop on scripted servers *)

(** Drivers whose [connect] is answered by a server. *)
Definition psycopg2_to (server : string -> res qresult) : Driver scripted :=
  lenient_driver (Ok (open_connection server)).

Definition pymysql_to (server : string -> res qresult) : Driver scripted :=
  strict_driver (Ok (open_connection server)).

Definition busy_server : string -> res qresult :=
  pg_server three_statements (scalar (VInt 101)) (scalar (VInt 120))
    (scalar (VStr "8192 kB")) (pg_cache_hit_ratio_answer 9499 501).

Definition replicating_server : string -> res qresult :=
  mysql_server replicating (scalar (VInt 3)) (scalar (VInt 9)) (scalar (VStr "12.50 MB")).

(** A minute passes between two checks and no sleep is disturbed; from
    the third check on the server is gone. *)
Definition minutes : @world scripted :=
  {| clock := fun k => inject_Z (60 * Z.of_nat k);
     wall := fun _ => "2024-05-01 12:00:00";
     nap := fun _ => Ok tt;
     drift := fun k c => if (3 <=? k)%nat then open_connection server_down else c |}.

(** With no server listening [monitor] returns at once. *)
Lemma monitor_without_server :
  result_of (monitor_run (drv := psycopg2_like) minutes 60 None 5
               (monitor_on "postgresql" None)) = Ok Returned
  /\ state_of (monitor_run (drv := psycopg2_like) minutes 60 None 5
                 (monitor_on "postgresql" None)) = monitor_on "postgresql" None
  /\ checks (events_of (monitor_run (drv := psycopg2_like) minutes 60 None 5
                          (monitor_on "postgresql" None))) = O
  /\ executed (events_of (monitor_run (drv := psycopg2_like) minutes 60 None 5
                            (monitor_on "postgresql" None))) = []
  /\ close_calls (events_of (monitor_run (drv := psycopg2_like) minutes 60 None 5
                               (monitor_on "postgresql" None))) = O
  /\ In (Log ERROR [Lit "Failed to connect to database"])
        (events_of (monitor_run (drv := psycopg2_like) minutes 60 None 5
                      (monitor_on "postgresql" None)))
  /\ (connect_calls (events_of (monitor_run (drv := psycopg2_like) minutes 60 None 5
                                  (monitor_on "postgresql" None))) <= 1)%nat
  /\ events_of (monitor_run (drv := psycopg2_like) minutes 60 None 5
                  (monitor_on "postgresql" None)) =
       (Log INFO [Lit "Starting continuous monitoring (interval: "; Str (VInt 60);
                  Lit "s)"] ::
        events_of (connect (drv := psycopg2_like) (monitor_on "postgresql" None)) ++
        [Log ERROR [Lit "Failed to connect to database"]])%list.
Proof.
  refine (@monitor_gives_up_without_connection scripted psycopg2_like minutes 60 None 5
            (monitor_on "postgresql" None) _).
  vm_compute. reflexivity.
Defined.

(** Two minutes of monitoring open one connection and close it once. *)
Lemma two_minutes_close_once :
  connect_calls (events_of (monitor_run (drv := psycopg2_to busy_server) minutes 60
                              (Some 120) 5 (monitor_on "postgresql" None))) = 1%nat
  /\ match result_of (monitor_run (drv := psycopg2_to busy_server) minutes 60
                        (Some 120) 5 (monitor_on "postgresql" None)) with
     | Ok Running =>
         close_calls (events_of (monitor_run (drv := psycopg2_to busy_server) minutes 60
                                   (Some 120) 5 (monitor_on "postgresql" None))) = O
     | _ =>
         close_calls (events_of (monitor_run (drv := psycopg2_to busy_server) minutes 60
                                   (Some 120) 5 (monitor_on "postgresql" None))) = 1%nat
     end.
Proof.
  refine (@monitor_closes_once scripted (psycopg2_to busy_server) minutes 60 (Some 120) 5
            (monitor_on "postgresql" None) Psycopg2 (open_connection busy_server) _ _).
  - reflexivity.
  - reflexivity.
Defined.


(** With a duration of two minutes the second check is the last. *)
Lemma two_minutes_two_checks :
  result_of (monitor_run (drv := psycopg2_to busy_server) minutes 60 (Some 120) 5
               (monitor_on "postgresql" None)) =
    after_close (drv := psycopg2_to busy_server)
      (at_check minutes (monitor_on "postgresql" None) (open_connection busy_server) 2)
  /\ checks (events_of (monitor_run (drv := psycopg2_to busy_server) minutes 60 (Some 120) 5
                          (monitor_on "postgresql" None))) = 2%nat
  /\ In (limit_log (Some 120))
        (events_of (monitor_run (drv := psycopg2_to busy_server) minutes 60 (Some 120) 5
                      (monitor_on "postgresql" None))).
Proof.
  refine (@monitor_stops_at_duration scripted (psycopg2_to busy_server) minutes 60
            (Some 120) 5 (monitor_on "postgresql" None) Psycopg2
            (open_connection busy_server) 1 _ _ _ _ _ _).
  - reflexivity.
  - reflexivity.
  - intros j Hj. assert (Hj1 : j = 1%nat) by lia. subst j.
    split; [eexists; vm_compute; reflexivity | split; reflexivity].
  - eexists. vm_compute. reflexivity.
  - reflexivity.
  - lia.
Defined.

Example two_minutes_returns :
  result_of (monitor_run (drv := psycopg2_to busy_server) minutes 60 (Some 120) 5
               (monitor_on "postgresql" None)) = Ok Returned.
Proof. vm_compute. reflexivity. Qed.

(** A duration that is over before the first check still gets one
    check. *)
Example one_second_one_check :
  checks (events_of (monitor_run (drv := psycopg2_to busy_server) minutes 60 (Some 1) 5
                       (monitor_on "postgresql" None))) = 1%nat.
Proof. vm_compute. reflexivity. Qed.

(** The replication thread of C4 ends the monitoring in its first
    check. *)
Lemma replication_thread_stops_monitor :
  result_of (monitor_run (drv := pymysql_to replicating_server) minutes 60 None 5
               (monitor_on "mysql" None)) =
    after_close (drv := pymysql_to replicating_server)
      (at_check minutes (monitor_on "mysql" None) (open_connection replicating_server) 1)
  /\ checks (events_of (monitor_run (drv := pymysql_to replicating_server) minutes 60 None 5
                          (monitor_on "mysql" None))) = 1%nat
  /\ In (handler_log TypeError)
        (events_of (monitor_run (drv := pymysql_to replicating_server) minutes 60 None 5
                      (monitor_on "mysql" None))).
Proof.
  refine (@monitor_stops_at_failing_check scripted (pymysql_to replicating_server) minutes 60
            None 5 (monitor_on "mysql" None) Pymysql (open_connection replicating_server)
            0 TypeError _ _ _ _ _).
  - reflexivity.
  - reflexivity.
  - intros j Hj. lia.
  - vm_compute. reflexivity.
  - lia.
Defined.

(** A negative interval ends the monitoring after the first check. *)
Lemma negative_interval_one_check :
  result_of (monitor_run (drv := psycopg2_to busy_server) minutes (-1) None 5
               (monitor_on "postgresql" None)) =
    after_close (drv := psycopg2_to busy_server)
      (at_check minutes (monitor_on "postgresql" None) (open_connection busy_server) 1)
  /\ checks (events_of (monitor_run (drv := psycopg2_to busy_server) minutes (-1) None 5
                          (monitor_on "postgresql" None))) = 1%nat
  /\ In (handler_log (ValueError "sleep length must be non-negative"))
        (events_of (monitor_run (drv := psycopg2_to busy_server) minutes (-1) None 5
                      (monitor_on "postgresql" None))).
Proof.
  refine (@monitor_stops_at_failing_sleep scripted (psycopg2_to busy_server) minutes (-1)
            None 5 (monitor_on "postgresql" None) Psycopg2 (open_connection busy_server)
            0 (ValueError "sleep length must be non-negative") _ _ _ _ _ _ _).
  - reflexivity.
  - reflexivity.
  - intros j Hj. lia.
  - eexists. vm_compute. reflexivity.
  - reflexivity.
  - reflexivity.
  - lia.
Defined.

(* ------------------------------------------------------------------ *)
(** *** The command line on scripted servers *)

(** Against the busy server [main] prints three slow queries and exits
    with code 0. *)
Example main_on_busy_server :
  ended (main (drv := psycopg2_to busy_server) "2024-05-01 12:00:00") = Exit 0
  /\ printed (main (drv := psycopg2_to busy_server) "2024-05-01 12:00:00") =
       print_summary busy_summary.
Proof. split; vm_compute; reflexivity. Qed.

(** With no server listening it exits with code 1. *)
Example main_without_server :
  main (drv := psycopg2_like) "2024-05-01 12:00:00" =
    (Exit 1, [],
     [Connect Psycopg2 pg_config;
      Log ERROR [Lit "Failed to connect: "; ExnStr (DriverError "connection refused")]]).
Proof. vm_compute. reflexivity. Qed.
